(** * DataZone administration scripts: a shallow embedding and its properties

    The development follows the Python sources
      - [smus_scripts.py]    (catalog helpers: listing, glossary creation,
                              metadata-form upsert, metadata extraction),
      - [republish_asset.py] (changeset polling and the republish driver),
      - [backup_metadata.py] (metadata backup driver).

    Modelling choices.
      - Python values are [pyval] (no floats); a dictionary is an
        association list in insertion order, as CPython keeps it, and a
        form is such a dictionary, since the code reads and writes its keys
        by name.
      - [json] and [pandas] are libraries, not code of the repository: the
        scripts are embedded over an arbitrary JSON codec (section
        variables), and over the small fragment of pandas that the backup
        uses.
      - The remote catalog answers through oracles: a function of the
        request where one call per request is made, a script of successive
        responses where calls repeat ([search], [get_listing]) and for the
        readings of the clock.  Every call, print and sleep is recorded in
        a chronological trace.
      - A run returns, raises, or is [Stuck] when its script is too short
        to tell how it goes on. *)

From Stdlib Require Import List String Ascii ZArith Bool Lia DecimalString.
Import ListNotations.
Local Open Scope string_scope.
Local Open Scope Z_scope.
Set Warnings "-register-all".

(* ===================================================================== *)
(** * Part I -- definitions                                               *)
(* ===================================================================== *)

(** ** Python values *)

Module Py.

Inductive pyval : Type :=
| PNone
| PBool (b : bool)
| PInt (n : Z)
| PStr (s : string)
| PList (xs : list pyval)
| PDict (d : list (string * pyval)).

(** A [dict] with string keys, in insertion order. *)
Definition pydict : Type := list (string * pyval).

Definition keys (d : pydict) : list string := map fst d.

(** [d.get(k)] as an option: [None] when the key is absent. *)
Fixpoint dict_get (k : string) (d : pydict) : option pyval :=
  match d with
  | [] => None
  | (k', v) :: r => if String.eqb k k' then Some v else dict_get k r
  end.

(** [k in d] *)
Definition dict_mem (k : string) (d : pydict) : bool :=
  match dict_get k d with Some _ => true | None => false end.

(** [d.get(k)] as Python returns it: [None] (the value) when absent. *)
Definition dict_get_or_none (k : string) (d : pydict) : pyval :=
  match dict_get k d with Some v => v | None => PNone end.

(** [d[k] = v]: an existing key keeps its position, a new key goes last. *)
Fixpoint dict_set (k : string) (v : pyval) (d : pydict) : pydict :=
  match d with
  | [] => [(k, v)]
  | (k', v') :: r =>
      if String.eqb k k' then (k, v) :: r else (k', v') :: dict_set k v r
  end.

(** The dictionary left behind by [d.pop(k)]. *)
Definition dict_pop (k : string) (d : pydict) : pydict :=
  filter (fun kv => negb (String.eqb k (fst kv))) d.

(** [{**a, **b}]: a copy of [a] updated with the items of [b], in order. *)
Definition dict_update (a b : pydict) : pydict :=
  fold_left (fun acc kv => dict_set (fst kv) (snd kv) acc) b a.

(** No key occurs twice: what every Python dictionary satisfies. *)
Fixpoint nodup_keys (d : pydict) : bool :=
  match d with
  | [] => true
  | (k, _) :: r => negb (dict_mem k r) && nodup_keys r
  end.

(** Well-formed values: every dictionary inside has distinct keys. *)
Fixpoint py_wf (v : pyval) : bool :=
  match v with
  | PList xs => forallb py_wf xs
  | PDict d =>
      nodup_keys d
      && (fix all (d : list (string * pyval)) : bool :=
            match d with
            | [] => true
            | (_, w) :: r => py_wf w && all r
            end) d
  | _ => true
  end.

(** Python's [==] on the modelled values (no floats): [bool] is an [int],
    lists compare pointwise, dictionaries regardless of order. *)
Fixpoint py_eq (a b : pyval) {struct a} : bool :=
  match a, b with
  | PNone, PNone => true
  | PBool x, PBool y => Bool.eqb x y
  | PBool x, PInt n => Z.eqb (if x then 1 else 0) n
  | PInt n, PBool y => Z.eqb n (if y then 1 else 0)
  | PInt m, PInt n => Z.eqb m n
  | PStr s, PStr t => String.eqb s t
  | PList xs, PList ys =>
      (fix go (xs ys : list pyval) {struct xs} : bool :=
         match xs, ys with
         | [], [] => true
         | x :: xs', y :: ys' => py_eq x y && go xs' ys'
         | _, _ => false
         end) xs ys
  | PDict d, PDict e =>
      Nat.eqb (List.length d) (List.length e)
      && (fix all (d : list (string * pyval)) : bool :=
            match d with
            | [] => true
            | (k, v) :: r =>
                match dict_get k e with
                | Some w => py_eq v w
                | None => false
                end && all r
            end) d
  | _, _ => false
  end.

(** Truth value of an object, as [if x:] and [not x] test it. *)
Definition py_truthy (v : pyval) : bool :=
  match v with
  | PNone => false
  | PBool b => b
  | PInt n => negb (Z.eqb n 0)
  | PStr s => negb (String.eqb s "")
  | PList xs => match xs with [] => false | _ => true end
  | PDict d => match d with [] => false | _ => true end
  end.

(** ** Exceptions and outcomes

    Every constructor is an instance of Python's [Exception]; [ClientError]
    is botocore's, with the code of [e.response['Error']['Code']];
    [OtherError] stands for an exception of any other class, by name. *)

Inductive exn : Type :=
| KeyError (key : string)
| IndexError
| TypeError
| ValueError (msg : string)
| ClientError (code : string)
| OtherError (name : string)
| Exception_ (msg : string) (args : list pyval).

Inductive result (A : Type) : Type :=
| Ok (a : A)
| Raise (e : exn).
Arguments Ok {A} a.
Arguments Raise {A} e.

Definition rbind {A B} (r : result A) (k : A -> result B) : result B :=
  match r with Ok a => k a | Raise e => Raise e end.

(** [v[k]] for a string key: only dictionaries can be subscripted so. *)
Definition subscript (v : pyval) (k : string) : result pyval :=
  match v with
  | PDict d =>
      match dict_get k d with Some x => Ok x | None => Raise (KeyError k) end
  | _ => Raise TypeError
  end.

(** [d[k]] on a dictionary. *)
Definition dict_item (k : string) (d : pydict) : result pyval :=
  match dict_get k d with Some x => Ok x | None => Raise (KeyError k) end.

End Py.
Export Py.

(** ** A reference JSON codec

    [json.dumps] and [json.loads] belong to Python's standard library.  The
    functions of [smus_scripts.py] are embedded below over an arbitrary codec
    (section variables); this module gives a concrete one for the float-free,
    ASCII fragment of JSON, written after CPython's defaults (separators
    [", "] and [": "], last duplicate key wins), so that the embedding can be
    run on concrete assets. *)

Module Json.

Definition dquote : ascii := ascii_of_nat 34.
Definition bslash : ascii := ascii_of_nat 92.
Definition str1 (c : ascii) : string := String c EmptyString.

Fixpoint escape (s : string) : string :=
  match s with
  | EmptyString => EmptyString
  | String c r =>
      if Ascii.eqb c dquote then String bslash (String dquote (escape r))
      else if Ascii.eqb c bslash then String bslash (String bslash (escape r))
      else if Ascii.eqb c (ascii_of_nat 10) then String bslash (String "n" (escape r))
      else if Ascii.eqb c (ascii_of_nat 13) then String bslash (String "r" (escape r))
      else if Ascii.eqb c (ascii_of_nat 9) then String bslash (String "t" (escape r))
      else if Ascii.eqb c (ascii_of_nat 8) then String bslash (String "b" (escape r))
      else if Ascii.eqb c (ascii_of_nat 12) then String bslash (String "f" (escape r))
      else String c (escape r)
  end.

Definition quote (s : string) : string :=
  String dquote (escape s ++ str1 dquote).

Definition string_of_Z (n : Z) : string := NilZero.string_of_int (Z.to_int n).

(** [json.dumps(v)] *)
Fixpoint dumps (v : pyval) : string :=
  match v with
  | PNone => "null"
  | PBool true => "true"
  | PBool false => "false"
  | PInt n => string_of_Z n
  | PStr s => quote s
  | PList xs =>
      "[" ++ (fix go (xs : list pyval) : string :=
                match xs with
                | [] => ""
                | x :: r =>
                    match r with
                    | [] => dumps x
                    | _ :: _ => dumps x ++ ", " ++ go r
                    end
                end) xs ++ "]"
  | PDict d =>
      "{" ++ (fix go (d : list (string * pyval)) : string :=
                match d with
                | [] => ""
                | (k, x) :: r =>
                    match r with
                    | [] => quote k ++ ": " ++ dumps x
                    | _ :: _ => quote k ++ ": " ++ dumps x ++ ", " ++ go r
                    end
                end) d ++ "}"
  end.

Definition is_ws (c : ascii) : bool :=
  let n := nat_of_ascii c in
  (Nat.eqb n 32 || Nat.eqb n 9 || Nat.eqb n 10 || Nat.eqb n 13)%bool.

Fixpoint skip_ws (s : string) : string :=
  match s with
  | String c r => if is_ws c then skip_ws r else s
  | EmptyString => s
  end.

Definition digit_val (c : ascii) : option Z :=
  let n := nat_of_ascii c in
  if (Nat.leb 48 n && Nat.leb n 57)%bool then Some (Z.of_nat (n - 48)) else None.

Fixpoint parse_digits (acc : Z) (s : string) : Z * string :=
  match s with
  | String c r =>
      match digit_val c with
      | Some d => parse_digits (10 * acc + d) r
      | None => (acc, s)
      end
  | EmptyString => (acc, s)
  end.

(** Integers only: a fraction or an exponent is outside the fragment. *)
Definition parse_int (s : string) : option (pyval * string) :=
  let '(neg, s1) :=
    match s with
    | String c r => if Ascii.eqb c "-" then (true, r) else (false, s)
    | EmptyString => (false, s)
    end in
  match s1 with
  | EmptyString => None
  | String c r =>
      match digit_val c with
      | None => None
      | Some d =>
          let '(n, rest) := if Z.eqb d 0 then (0, r) else parse_digits d r in
          let v := PInt (if neg then - n else n) in
          match rest with
          | EmptyString => Some (v, rest)
          | String c' _ =>
              match digit_val c' with
              | Some _ => None
              | None =>
                  if (Ascii.eqb c' "." || Ascii.eqb c' "e" || Ascii.eqb c' "E")%bool
                  then None else Some (v, rest)
              end
          end
      end
  end.

Definition unescape (c : ascii) : option ascii :=
  if Ascii.eqb c dquote then Some dquote
  else if Ascii.eqb c bslash then Some bslash
  else if Ascii.eqb c "/" then Some "/"%char
  else if Ascii.eqb c "n" then Some (ascii_of_nat 10)
  else if Ascii.eqb c "r" then Some (ascii_of_nat 13)
  else if Ascii.eqb c "t" then Some (ascii_of_nat 9)
  else if Ascii.eqb c "b" then Some (ascii_of_nat 8)
  else if Ascii.eqb c "f" then Some (ascii_of_nat 12)
  else None.

(** The characters of a string literal after its opening quote. *)
Fixpoint parse_string_body (s : string) : option (string * string) :=
  match s with
  | EmptyString => None
  | String c r =>
      if Ascii.eqb c dquote then Some (EmptyString, r)
      else if Ascii.eqb c bslash then
        match r with
        | EmptyString => None
        | String e r' =>
            match unescape e, parse_string_body r' with
            | Some ch, Some (t, rest) => Some (String ch t, rest)
            | _, _ => None
            end
        end
      else if Nat.ltb (nat_of_ascii c) 32 then None
      else
        match parse_string_body r with
        | Some (t, rest) => Some (String c t, rest)
        | None => None
        end
  end.

Fixpoint strip_prefix (p s : string) : option string :=
  match p, s with
  | EmptyString, _ => Some s
  | String a p', String b s' => if Ascii.eqb a b then strip_prefix p' s' else None
  | String _ _, EmptyString => None
  end.

Fixpoint parse_value (fuel : nat) (s : string) {struct fuel}
  : option (pyval * string) :=
  match fuel with
  | O => None
  | S f =>
      match skip_ws s with
      | EmptyString => None
      | String c r as s0 =>
          if Ascii.eqb c "[" then
            match skip_ws r with
            | String c2 r2 =>
                if Ascii.eqb c2 "]" then Some (PList [], r2)
                else
                  match parse_elems f r with
                  | Some (xs, rest) => Some (PList xs, rest)
                  | None => None
                  end
            | EmptyString => None
            end
          else if Ascii.eqb c "{" then
            match skip_ws r with
            | String c2 r2 =>
                if Ascii.eqb c2 "}" then Some (PDict [], r2)
                else
                  match parse_members f r with
                  | Some (kvs, rest) => Some (PDict (dict_update [] kvs), rest)
                  | None => None
                  end
            | EmptyString => None
            end
          else if Ascii.eqb c dquote then
            match parse_string_body r with
            | Some (t, rest) => Some (PStr t, rest)
            | None => None
            end
          else
            match strip_prefix "null" s0, strip_prefix "true" s0,
                  strip_prefix "false" s0 with
            | Some rest, _, _ => Some (PNone, rest)
            | _, Some rest, _ => Some (PBool true, rest)
            | _, _, Some rest => Some (PBool false, rest)
            | _, _, _ => parse_int s0
            end
      end
  end

with parse_elems (fuel : nat) (s : string) {struct fuel}
  : option (list pyval * string) :=
  match fuel with
  | O => None
  | S f =>
      match parse_value f s with
      | None => None
      | Some (x, rest) =>
          match skip_ws rest with
          | String c r =>
              if Ascii.eqb c "]" then Some ([x], r)
              else if Ascii.eqb c "," then
                match parse_elems f r with
                | Some (xs, rest') => Some (x :: xs, rest')
                | None => None
                end
              else None
          | EmptyString => None
          end
      end
  end

with parse_members (fuel : nat) (s : string) {struct fuel}
  : option (list (string * pyval) * string) :=
  match fuel with
  | O => None
  | S f =>
      match skip_ws s with
      | EmptyString => None
      | String q r =>
          if negb (Ascii.eqb q dquote) then None
          else
            match parse_string_body r with
            | None => None
            | Some (k, rest) =>
                match skip_ws rest with
                | EmptyString => None
                | String c r1 =>
                    if negb (Ascii.eqb c ":") then None
                    else
                      match parse_value f r1 with
                      | None => None
                      | Some (x, rest1) =>
                          match skip_ws rest1 with
                          | EmptyString => None
                          | String c2 r2 =>
                              if Ascii.eqb c2 "}" then Some ([(k, x)], r2)
                              else if Ascii.eqb c2 "," then
                                match parse_members f r2 with
                                | Some (kvs, rest') => Some ((k, x) :: kvs, rest')
                                | None => None
                                end
                              else None
                          end
                      end
                end
            end
      end
  end.

(** [json.loads(s)]: [None] stands for a raised [JSONDecodeError]. *)
Definition loads (s : string) : option pyval :=
  match parse_value (S (String.length s)) s with
  | Some (v, rest) =>
      match skip_ws rest with
      | EmptyString => Some v
      | String _ _ => None
      end
  | None => None
  end.

End Json.

(** ** The fragment of pandas used by the backup

    A frame is its column labels, in order, and its rows under a default
    [RangeIndex]; a row maps a label to its cell and a label it does not bind
    is a missing cell ([NaN]), which [to_csv] writes as an empty field. *)

Local Open Scope list_scope.

Module Pandas.

Record DataFrame : Type := {
  columns : list string;
  rows : list pydict
}.

(** [pd.DataFrame()] *)
Definition empty_frame : DataFrame := {| columns := []; rows := [] |}.

(** [pd.DataFrame([record])] for a mapping [record]: one row, index 0. *)
Definition frame_of_record (record : pydict) : DataFrame :=
  {| columns := keys record; rows := [record] |}.

Definition has_column (c : string) (df : DataFrame) : bool :=
  existsb (String.eqb c) (columns df).

(** [df[c]] kept as a one-column frame (a named [Series]). *)
Definition project (c : string) (df : DataFrame) : DataFrame :=
  {| columns := [c];
     rows := map (fun r => match dict_get c r with
                           | Some v => [(c, v)]
                           | None => []
                           end) (rows df) |}.

Definition suffixed (others : list string) (sfx c : string) : string :=
  if existsb (String.eqb c) others then (c ++ sfx)%string else c.

Definition rename_row (f : string -> string) (r : pydict) : pydict :=
  map (fun kv => (f (fst kv), snd kv)) r.

Fixpoint zip_rows (l r : list pydict) : list pydict :=
  match l, r with
  | a :: l', b :: r' => (a ++ b) :: zip_rows l' r'
  | _, _ => []
  end.

(** [pd.merge(l, r, left_index=True, right_index=True)]: inner join on the
    row index; a label present on both sides gets the suffixes [_x], [_y]. *)
Definition merge_on_index (l r : DataFrame) : DataFrame :=
  let fl := suffixed (columns r) "_x" in
  let fr := suffixed (columns l) "_y" in
  {| columns := map fl (columns l) ++ map fr (columns r);
     rows := zip_rows (map (rename_row fl) (rows l))
                      (map (rename_row fr) (rows r)) |}.

(** [df[c] = v] for a scalar [v]. *)
Definition set_column (c : string) (v : pyval) (df : DataFrame) : DataFrame :=
  {| columns := if has_column c df then columns df else columns df ++ [c];
     rows := map (dict_set c v) (rows df) |}.

(** [pd.concat([a, b], ignore_index=True)]: rows of [a] then rows of [b],
    over the union of the columns in order of first appearance. *)
Definition concat (a b : DataFrame) : DataFrame :=
  {| columns := columns a
                ++ filter (fun c => negb (has_column c a)) (columns b);
     rows := rows a ++ rows b |}.

(** The cell of row [i] under label [c]; [None] is a missing cell. *)
Definition cell (df : DataFrame) (i : nat) (c : string) : option pyval :=
  match nth_error (rows df) i with
  | Some r => dict_get c r
  | None => None
  end.

End Pandas.
Export Pandas.

(** ** Effects: outcomes and chronological traces *)

Module Effects.

(** A revision request, as [create_asset_revision] receives it. *)
Record revision_request : Type := {
  req_domainIdentifier : pyval;
  req_identifier : pyval;
  req_name : pyval;
  req_formsInput : list pydict;
  req_description : pyval
}.

(** One constructor per [print] site of the sources. *)
Inductive message : Type :=
| MsgFormNotFound (form_name : string)
| MsgGlossaryAdded (glossary_name : pyval)
| MsgGlossaryExists (glossary_name : pyval)
| MsgTermAdded (term_name : pyval)
| MsgTermExists (term_name : pyval)
| MsgFormUpserted (target_type asset_name : pyval)
| MsgErroVerificarStatus (e : exn)
| MsgErroRepublicar (asset_id : pyval) (e : exn)
| MsgInicio
| MsgProgresso (count total : nat)
| MsgRepublicado (asset_id : pyval)
| MsgFalha (asset_id : pyval)
| MsgFinalizado.

Inductive event : Type :=
| EGetAsset (domain_id asset_id : pyval)
| ECreateAssetRevision (req : revision_request)
| ESearch (request_params : pydict)
| ECreateGlossary (request_params : pydict)
| ECreateGlossaryTerm (request_params : pydict)
| ECreateListingChangeSet (domain_id entity_id : pyval)
| EGetListing (domain_id listing_id : pyval)
| ESleep (secs : Z)
| EToCsv (path : pyval) (df : DataFrame)
| EPrint (m : message).

Definition trace : Type := list event.

(** How a run ends: it returns, it raises, or the model has no answer
    ([Stuck]): the scripted environment has run out of responses while the
    program still asks for one, or a library is used outside its modelled
    fragment. *)
Inductive outcome (A : Type) : Type :=
| Returns (a : A)
| Raises (e : exn)
| Stuck.
Arguments Returns {A} a.
Arguments Raises {A} e.
Arguments Stuck {A}.

(** A computation: its outcome and the events it caused, oldest first. *)
Definition M (A : Type) : Type := (outcome A * trace)%type.

Definition ret {A} (a : A) : M A := (Returns a, []).
Definition raise {A} (e : exn) : M A := (Raises e, []).
Definition stuck {A} : M A := (Stuck, []).

Definition bind {A B} (m : M A) (k : A -> M B) : M B :=
  match m with
  | (Returns a, t) => let '(o, t') := k a in (o, t ++ t')
  | (Raises e, t) => (Raises e, t)
  | (Stuck, t) => (Stuck, t)
  end.

(** [try: m  except Exception as e: h e] *)
Definition try_except {A} (m : M A) (h : exn -> M A) : M A :=
  match m with
  | (Raises e, t) => let '(o, t') := h e in (o, t ++ t')
  | other => other
  end.

(** [try: m  except ClientError as e: h e.response['Error']['Code']];
    any other exception passes through. *)
Definition try_except_ClientError {A} (m : M A) (h : string -> M A) : M A :=
  match m with
  | (Raises (ClientError code), t) => let '(o, t') := h code in (o, t ++ t')
  | other => other
  end.

Definition lift {A} (r : result A) : M A :=
  match r with Ok a => ret a | Raise e => raise e end.

Definition emit (ev : event) : M unit := (Returns tt, [ev]).
Definition print (m : message) : M unit := emit (EPrint m).

(** A remote call: the event is recorded, the oracle's answer is the result. *)
Definition call {A} (ev : event) (answer : result A) : M A :=
  bind (emit ev) (fun _ => lift answer).

End Effects.
Export Effects.

Declare Scope py_scope.
Notation "x <- m ;; k" := (bind m (fun x => k))
  (at level 61, m at next level, right associativity) : py_scope.
Notation "m ;;; k" := (bind m (fun _ => k))
  (at level 61, right associativity) : py_scope.
Local Open Scope py_scope.

(** ** [smus_scripts.py] *)

Module Smus.

(** The response of [get_asset], reduced to the keys the scripts read. *)
Record asset : Type := {
  asset_name : option pyval;
  asset_description : option pyval;
  asset_formsOutput : option (list pydict)
}.

(** The response of [search]: [items] and [nextToken] may both be absent. *)
Record search_response : Type := {
  resp_items : option (list pyval);
  resp_nextToken : option pyval
}.

(** The remote catalog as one run sees it.  [search] is answered from a
    script, one response per call, because successive calls differ. *)
Record datazone_client : Type := {
  api_get_asset : pyval -> pyval -> result asset;
  api_create_asset_revision : revision_request -> result unit;
  api_create_glossary : pydict -> result unit;
  api_create_glossary_term : pydict -> result unit
}.

Section Scripts.

Variable json_loads : string -> option pyval.
Variable json_dumps : pyval -> string.
Variable datazone : datazone_client.

Definition get_asset (domain_id asset_id : pyval) : M asset :=
  call (EGetAsset domain_id asset_id) (api_get_asset datazone domain_id asset_id).

(** [item["assetItem"]["identifier"] for item in items] *)
Fixpoint item_identifiers (items : list pyval) : result (list pyval) :=
  match items with
  | [] => Ok []
  | item :: more =>
      rbind (rbind (subscript item "assetItem")
                   (fun a => subscript a "identifier"))
            (fun i => rbind (item_identifiers more) (fun is_ => Ok (i :: is_)))
  end.

(** The [while True] loop of [list_assets_ids]; [pages] are the responses
    of the successive [search] calls. *)
Fixpoint list_assets_ids_loop (domain_id project_id : pyval)
    (pages : list (result search_response))
    (next_token : pyval) (asset_ids : list pyval) {struct pages}
  : M (list pyval) :=
  match pages with
  | [] => stuck
  | page :: later =>
      let request_params :=
        [("domainIdentifier", domain_id);
         ("owningProjectIdentifier", project_id);
         ("searchScope", PStr "ASSET")] in
      let request_params :=
        if py_truthy next_token
        then dict_set "nextToken" next_token request_params
        else request_params in
      response <- call (ESearch request_params) page ;;
      ids <- lift (item_identifiers
                     (match resp_items response with
                      | Some items => items
                      | None => []
                      end)) ;;
      let asset_ids := asset_ids ++ ids in
      let next_token :=
        match resp_nextToken response with Some t => t | None => PNone end in
      if negb (py_truthy next_token) then ret asset_ids
      else list_assets_ids_loop domain_id project_id later next_token asset_ids
  end.

Definition list_assets_ids (domain_id project_id : pyval)
    (pages : list (result search_response)) : M (list pyval) :=
  list_assets_ids_loop domain_id project_id pages PNone [].

(** [json.loads(x)]: a [JSONDecodeError] is a [ValueError]; anything but
    text is a [TypeError]. *)
Definition loads_value (x : pyval) : result pyval :=
  match x with
  | PStr s =>
      match json_loads s with
      | Some v => Ok v
      | None => Raise (ValueError "JSONDecodeError")
      end
  | _ => Raise TypeError
  end.

(** [[c['content'] for c in forms if c.get("formName") == form_name]] *)
Fixpoint matching_contents (form_name : string) (forms : list pydict)
  : result (list pyval) :=
  match forms with
  | [] => Ok []
  | c :: more =>
      if py_eq (dict_get_or_none "formName" c) (PStr form_name)
      then rbind (dict_item "content" c)
             (fun v => rbind (matching_contents form_name more)
                         (fun vs => Ok (v :: vs)))
      else matching_contents form_name more
  end.

Definition formsOutput_item (asset_data : asset) : result (list pydict) :=
  match asset_formsOutput asset_data with
  | Some forms => Ok forms
  | None => Raise (KeyError "formsOutput")
  end.

Definition filter_content_output (asset_data : asset) (form_name : string)
  : M DataFrame :=
  content <- lift (formsOutput_item asset_data) ;;
  content_filter <- lift (matching_contents form_name content) ;;
  record <-
    match content_filter with
    | [] => print (MsgFormNotFound form_name) ;;; ret (PDict [])
    | first :: _ => lift (loads_value first)
    end ;;
  match record with
  | PDict d => ret (frame_of_record d)
  | _ => stuck
  end.

Definition create_metadata_df (asset_data : asset) : M DataFrame :=
  df_seguranca_privacidade <-
    filter_content_output asset_data "seguranca_privacidade" ;;
  df_dominio_de_dados <- filter_content_output asset_data "dominio_de_dados" ;;
  df_table_name <- filter_content_output asset_data "GlueTableForm" ;;
  let df := merge_on_index df_seguranca_privacidade df_dominio_de_dados in
  let df :=
    if has_column "tableName" df_table_name
    then merge_on_index df (project "tableName" df_table_name)
    else df in
  ret (set_column "Descrição"
         (match asset_description asset_data with
          | Some d => d
          | None => PStr ""
          end) df).

Definition add_glossary (domain_id project_id glossary_name : pyval) : M unit :=
  let request_params :=
    [("domainIdentifier", domain_id);
     ("owningProjectIdentifier", project_id);
     ("name", glossary_name)] in
  try_except_ClientError
    (call (ECreateGlossary request_params)
          (api_create_glossary datazone request_params) ;;;
     print (MsgGlossaryAdded glossary_name))
    (fun code =>
       if String.eqb code "ConflictException"
       then print (MsgGlossaryExists glossary_name)
       else raise (ClientError code)).

Definition add_glossary_term
    (domain_id glossary_id term_name description readme : pyval) : M unit :=
  let request_params :=
    [("domainIdentifier", domain_id);
     ("glossaryIdentifier", glossary_id);
     ("name", term_name);
     ("shortDescription", description);
     ("longDescription", readme)] in
  try_except_ClientError
    (call (ECreateGlossaryTerm request_params)
          (api_create_glossary_term datazone request_params) ;;;
     print (MsgTermAdded term_name))
    (fun code =>
       if String.eqb code "ConflictException"
       then print (MsgTermExists term_name)
       else raise (ClientError code)).

(** The [try] block of [add_metadata_form]: a missing ["content"] key or an
    undecodable text ends as the [ValueError] raised by the handler. *)
Definition parse_new_content (metadata_form_to_add : pydict) : result pyval :=
  match dict_get "content" metadata_form_to_add with
  | None => Raise (ValueError "Erro ao decodificar 'content'")
  | Some (PStr s) =>
      match json_loads s with
      | Some v => Ok v
      | None => Raise (ValueError "Erro ao decodificar 'content'")
      end
  | Some v => Ok v
  end.

(** The body of the normalisation loop. *)
Definition normalize_form (form : pydict) : pydict :=
  let form :=
    match dict_get "typeName" form with
    | Some v => dict_set "typeIdentifier" v (dict_pop "typeName" form)
    | None => form
    end in
  match dict_get "content" form with
  | Some (PDict d) => dict_set "content" (PStr (json_dumps (PDict d))) form
  | _ => form
  end.

(** [json.loads(form["content"])] under [except Exception: {}]. *)
Definition existing_content (form : pydict) : pyval :=
  match dict_get "content" form with
  | Some (PStr s) =>
      match json_loads s with
      | Some v => v
      | None => PDict []
      end
  | _ => PDict []
  end.

(** [{**existing_content, **new_content}]: both must be mappings. *)
Definition merge_contents (existing new_content : pyval) : result pydict :=
  match existing, new_content with
  | PDict e, PDict n => Ok (dict_update e n)
  | _, _ => Raise TypeError
  end.

(** The update loop: [None] when it ends with [form_found = False]. *)
Fixpoint update_first (target_type new_content : pyval) (forms : list pydict)
  : result (option (list pydict)) :=
  match forms with
  | [] => Ok None
  | form :: more =>
      if py_eq (dict_get_or_none "typeIdentifier" form) target_type
      then
        rbind (merge_contents (existing_content form) new_content)
          (fun merged_content =>
             Ok (Some (dict_set "content"
                         (PStr (json_dumps (PDict merged_content))) form
                       :: more)))
      else
        rbind (update_first target_type new_content more)
          (fun r => Ok (option_map (cons form) r))
  end.

(** Update or insert. *)
Definition upsert (metadata_form_to_add : pydict)
    (target_type new_content : pyval) (normalized_forms : list pydict)
  : result (list pydict) :=
  rbind (update_first target_type new_content normalized_forms)
    (fun r =>
       match r with
       | Some forms => Ok forms
       | None =>
           rbind (dict_item "formName" metadata_form_to_add)
             (fun form_name =>
                Ok (normalized_forms
                    ++ [[("formName", form_name);
                         ("typeIdentifier", target_type);
                         ("content", PStr (json_dumps new_content))]]))
       end).

(** The form list of the revision, from the fetched form list: parsing of
    the candidate, normalisation, update or insert. *)
Definition merge_forms (forms : list pydict) (metadata_form_to_add : pydict)
  : result (list pydict) :=
  rbind (parse_new_content metadata_form_to_add)
    (fun new_content =>
       rbind (dict_item "typeIdentifier" metadata_form_to_add)
         (fun target_type =>
            upsert metadata_form_to_add target_type new_content
                   (map normalize_form forms))).

Definition revision_description (actual_asset : asset) : pyval :=
  match asset_description actual_asset with
  | None | Some PNone => PStr ""
  | Some d => d
  end.

Definition add_metadata_form (domain_id asset_id : pyval)
    (metadata_form_to_add : pydict) : M unit :=
  actual_asset <- get_asset domain_id asset_id ;;
  asset_name <-
    lift (match asset_name actual_asset with
          | Some n => Ok n
          | None => Raise (KeyError "name")
          end) ;;
  new_content <- lift (parse_new_content metadata_form_to_add) ;;
  target_type <- lift (dict_item "typeIdentifier" metadata_form_to_add) ;;
  let asset_forms :=
    match asset_formsOutput actual_asset with
    | Some forms => forms
    | None => []
    end in
  let normalized_forms := map normalize_form asset_forms in
  normalized_forms <-
    lift (upsert metadata_form_to_add target_type new_content normalized_forms) ;;
  let description := revision_description actual_asset in
  let request :=
    {| req_domainIdentifier := domain_id;
       req_identifier := asset_id;
       req_name := asset_name;
       req_formsInput := normalized_forms;
       req_description := description |} in
  call (ECreateAssetRevision request)
       (api_create_asset_revision datazone request) ;;;
  print (MsgFormUpserted target_type asset_name).

(** [backup_metadata.py]: the loop of [main] over the listed assets. *)
Fixpoint backup_loop (domain_id : pyval) (assets_ids : list pyval)
    (df_metadata : DataFrame) : M DataFrame :=
  match assets_ids with
  | [] => ret df_metadata
  | asset_id :: more =>
      asset_data <- get_asset domain_id asset_id ;;
      df <- create_metadata_df asset_data ;;
      backup_loop domain_id more (concat df_metadata df)
  end.

Definition backup_main (domain_id project_id output_csv : pyval)
    (pages : list (result search_response)) : M unit :=
  assets_ids <- list_assets_ids domain_id project_id pages ;;
  df_metadata <- backup_loop domain_id assets_ids empty_frame ;;
  emit (EToCsv output_csv df_metadata).

End Scripts.

End Smus.

(** ** [republish_asset.py] *)

Module Republish.

(** What the world answers during one call of [republicar_asset]: the
    response of [create_listing_change_set], the successive readings of
    [time.time()] (in whole clock ticks, the unit of [timeout]) and the
    responses of the successive [get_listing] polls. *)
Record publish_env : Type := {
  env_change_set : result pydict;
  env_clock : list Z;
  env_get_listing : list (result pydict)
}.

(** How one pass through the body of the polling loop ends. *)
Inductive flow : Type :=
| Return_ (b : bool)
| Continue
| Break.

Definition timeout_error : exn :=
  Exception_ "Timeout aguardando conclusão do changeset" [].

(** The [while] loop of [_aguardar_changeset_completion]. *)
Fixpoint poll_loop (changeset_id domain_id : pyval) (timeout start_time : Z)
    (clock : list Z) (listings : list (result pydict)) {struct clock}
  : M bool :=
  match clock with
  | [] => stuck
  | now :: clock' =>
      if now - start_time <? timeout then
        match listings with
        | [] => stuck
        | answer :: listings' =>
            fl <- try_except
                    (response <- call (EGetListing domain_id changeset_id) answer ;;
                     let status := dict_get_or_none "status" response in
                     if py_eq status (PStr "ACTIVE") then ret (Return_ true)
                     else if (py_eq status (PStr "FAILED")
                              || py_eq status (PStr "CANCELLED"))%bool
                     then raise (Exception_ "Changeset falhou com status" [status])
                     else emit (ESleep 1) ;;; ret Continue)
                    (fun e => print (MsgErroVerificarStatus e) ;;; ret Break) ;;
            match fl with
            | Return_ b => ret b
            | Continue =>
                poll_loop changeset_id domain_id timeout start_time clock' listings'
            | Break => raise timeout_error
            end
        end
      else raise timeout_error
  end.

Definition _aguardar_changeset_completion (changeset_id domain_id : pyval)
    (timeout : Z) (clock : list Z) (listings : list (result pydict)) : M bool :=
  match clock with
  | [] => stuck
  | start_time :: clock' =>
      poll_loop changeset_id domain_id timeout start_time clock' listings
  end.

Definition republicar_asset (asset_id domain_id : pyval) (env : publish_env)
  : M bool :=
  try_except
    (response <- call (ECreateListingChangeSet domain_id asset_id)
                      (env_change_set env) ;;
     changeset_id <- lift (dict_item "listingId" response) ;;
     _aguardar_changeset_completion changeset_id domain_id 300
       (env_clock env) (env_get_listing env) ;;;
     ret true)
    (fun e => print (MsgErroRepublicar asset_id e) ;;; ret false).

(** The counted loop of [main]; one [publish_env] per asset. *)
Fixpoint main_loop (domain_id : pyval) (total : nat) (todo : list pyval)
    (envs : list publish_env) (count : nat) {struct todo} : M nat :=
  match todo with
  | [] => ret count
  | asset_id :: rest =>
      match envs with
      | [] => stuck
      | env :: envs' =>
          success <- republicar_asset asset_id domain_id env ;;
          if success : bool then
            print (MsgProgresso (S count) total) ;;;
            print (MsgRepublicado asset_id) ;;;
            main_loop domain_id total rest envs' (S count)
          else
            print (MsgFalha asset_id) ;;;
            main_loop domain_id total rest envs' count
      end
  end.

(** [assets_ids[0]] *)
Definition first_item (l : list pyval) : result pyval :=
  match l with
  | x :: _ => Ok x
  | [] => Raise IndexError
  end.

(** [main]; it returns the final [count] so that it can be observed. *)
Definition main (project_id domain_id : pyval)
    (pages : list (result Smus.search_response)) (envs : list publish_env)
  : M nat :=
  assets_ids <- Smus.list_assets_ids domain_id project_id pages ;;
  print MsgInicio ;;;
  first <- lift (first_item assets_ids) ;;
  match envs with
  | [] => stuck
  | env0 :: envs' =>
      republicar_asset first domain_id env0 ;;;
      count <- main_loop domain_id (List.length assets_ids) assets_ids envs' 0%nat ;;
      print MsgFinalizado ;;;
      ret count
  end.

End Republish.

(* ===================================================================== *)
(** * Part II -- properties                                               *)
(* ===================================================================== *)

(** ** Computing with traces *)

Lemma bind_returns {A B} (a : A) (t : trace) (k : A -> M B) :
  bind (Returns a, t) k = (fst (k a), t ++ snd (k a)).
Proof. unfold bind. destruct (k a); reflexivity. Qed.

Lemma bind_raises {A B} (e : exn) (t : trace) (k : A -> M B) :
  bind (Raises e, t) k = (Raises e, t).
Proof. reflexivity. Qed.

Lemma bind_stuck {A B} (t : trace) (k : A -> M B) :
  bind (Stuck, t) k = (Stuck, t).
Proof. reflexivity. Qed.

Lemma bind_ret {A B} (a : A) (k : A -> M B) : bind (ret a) k = k a.
Proof. unfold ret. rewrite bind_returns. destruct (k a); reflexivity. Qed.

Lemma call_ok {A} (ev : event) (a : A) : call ev (Ok a) = (Returns a, [ev]).
Proof. reflexivity. Qed.

Lemma call_raise {A} (ev : event) (e : exn) :
  call ev (@Raise A e) = (Raises e, [ev]).
Proof. reflexivity. Qed.

(** ** Glossary creation (C8) *)

Module GlossaryFacts.
Import Smus.

Section Facts.

Variable datazone : datazone_client.

Definition glossary_request (domain_id project_id glossary_name : pyval) : pydict :=
  [("domainIdentifier", domain_id);
   ("owningProjectIdentifier", project_id);
   ("name", glossary_name)].

Definition term_request
    (domain_id glossary_id term_name description readme : pyval) : pydict :=
  [("domainIdentifier", domain_id);
   ("glossaryIdentifier", glossary_id);
   ("name", term_name);
   ("shortDescription", description);
   ("longDescription", readme)].

(** C8.  When the creation call fails with the client error
    [ConflictException], [add_glossary] and [add_glossary_term] print the
    "already exists" message and return normally; when it fails with a
    client error of any other code, that error is raised to the caller and
    nothing is printed. *)
Theorem C8_conflict_reported_other_client_errors_raised :
  forall domain_id project_id glossary_name glossary_id term_name description readme,
    let greq := glossary_request domain_id project_id glossary_name in
    let treq := term_request domain_id glossary_id term_name description readme in
    (api_create_glossary datazone greq = Raise (ClientError "ConflictException") ->
     add_glossary datazone domain_id project_id glossary_name
     = (Returns tt, [ECreateGlossary greq; EPrint (MsgGlossaryExists glossary_name)]))
    /\ (forall code, code <> "ConflictException" ->
        api_create_glossary datazone greq = Raise (ClientError code) ->
        add_glossary datazone domain_id project_id glossary_name
        = (Raises (ClientError code), [ECreateGlossary greq]))
    /\ (api_create_glossary_term datazone treq = Raise (ClientError "ConflictException") ->
        add_glossary_term datazone domain_id glossary_id term_name description readme
        = (Returns tt, [ECreateGlossaryTerm treq; EPrint (MsgTermExists term_name)]))
    /\ (forall code, code <> "ConflictException" ->
        api_create_glossary_term datazone treq = Raise (ClientError code) ->
        add_glossary_term datazone domain_id glossary_id term_name description readme
        = (Raises (ClientError code), [ECreateGlossaryTerm treq])).
Proof.
  intros d p g gid tn ds rd greq treq.
  subst greq treq. unfold glossary_request, term_request.
  unfold add_glossary, add_glossary_term. cbv zeta.
  repeat split.
  - intros H. rewrite H. reflexivity.
  - intros code Hne H. rewrite H.
    cbn. apply String.eqb_neq in Hne. rewrite Hne. reflexivity.
  - intros H. rewrite H. reflexivity.
  - intros code Hne H. rewrite H.
    cbn. apply String.eqb_neq in Hne. rewrite Hne. reflexivity.
Qed.

(** An exception that is no [ClientError] is not handled. *)
Lemma add_glossary_other_exception_passes domain_id project_id glossary_name name :
  api_create_glossary datazone (glossary_request domain_id project_id glossary_name)
  = Raise (OtherError name) ->
  add_glossary datazone domain_id project_id glossary_name
  = (Raises (OtherError name),
     [ECreateGlossary (glossary_request domain_id project_id glossary_name)]).
Proof.
  unfold glossary_request, add_glossary. cbv zeta. intros H. rewrite H. reflexivity.
Qed.

End Facts.

End GlossaryFacts.

(** ** The paginated lister (C6) *)

Module ListerFacts.
Import Smus.

(** The keyword arguments of the [search] call made with [next_token]. *)
Definition search_request (domain_id project_id next_token : pyval) : pydict :=
  let request_params :=
    [("domainIdentifier", domain_id);
     ("owningProjectIdentifier", project_id);
     ("searchScope", PStr "ASSET")] in
  if py_truthy next_token
  then dict_set "nextToken" next_token request_params
  else request_params.

Definition page_items (r : search_response) : list pyval :=
  match resp_items r with Some items => items | None => [] end.

Definition page_token (r : search_response) : pyval :=
  match resp_nextToken r with Some t => t | None => PNone end.

(** A page carries a continuation token when the loop reads one as true. *)
Definition has_token (r : search_response) : bool := py_truthy (page_token r).

(** The requests sent while reading [rs], the first with [next_token]. *)
Fixpoint requests_for (domain_id project_id next_token : pyval)
    (rs : list search_response) : trace :=
  match rs with
  | [] => []
  | r :: later =>
      ESearch (search_request domain_id project_id next_token)
      :: requests_for domain_id project_id (page_token r) later
  end.

Definition last_token (next_token : pyval) (rs : list search_response) : pyval :=
  fold_left (fun _ r => page_token r) rs next_token.

(** The sum of the item counts of the pages. *)
Definition total_items (rs : list search_response) : nat :=
  fold_right (fun r n => (List.length (page_items r) + n)%nat) 0%nat rs.

Lemma item_identifiers_length items :
  forall ids, item_identifiers items = Ok ids -> List.length ids = List.length items.
Proof.
  induction items as [| item items IH]; intros ids H.
  - injection H as <-. reflexivity.
  - cbn [item_identifiers] in H.
    destruct (rbind (subscript item "assetItem") _) as [i | e]; [| discriminate].
    cbn [rbind] in H.
    destruct (item_identifiers items) as [is_ | e]; [| discriminate].
    cbn [rbind] in H. injection H as <-. simpl. rewrite (IH is_ eq_refl).
    reflexivity.
Qed.

Lemma length_concat_total (rs : list search_response) (idss : list (list pyval)) :
  Forall2 (fun r ids => item_identifiers (page_items r) = Ok ids) rs idss ->
  List.length (List.concat idss) = total_items rs.
Proof.
  induction 1 as [| r ids rs idss Hr _ IH]; simpl; [reflexivity |].
  rewrite length_app, IH, (item_identifiers_length _ _ Hr). reflexivity.
Qed.

(** Pages that all carry a token are read one after the other; the loop then
    goes on with the rest of the script. *)
Lemma loop_through_pages domain_id project_id :
  forall (rs : list search_response) (idss : list (list pyval))
         (later : list (result search_response)) next_token acc,
    Forall (fun r => has_token r = true) rs ->
    Forall2 (fun r ids => item_identifiers (page_items r) = Ok ids) rs idss ->
    list_assets_ids_loop domain_id project_id (map Ok rs ++ later) next_token acc
    = (fst (list_assets_ids_loop domain_id project_id later
              (last_token next_token rs) (acc ++ List.concat idss)),
       requests_for domain_id project_id next_token rs
       ++ snd (list_assets_ids_loop domain_id project_id later
                 (last_token next_token rs) (acc ++ List.concat idss))).
Proof.
  induction rs as [| r rs IH]; intros idss later tok acc Htok Hids.
  - inversion Hids; subst. simpl. rewrite app_nil_r.
    destruct (list_assets_ids_loop _ _ later tok acc); reflexivity.
  - inversion Hids as [| ? ids ? idss' Hr Hrest]; subst.
    inversion Htok as [| ? ? Ht Htok']; subst.
    cbn [map app list_assets_ids_loop].
    rewrite call_ok, bind_returns.
    fold (page_items r). rewrite Hr. cbn [lift]. rewrite bind_ret.
    fold (page_token r). unfold has_token in Ht. rewrite Ht. cbn [negb].
    rewrite (IH idss' later (page_token r) (acc ++ ids) Htok' Hrest).
    cbn [fst snd]. cbn [last_token fold_left List.concat requests_for].
    fold (last_token (page_token r) rs).
    rewrite <- app_assoc.
    fold (search_request domain_id project_id tok).
    reflexivity.
Qed.

(** C6.  When every scripted page but the last carries a continuation token
    and the last carries none, [list_assets_ids] returns (it does not ask
    for a further page) the identifiers of the pages, concatenated in page
    order, so that the size of the result is the sum of the page sizes; each
    request after the first carries the token of the page before.  When,
    instead, a call fails after pages that all carried a token, the error
    of that call is the outcome of [list_assets_ids]. *)
Theorem C6_list_assets_ids_concatenates_pages :
  forall domain_id project_id (rs : list search_response) (final : search_response)
         (idss : list (list pyval)) (final_ids : list pyval),
    Forall (fun r => has_token r = true) rs ->
    Forall2 (fun r ids => item_identifiers (page_items r) = Ok ids) rs idss ->
    (has_token final = false ->
     item_identifiers (page_items final) = Ok final_ids ->
     list_assets_ids domain_id project_id (map Ok (rs ++ [final]))
     = (Returns (List.concat (idss ++ [final_ids])),
        requests_for domain_id project_id PNone (rs ++ [final]))
     /\ List.length (List.concat (idss ++ [final_ids]))
        = total_items (rs ++ [final]))
    /\ (forall e later,
        list_assets_ids domain_id project_id (map Ok rs ++ Raise e :: later)
        = (Raises e, requests_for domain_id project_id PNone rs
                     ++ [ESearch (search_request domain_id project_id
                                    (last_token PNone rs))])).
Proof.
  intros d p rs final idss final_ids Htok Hids. split.
  - intros Hlast Hfinal.
    split; [| apply length_concat_total, Forall2_app; [exact Hids | constructor;
                                                        [exact Hfinal | constructor]]].
    unfold list_assets_ids. rewrite map_app.
    rewrite (loop_through_pages d p rs idss _ PNone [] Htok Hids).
    cbn [map list_assets_ids_loop app].
    rewrite call_ok, bind_returns.
    fold (page_items final). rewrite Hfinal. cbn [lift]. rewrite bind_ret.
    fold (page_token final). unfold has_token in Hlast. rewrite Hlast.
    cbn [negb ret fst snd].
    rewrite concat_app. cbn [List.concat]. rewrite !app_nil_r.
    f_equal.
    clear. generalize PNone as tok. induction rs as [| r rs IH]; intros tok.
    + reflexivity.
    + cbn [requests_for app last_token fold_left]. f_equal. apply IH.
  - intros e later. unfold list_assets_ids.
    rewrite (loop_through_pages d p rs idss _ PNone [] Htok Hids).
    cbn [list_assets_ids_loop]. rewrite call_raise. rewrite bind_raises.
    reflexivity.
Qed.

End ListerFacts.

(** ** Changeset polling (C7) *)

Module PollingFacts.
Import Republish.

Definition status_of (response : pydict) : pyval :=
  dict_get_or_none "status" response.

Definition is_active (response : pydict) : bool :=
  py_eq (status_of response) (PStr "ACTIVE").

Definition is_failed (response : pydict) : bool :=
  (py_eq (status_of response) (PStr "FAILED")
   || py_eq (status_of response) (PStr "CANCELLED"))%bool.

(** Neither [ACTIVE] nor [FAILED] nor [CANCELLED]: the poll goes on. *)
Definition is_pending (response : pydict) : bool :=
  (negb (is_active response) && negb (is_failed response))%bool.

Lemma py_eq_PStr (v : pyval) (s : string) :
  py_eq v (PStr s) = true -> v = PStr s.
Proof.
  destruct v; simpl; try discriminate.
  intros H. apply String.eqb_eq in H. congruence.
Qed.

Lemma failed_not_active (r : pydict) : is_failed r = true -> is_active r = false.
Proof.
  unfold is_failed, is_active. intros H.
  apply orb_true_iff in H as [H | H]; apply py_eq_PStr in H; rewrite H;
    reflexivity.
Qed.

Definition within_budget (timeout start_time now : Z) : Prop :=
  now - start_time < timeout.

(** One poll that found a pending status: the call, then the sleep. *)
Definition pending_round (changeset_id domain_id : pyval) : trace :=
  [EGetListing domain_id changeset_id; ESleep 1].

Fixpoint pending_rounds (changeset_id domain_id : pyval) (n : nat) : trace :=
  match n with
  | O => []
  | S n' => pending_round changeset_id domain_id
            ++ pending_rounds changeset_id domain_id n'
  end.

Section Loop.

Variables changeset_id domain_id : pyval.
Variables timeout start_time : Z.

Local Abbreviation loop := (poll_loop changeset_id domain_id timeout start_time).

(** Polls that fall within the budget and find a pending status are gone
    through one after the other. *)
Lemma loop_through_pending :
  forall (ts : list Z) (pending : list pydict) clock listings,
    List.length ts = List.length pending ->
    Forall (within_budget timeout start_time) ts ->
    Forall (fun r => is_pending r = true) pending ->
    loop (ts ++ clock) (map Ok pending ++ listings)
    = (fst (loop clock listings),
       pending_rounds changeset_id domain_id (List.length pending)
       ++ snd (loop clock listings)).
Proof.
  induction ts as [| now ts IH]; intros pending clock listings Hlen Hts Hp.
  - destruct pending; [| discriminate]. simpl.
    destruct (loop clock listings); reflexivity.
  - destruct pending as [| r pending]; [discriminate |].
    inversion Hts as [| ? ? Hnow Hts']; subst.
    inversion Hp as [| ? ? Hr Hp']; subst.
    injection Hlen as Hlen.
    cbn [app map poll_loop].
    unfold within_budget in Hnow. apply Z.ltb_lt in Hnow. rewrite Hnow.
    rewrite call_ok, bind_returns.
    unfold is_pending, is_active, is_failed, status_of in Hr.
    apply andb_prop in Hr as [Ha Hf].
    apply negb_true_iff in Ha. apply negb_true_iff in Hf.
    rewrite Ha, Hf.
    cbn [emit bind ret fst snd app try_except].
    rewrite (IH pending clock listings Hlen Hts' Hp').
    reflexivity.
Qed.

(** C7.  [_aguardar_changeset_completion] with budget [timeout], started at
    clock reading [start_time], after [n] polls within the budget that all
    found a pending status:
    - if the next reading is within the budget and the next poll finds
      [ACTIVE], it returns [True];
    - if the next reading is beyond the budget, it raises, having polled
      [n] times and no more;
    - if the next reading is within the budget and the next poll finds
      [FAILED] or [CANCELLED], it raises and that poll was the last: the
      trace ends with it and with the message of the handler, whatever the
      script still holds. *)
Theorem C7_polling_outcomes :
  forall (ts : list Z) (pending : list pydict) (now : Z) clock listings,
    List.length ts = List.length pending ->
    Forall (within_budget timeout start_time) ts ->
    Forall (fun r => is_pending r = true) pending ->
    let n := List.length pending in
    let before := pending_rounds changeset_id domain_id n in
    (forall r, within_budget timeout start_time now -> is_active r = true ->
       _aguardar_changeset_completion changeset_id domain_id timeout
         (start_time :: ts ++ now :: clock) (map Ok pending ++ Ok r :: listings)
       = (Returns true, before ++ [EGetListing domain_id changeset_id]))
    /\ (~ within_budget timeout start_time now ->
        _aguardar_changeset_completion changeset_id domain_id timeout
          (start_time :: ts ++ now :: clock) (map Ok pending ++ listings)
        = (Raises timeout_error, before))
    /\ (forall r, within_budget timeout start_time now ->
          is_failed r = true ->
        _aguardar_changeset_completion changeset_id domain_id timeout
          (start_time :: ts ++ now :: clock) (map Ok pending ++ Ok r :: listings)
        = (Raises timeout_error,
           before
           ++ [EGetListing domain_id changeset_id;
               EPrint (MsgErroVerificarStatus
                         (Exception_ "Changeset falhou com status"
                                     [status_of r]))])).
Proof.
  intros ts pending now clock listings Hlen Hts Hp n before.
  unfold _aguardar_changeset_completion.
  repeat split.
  - intros r Hnow Hr.
    rewrite (loop_through_pending ts pending _ _ Hlen Hts Hp).
    cbn [poll_loop]. unfold within_budget in Hnow.
    apply Z.ltb_lt in Hnow. rewrite Hnow.
    rewrite call_ok, bind_returns.
    unfold is_active, status_of in Hr. rewrite Hr. reflexivity.
  - intros Hnow.
    rewrite (loop_through_pending ts pending _ _ Hlen Hts Hp).
    cbn [poll_loop]. unfold within_budget in Hnow.
    apply Z.ltb_nlt in Hnow. rewrite Hnow.
    cbn [snd fst raise]. rewrite app_nil_r. reflexivity.
  - intros r Hnow Hf. pose proof (failed_not_active r Hf) as Ha.
    rewrite (loop_through_pending ts pending _ _ Hlen Hts Hp).
    cbn [poll_loop]. unfold within_budget in Hnow.
    apply Z.ltb_lt in Hnow. rewrite Hnow.
    rewrite call_ok, bind_returns.
    unfold is_active, is_failed, status_of in Ha, Hf. rewrite Ha, Hf.
    reflexivity.
Qed.

End Loop.

End PollingFacts.

(** ** The republish driver (C10) *)

Module DriverFacts.
Import Smus Republish.

(** The assets for which a publish changeset was requested, in order. *)
Fixpoint publish_requests (t : trace) : list pyval :=
  match t with
  | [] => []
  | ECreateListingChangeSet _ entity_id :: t' => entity_id :: publish_requests t'
  | _ :: t' => publish_requests t'
  end.

(** The per-asset lines that [main] itself prints. *)
Fixpoint reports (t : trace) : list message :=
  match t with
  | [] => []
  | EPrint (MsgProgresso c n) :: t' => MsgProgresso c n :: reports t'
  | EPrint (MsgRepublicado a) :: t' => MsgRepublicado a :: reports t'
  | EPrint (MsgFalha a) :: t' => MsgFalha a :: reports t'
  | _ :: t' => reports t'
  end.

(** The number of assets reported as republished. *)
Fixpoint republished (t : trace) : nat :=
  match t with
  | [] => 0
  | EPrint (MsgRepublicado _) :: t' => S (republished t')
  | _ :: t' => republished t'
  end.

Lemma publish_requests_app (t u : trace) :
  publish_requests (t ++ u) = publish_requests t ++ publish_requests u.
Proof.
  induction t as [| ev t IH]; [reflexivity |].
  destruct ev; simpl; rewrite IH; reflexivity.
Qed.

Lemma reports_app (t u : trace) : reports (t ++ u) = reports t ++ reports u.
Proof.
  induction t as [| ev t IH]; [reflexivity |].
  destruct ev as [| | | | | | | | | m]; simpl; try apply IH.
  destruct m; simpl; rewrite IH; reflexivity.
Qed.

Lemma republished_app (t u : trace) :
  republished (t ++ u) = (republished t + republished u)%nat.
Proof.
  induction t as [| ev t IH]; [reflexivity |].
  destruct ev as [| | | | | | | | | m]; simpl; try apply IH.
  destruct m; simpl; rewrite IH; reflexivity.
Qed.

(** Events that belong to neither the publish requests nor the reports. *)
Definition silent (ev : event) : bool :=
  match ev with
  | ECreateListingChangeSet _ _ => false
  | EPrint (MsgProgresso _ _) | EPrint (MsgRepublicado _) | EPrint (MsgFalha _) => false
  | _ => true
  end.

Lemma silent_trace (t : trace) :
  forallb silent t = true ->
  publish_requests t = [] /\ reports t = [] /\ republished t = 0%nat.
Proof.
  induction t as [| ev t IH]; [repeat split |].
  simpl. intros H. apply andb_prop in H as [Hev Ht].
  destruct (IH Ht) as (H1 & H2 & H3).
  destruct ev as [| | | | | | | | | m]; try discriminate; simpl; auto.
  destruct m; try discriminate; simpl; auto.
Qed.

Lemma list_assets_ids_loop_silent domain_id project_id :
  forall pages next_token acc,
    forallb silent
      (snd (list_assets_ids_loop domain_id project_id pages next_token acc)) = true.
Proof.
  induction pages as [| page pages IH]; intros tok acc; [reflexivity |].
  cbn [list_assets_ids_loop].
  destruct page as [response | e]; [| reflexivity].
  rewrite call_ok, bind_returns. cbn [snd app forallb silent andb].
  destruct (item_identifiers _) as [ids | e]; [| reflexivity].
  cbn [lift]. rewrite bind_ret.
  destruct (negb _); [reflexivity | apply IH].
Qed.

Lemma poll_loop_silent changeset_id domain_id timeout start_time :
  forall clock listings,
    forallb silent
      (snd (poll_loop changeset_id domain_id timeout start_time clock listings)) = true.
Proof.
  induction clock as [| now clock IH]; intros listings; [reflexivity |].
  cbn [poll_loop].
  destruct (now - start_time <? timeout); [| reflexivity].
  destruct listings as [| answer listings]; [reflexivity |].
  destruct answer as [response | e]; [| reflexivity].
  rewrite call_ok, bind_returns.
  destruct (py_eq _ (PStr "ACTIVE")); [reflexivity |].
  destruct (py_eq _ (PStr "FAILED") || py_eq _ (PStr "CANCELLED"))%bool;
    [reflexivity |].
  cbn [emit bind ret fst snd app try_except].
  specialize (IH listings).
  destruct (poll_loop _ _ _ _ clock listings) as [o t]. apply IH.
Qed.

(** One call of [republicar_asset] requests one changeset, for its asset,
    and prints none of the lines of [main]. *)
Lemma republicar_asset_trace asset_id domain_id env :
  let t := snd (republicar_asset asset_id domain_id env) in
  publish_requests t = [asset_id] /\ reports t = [] /\ republished t = 0%nat.
Proof.
  unfold republicar_asset.
  destruct (env_change_set env) as [response | e]; [| repeat split].
  rewrite call_ok, bind_returns.
  destruct (dict_item "listingId" response) as [changeset_id | e];
    [| repeat split].
  cbn [lift]. rewrite bind_ret.
  unfold _aguardar_changeset_completion.
  destruct (env_clock env) as [| start_time clock]; [repeat split |].
  pose proof (poll_loop_silent changeset_id domain_id 300 start_time clock
                (env_get_listing env)) as Hs.
  destruct (poll_loop _ _ _ _ clock (env_get_listing env)) as [o t].
  cbn [snd] in Hs. destruct (silent_trace t Hs) as (H1 & H2 & H3).
  destruct o as [b | e |]; cbn -[publish_requests reports republished];
    rewrite ?app_nil_r;
    cbn [publish_requests reports republished];
    rewrite ?publish_requests_app, ?reports_app, ?republished_app, H1, H2, H3;
    repeat split.
Qed.

(** The counted loop requests one changeset per listed asset and counts the
    assets it reports as republished. *)
Lemma main_loop_trace domain_id total :
  forall todo envs count final t,
    main_loop domain_id total todo envs count = (Returns final, t) ->
    publish_requests t = todo /\ final = (count + republished t)%nat.
Proof.
  induction todo as [| a todo IH]; intros envs count final t H.
  - cbn in H. injection H as <- <-. split; [reflexivity | cbn; lia].
  - cbn [main_loop] in H. destruct envs as [| env envs]; [discriminate |].
    pose proof (republicar_asset_trace a domain_id env) as (P1 & P2 & P3).
    destruct (republicar_asset a domain_id env) as [o t0]. cbn [snd] in P1, P2, P3.
    destruct o as [success | e |]; try discriminate.
    rewrite bind_returns in H.
    destruct success.
    + cbn [print emit bind] in H.
      destruct (main_loop domain_id total todo envs (S count)) as [o' t'] eqn:E.
      cbn [fst snd app] in H. injection H as Ho Ht. subst o' t.
      destruct (IH _ _ _ _ E) as [Q1 Q2].
      rewrite publish_requests_app, republished_app, P1, P3.
      cbn. rewrite Q1. split; [reflexivity | lia].
    + cbn [print emit bind] in H.
      destruct (main_loop domain_id total todo envs count) as [o' t'] eqn:E.
      cbn [fst snd app] in H. injection H as Ho Ht. subst o' t.
      destruct (IH _ _ _ _ E) as [Q1 Q2].
      rewrite publish_requests_app, republished_app, P1, P3.
      cbn. rewrite Q1. split; [reflexivity | lia].
Qed.

(** *** Scripts that cover a whole run *)

(** The clock shows a reading beyond the budget before the polls have used
    up the scripted responses. *)
Fixpoint clock_outlasts (timeout start_time : Z) (clock : list Z) (answers : nat)
  : bool :=
  match clock with
  | [] => false
  | now :: clock' =>
      if now - start_time <? timeout then
        match answers with
        | O => false
        | S answers' => clock_outlasts timeout start_time clock' answers'
        end
      else true
  end.

Definition covers_a_run (env : publish_env) : bool :=
  match env_clock env with
  | [] => false
  | start_time :: clock =>
      clock_outlasts 300 start_time clock (List.length (env_get_listing env))
  end.

Lemma poll_loop_not_stuck changeset_id domain_id timeout start_time :
  forall clock listings,
    clock_outlasts timeout start_time clock (List.length listings) = true ->
    fst (poll_loop changeset_id domain_id timeout start_time clock listings) <> Stuck.
Proof.
  induction clock as [| now clock IH]; intros listings H; [discriminate |].
  cbn [clock_outlasts] in H. cbn [poll_loop].
  destruct (now - start_time <? timeout); [| discriminate].
  destruct listings as [| answer listings]; [discriminate |].
  cbn [List.length] in H.
  destruct answer as [response | e]; [| discriminate].
  rewrite call_ok, bind_returns.
  destruct (py_eq _ (PStr "ACTIVE")); [discriminate |].
  destruct (py_eq _ (PStr "FAILED") || py_eq _ (PStr "CANCELLED"))%bool;
    [discriminate |].
  cbn [emit bind ret fst snd app try_except].
  specialize (IH listings H).
  destruct (poll_loop _ _ _ _ clock listings) as [o t]. exact IH.
Qed.

(** [republicar_asset] never raises: with a script that covers the run it
    returns [True] or [False]. *)
Lemma republicar_asset_returns asset_id domain_id env :
  covers_a_run env = true ->
  exists b t, republicar_asset asset_id domain_id env = (Returns b, t).
Proof.
  unfold covers_a_run, republicar_asset. intros H.
  destruct (env_change_set env) as [response | e]; [| do 2 eexists; reflexivity].
  rewrite call_ok, bind_returns.
  destruct (dict_item "listingId" response) as [changeset_id | e];
    [| do 2 eexists; reflexivity].
  cbn [lift]. rewrite bind_ret. unfold _aguardar_changeset_completion.
  destruct (env_clock env) as [| start_time clock]; [discriminate |].
  pose proof (poll_loop_not_stuck changeset_id domain_id 300 start_time clock
                (env_get_listing env) H) as Hns.
  destruct (poll_loop _ _ _ _ clock (env_get_listing env)) as [[b | e |] t];
    [| | contradiction]; do 2 eexists; reflexivity.
Qed.

(** A failure for one asset does not stop the loop. *)
Lemma main_loop_returns domain_id total :
  forall todo envs count,
    List.length envs = List.length todo ->
    forallb covers_a_run envs = true ->
    exists final t, main_loop domain_id total todo envs count = (Returns final, t).
Proof.
  induction todo as [| a todo IH]; intros envs count Hlen Hcov.
  - do 2 eexists. reflexivity.
  - destruct envs as [| env envs]; [discriminate |].
    cbn [forallb] in Hcov. apply andb_prop in Hcov as [Henv Hcov].
    injection Hlen as Hlen. cbn [main_loop].
    destruct (republicar_asset_returns a domain_id env Henv) as (b & t0 & ->).
    rewrite bind_returns. destruct b; cbn [print emit bind].
    + destruct (IH envs (S count) Hlen Hcov) as (final & t & ->).
      do 2 eexists. reflexivity.
    + destruct (IH envs count Hlen Hcov) as (final & t & ->).
      do 2 eexists. reflexivity.
Qed.

(** One run of [main] over a non-empty listing, from its parts. *)
Lemma main_from_parts project_id domain_id pages first rest tl env0 envs b0 t0
      count tloop :
  list_assets_ids domain_id project_id pages = (Returns (first :: rest), tl) ->
  republicar_asset first domain_id env0 = (Returns b0, t0) ->
  main_loop domain_id (S (List.length rest)) (first :: rest) envs 0%nat
  = (Returns count, tloop) ->
  let t := tl ++ [EPrint MsgInicio] ++ t0 ++ tloop ++ [EPrint MsgFinalizado] in
  main project_id domain_id pages (env0 :: envs) = (Returns count, t)
  /\ publish_requests t = first :: first :: rest
  /\ reports t = reports tloop
  /\ count = republished tloop.
Proof.
  intros Hlist H0 Hloop t.
  assert (Htl : publish_requests tl = [] /\ reports tl = []
                /\ republished tl = 0%nat).
  { apply silent_trace.
    pose proof (list_assets_ids_loop_silent domain_id project_id pages PNone []) as H.
    unfold list_assets_ids in Hlist. rewrite Hlist in H. exact H. }
  destruct Htl as (T1 & T2 & T3).
  pose proof (republicar_asset_trace first domain_id env0) as (P1 & P2 & P3).
  rewrite H0 in P1, P2, P3. cbn [snd] in P1, P2, P3.
  destruct (main_loop_trace _ _ _ _ _ _ _ Hloop) as [Q1 Q2].
  repeat split.
  - unfold main. rewrite Hlist. rewrite bind_returns.
    cbn [print emit bind first_item lift ret fst snd app List.length].
    rewrite H0. cbn [bind]. rewrite Hloop. reflexivity.
  - subst t. rewrite !publish_requests_app, T1, P1, Q1.
    cbn. rewrite app_nil_r. reflexivity.
  - subst t. rewrite !reports_app, T2, P2. cbn. rewrite app_nil_r. reflexivity.
  - lia.
Qed.

(** C10.  Once the assets are listed, [main] prints its start line and then:
    - on an empty listing it raises [IndexError]: no changeset has been
      requested and no asset has been reported;
    - otherwise, given one script per call of [republicar_asset], each
      covering its run, it calls [republicar_asset] on the first asset,
      drops the result, runs the counted loop over all the assets, the
      first included, and returns.  The first asset is thus the subject of
      two changeset requests, the extra call adds nothing to the reports of
      [main], and the final count is that of the loop alone, started at
      zero. *)
Theorem C10_first_asset_published_twice :
  forall project_id domain_id pages assets_ids tl,
    list_assets_ids domain_id project_id pages = (Returns assets_ids, tl) ->
    (assets_ids = [] ->
     forall envs,
       main project_id domain_id pages envs
       = (Raises IndexError, tl ++ [EPrint MsgInicio])
       /\ publish_requests (tl ++ [EPrint MsgInicio]) = []
       /\ reports (tl ++ [EPrint MsgInicio]) = [])
    /\ (forall first rest env0 envs,
        assets_ids = first :: rest ->
        List.length envs = List.length assets_ids ->
        forallb covers_a_run (env0 :: envs) = true ->
        exists b0 t0 count tloop,
          republicar_asset first domain_id env0 = (Returns b0, t0)
          /\ main_loop domain_id (List.length assets_ids) assets_ids envs 0%nat
             = (Returns count, tloop)
          /\ main project_id domain_id pages (env0 :: envs)
             = (Returns count,
                tl ++ [EPrint MsgInicio] ++ t0 ++ tloop ++ [EPrint MsgFinalizado])
          /\ publish_requests
               (tl ++ [EPrint MsgInicio] ++ t0 ++ tloop ++ [EPrint MsgFinalizado])
             = first :: first :: rest
          /\ reports
               (tl ++ [EPrint MsgInicio] ++ t0 ++ tloop ++ [EPrint MsgFinalizado])
             = reports tloop
          /\ count = republished tloop).
Proof.
  intros p d pages ids tl Hlist. split.
  - intros -> envs.
    assert (Htl : publish_requests tl = [] /\ reports tl = []
                  /\ republished tl = 0%nat).
    { apply silent_trace.
      pose proof (list_assets_ids_loop_silent d p pages PNone []) as H.
      unfold list_assets_ids in Hlist. rewrite Hlist in H. exact H. }
    destruct Htl as (T1 & T2 & _).
    unfold main. rewrite Hlist. rewrite bind_returns.
    cbn. rewrite publish_requests_app, reports_app, T1, T2. repeat split.
  - intros a rest env0 envs -> Hlen Hcov.
    cbn [forallb] in Hcov. apply andb_prop in Hcov as [H0 Hcov].
    destruct (republicar_asset_returns a d env0 H0) as (b0 & t0 & Hfirst).
    destruct (main_loop_returns d (List.length (a :: rest)) (a :: rest) envs 0%nat
                Hlen Hcov) as (count & tloop & Hloop).
    exists b0, t0, count, tloop.
    split; [exact Hfirst |]. split; [exact Hloop |].
    exact (main_from_parts p d pages a rest tl env0 envs b0 t0 count tloop
             Hlist Hfirst Hloop).
Qed.

End DriverFacts.

(** ** Dictionaries *)

Module DictFacts.

Lemma dict_get_set_same k v d : dict_get k (dict_set k v d) = Some v.
Proof.
  induction d as [| [k' v'] d IH]; simpl.
  - rewrite String.eqb_refl. reflexivity.
  - destruct (String.eqb k k') eqn:E; simpl.
    + rewrite String.eqb_refl. reflexivity.
    + rewrite E. exact IH.
Qed.

Lemma dict_get_set_other k k' v d :
  k <> k' -> dict_get k (dict_set k' v d) = dict_get k d.
Proof.
  intros Hne. induction d as [| [k2 v2] d IH]; simpl.
  - apply String.eqb_neq in Hne. rewrite Hne. reflexivity.
  - destruct (String.eqb k' k2) eqn:E; simpl.
    + apply String.eqb_eq in E. subst k2.
      apply String.eqb_neq in Hne. rewrite Hne. reflexivity.
    + destruct (String.eqb k k2); [reflexivity | exact IH].
Qed.

Lemma dict_set_set_same k v v' d :
  dict_set k v (dict_set k v' d) = dict_set k v d.
Proof.
  induction d as [| [k2 v2] d IH]; simpl.
  - rewrite String.eqb_refl. reflexivity.
  - destruct (String.eqb k k2) eqn:E; simpl.
    + rewrite String.eqb_refl. reflexivity.
    + rewrite E, IH. reflexivity.
Qed.

Lemma dict_set_same_value k v d : dict_get k d = Some v -> dict_set k v d = d.
Proof.
  induction d as [| [k2 v2] d IH]; simpl; [discriminate |].
  destruct (String.eqb k k2) eqn:E.
  - apply String.eqb_eq in E. subst k2. intros H. injection H as ->. reflexivity.
  - intros H. rewrite (IH H). reflexivity.
Qed.

Lemma dict_set_fresh k v d : dict_get k d = None -> dict_set k v d = d ++ [(k, v)].
Proof.
  induction d as [| [k2 v2] d IH]; simpl; [reflexivity |].
  destruct (String.eqb k k2); [discriminate |].
  intros H. rewrite (IH H). reflexivity.
Qed.

Lemma dict_mem_set k k' v d :
  dict_mem k d = true -> dict_mem k (dict_set k' v d) = true.
Proof.
  unfold dict_mem. intros H.
  destruct (string_dec k k') as [-> | Hne].
  - rewrite dict_get_set_same. reflexivity.
  - rewrite (dict_get_set_other _ _ _ _ Hne). exact H.
Qed.

Lemma dict_set_comm k k' v v' d :
  k <> k' -> dict_mem k d = true ->
  dict_set k' v' (dict_set k v d) = dict_set k v (dict_set k' v' d).
Proof.
  intros Hne. unfold dict_mem.
  induction d as [| [k2 v2] d IH]; simpl; [discriminate |].
  assert (Hne' : String.eqb k' k = false)
    by (apply String.eqb_neq; congruence).
  pose proof Hne as Hneb. apply String.eqb_neq in Hneb.
  destruct (String.eqb k k2) eqn:E.
  - intros _. apply String.eqb_eq in E. subst k2.
    simpl. rewrite Hne'. simpl. rewrite String.eqb_refl. reflexivity.
  - intros H. destruct (String.eqb k' k2) eqn:E'.
    + simpl. rewrite E', Hneb. reflexivity.
    + simpl. rewrite E', E. rewrite (IH H). reflexivity.
Qed.

Lemma dict_get_app_none k d e :
  dict_get k d = None -> dict_get k (d ++ e) = dict_get k e.
Proof.
  induction d as [| [k2 v2] d IH]; simpl; [reflexivity |].
  destruct (String.eqb k k2); [discriminate | exact IH].
Qed.

Lemma dict_get_pop_same k d : dict_get k (dict_pop k d) = None.
Proof.
  unfold dict_pop. induction d as [| [k2 v2] d IH]; simpl; [reflexivity |].
  destruct (String.eqb k k2) eqn:E; simpl; [exact IH |].
  rewrite E. exact IH.
Qed.

Lemma dict_get_pop_other k k' d :
  k <> k' -> dict_get k (dict_pop k' d) = dict_get k d.
Proof.
  intros Hne. unfold dict_pop.
  induction d as [| [k2 v2] d IH]; simpl; [reflexivity |].
  destruct (String.eqb k' k2) eqn:E; simpl.
  - apply String.eqb_eq in E. subst k2.
    apply String.eqb_neq in Hne. rewrite Hne. exact IH.
  - destruct (String.eqb k k2); [reflexivity | exact IH].
Qed.

(** *** [{**e, **n}] *)

Lemma dict_update_cons e k v n :
  dict_update e ((k, v) :: n) = dict_update (dict_set k v e) n.
Proof. reflexivity. Qed.

Lemma dict_mem_update k e n :
  dict_mem k e = true -> dict_mem k (dict_update e n) = true.
Proof.
  revert e. induction n as [| [k1 v1] n IH]; intros e H; [exact H |].
  rewrite dict_update_cons. apply IH. apply dict_mem_set. exact H.
Qed.

Lemma dict_get_update_absent k e n :
  dict_get k n = None -> dict_get k (dict_update e n) = dict_get k e.
Proof.
  revert e. induction n as [| [k1 v1] n IH]; intros e H; [reflexivity |].
  simpl in H. destruct (String.eqb k k1) eqn:E; [discriminate |].
  rewrite dict_update_cons, (IH _ H).
  apply dict_get_set_other. apply String.eqb_neq. exact E.
Qed.

(** The candidate wins on every key it binds; the other keys keep the
    existing value. *)
Lemma dict_get_update k e n :
  nodup_keys n = true ->
  dict_get k (dict_update e n)
  = match dict_get k n with Some v => Some v | None => dict_get k e end.
Proof.
  revert e. induction n as [| [k1 v1] n IH]; intros e Hn; [reflexivity |].
  simpl in Hn. apply andb_prop in Hn as [Hk Hn].
  apply negb_true_iff in Hk. unfold dict_mem in Hk.
  rewrite dict_update_cons, (IH _ Hn). simpl.
  destruct (String.eqb k k1) eqn:E.
  - apply String.eqb_eq in E. subst k1.
    destruct (dict_get k n); [discriminate |].
    apply dict_get_set_same.
  - destruct (dict_get k n); [reflexivity |].
    apply dict_get_set_other. apply String.eqb_neq. exact E.
Qed.

Lemma dict_update_absorbs_set n :
  forall m k v,
    dict_mem k n = true -> dict_mem k m = true ->
    dict_update (dict_set k v m) n = dict_update m n.
Proof.
  induction n as [| [k1 v1] n IH]; intros m k v Hn Hm; [discriminate |].
  rewrite !dict_update_cons.
  destruct (string_dec k k1) as [-> | Hne].
  - rewrite dict_set_set_same. reflexivity.
  - rewrite (dict_set_comm k k1 v v1 m Hne Hm).
    apply IH.
    + unfold dict_mem in *. simpl in Hn.
      apply String.eqb_neq in Hne. rewrite Hne in Hn. exact Hn.
    + apply dict_mem_set. exact Hm.
Qed.

(** Updating twice with the same mapping changes nothing more. *)
Lemma dict_update_idempotent n :
  forall e, dict_update (dict_update e n) n = dict_update e n.
Proof.
  induction n as [| [k v] n IH]; intros e; [reflexivity |].
  rewrite !dict_update_cons.
  set (m := dict_update (dict_set k v e) n).
  assert (Hm : dict_mem k m = true).
  { apply dict_mem_update. unfold dict_mem. rewrite dict_get_set_same. reflexivity. }
  destruct (dict_mem k n) eqn:Hn.
  - rewrite (dict_update_absorbs_set n m k v Hn Hm). apply IH.
  - assert (Hv : dict_get k m = Some v).
    { unfold m. rewrite dict_get_update_absent.
      - apply dict_get_set_same.
      - unfold dict_mem in Hn. destruct (dict_get k n); [discriminate | reflexivity]. }
    rewrite (dict_set_same_value _ _ _ Hv). apply IH.
Qed.

Lemma dict_update_fresh n :
  forall pre,
    nodup_keys n = true ->
    (forall k, dict_mem k n = true -> dict_get k pre = None) ->
    dict_update pre n = pre ++ n.
Proof.
  induction n as [| [k v] n IH]; intros pre Hn Hpre.
  - simpl. rewrite app_nil_r. reflexivity.
  - simpl in Hn. apply andb_prop in Hn as [Hk Hn].
    apply negb_true_iff in Hk.
    rewrite dict_update_cons, dict_set_fresh.
    + rewrite IH; [rewrite <- app_assoc; reflexivity | exact Hn |].
      intros k' Hk'. rewrite dict_get_app_none.
      * simpl. destruct (String.eqb k' k) eqn:E; [| reflexivity].
        apply String.eqb_eq in E. subst k'. congruence.
      * apply Hpre. unfold dict_mem. simpl.
        destruct (String.eqb k' k); [reflexivity | exact Hk'].
    + apply Hpre. unfold dict_mem. simpl. rewrite String.eqb_refl. reflexivity.
Qed.

Lemma dict_update_self n : nodup_keys n = true -> dict_update n n = n.
Proof.
  intros Hn.
  assert (H : dict_update [] n = n).
  { apply (dict_update_fresh n [] Hn). reflexivity. }
  rewrite <- H at 1. rewrite dict_update_idempotent. exact H.
Qed.

End DictFacts.

(** ** Equality of well-formed values *)

Module PyFacts.
Import DictFacts.

Section Induction.

Variable P : pyval -> Prop.
Hypothesis HNone : P PNone.
Hypothesis HBool : forall b, P (PBool b).
Hypothesis HInt : forall n, P (PInt n).
Hypothesis HStr : forall s, P (PStr s).
Hypothesis HList : forall xs, Forall P xs -> P (PList xs).
Hypothesis HDict : forall d, Forall (fun kv => P (snd kv)) d -> P (PDict d).

(** Induction through the lists and dictionaries nested in a value. *)
Fixpoint pyval_nested_ind (v : pyval) : P v :=
  match v with
  | PNone => HNone
  | PBool b => HBool b
  | PInt n => HInt n
  | PStr s => HStr s
  | PList xs =>
      HList xs
        ((fix go (xs : list pyval) : Forall P xs :=
            match xs with
            | [] => Forall_nil P
            | x :: r => Forall_cons x (pyval_nested_ind x) (go r)
            end) xs)
  | PDict d =>
      HDict d
        ((fix go (d : list (string * pyval)) : Forall (fun kv => P (snd kv)) d :=
            match d with
            | [] => Forall_nil _
            | kv :: r =>
                Forall_cons kv (pyval_nested_ind (snd kv)) (go r)
            end) d)
  end.

End Induction.

Lemma dict_get_of_member k v (d : pydict) :
  nodup_keys d = true -> In (k, v) d -> dict_get k d = Some v.
Proof.
  induction d as [| [k0 v0] d IH]; simpl; [tauto |].
  intros Hn [Heq | Hin].
  - injection Heq as -> ->. rewrite String.eqb_refl. reflexivity.
  - apply andb_prop in Hn as [Hk Hn]. apply negb_true_iff in Hk.
    specialize (IH Hn Hin).
    destruct (String.eqb k k0) eqn:E; [| exact IH].
    apply String.eqb_eq in E. subst k0.
    unfold dict_mem in Hk. rewrite IH in Hk. discriminate.
Qed.

(** A well-formed value equals itself. *)
Lemma py_eq_refl (v : pyval) : py_wf v = true -> py_eq v v = true.
Proof.
  induction v as [| b | n | s | xs IH | d IH] using pyval_nested_ind;
    intros Hwf.
  - reflexivity.
  - destruct b; reflexivity.
  - simpl. apply Z.eqb_refl.
  - simpl. apply String.eqb_refl.
  - simpl in *. induction IH as [| x xs Hx _ IHxs]; [reflexivity |].
    simpl in Hwf. apply andb_prop in Hwf as [Hwx Hwxs].
    rewrite (Hx Hwx). simpl. apply IHxs, Hwxs.
  - cbn [py_wf] in Hwf. apply andb_prop in Hwf as [Hnd Hall].
    cbn [py_eq]. rewrite Nat.eqb_refl. cbn [andb].
    assert (Hgen : forall s : list (string * pyval),
               (forall k v, In (k, v) s ->
                            dict_get k d = Some v /\ py_eq v v = true) ->
               (fix all (d0 : list (string * pyval)) : bool :=
                  match d0 with
                  | [] => true
                  | (k, v) :: r =>
                      match dict_get k d with
                      | Some w => py_eq v w
                      | None => false
                      end && all r
                  end) s = true).
    { induction s as [| [k v] s IHs]; intros Hs; [reflexivity |].
      destruct (Hs k v (or_introl eq_refl)) as [Hg He].
      rewrite Hg, He. simpl. apply IHs.
      intros k' v' Hin. apply Hs. right. exact Hin. }
    apply Hgen. intros k v Hin. split.
    + apply dict_get_of_member; assumption.
    + rewrite Forall_forall in IH. apply (IH (k, v) Hin).
      clear - Hall Hin. induction d as [| [k0 v0] d IHd]; [contradiction |].
      apply andb_prop in Hall as [H0 Hall].
      destruct Hin as [Heq | Hin]; [injection Heq as -> ->; exact H0 |].
      apply IHd; assumption.
Qed.

End PyFacts.

(** ** The metadata-form merge (C1 - C5) *)

Module MergeFacts.
Import Smus DictFacts.

(** [form.get("typeIdentifier")] *)
Definition form_type (form : pydict) : pyval :=
  dict_get_or_none "typeIdentifier" form.

(** The test of the update loop. *)
Definition has_type (target_type : pyval) (form : pydict) : bool :=
  py_eq (form_type form) target_type.

Definition count_type (target_type : pyval) (forms : list pydict) : nat :=
  List.length (filter (has_type target_type) forms).

Definition no_form_of_type (target_type : pyval) (forms : list pydict) : bool :=
  forallb (fun form => negb (has_type target_type form)) forms.

(** No two forms of the list have equal type identifiers. *)
Fixpoint distinct_types (forms : list pydict) : bool :=
  match forms with
  | [] => true
  | form :: more =>
      forallb (fun later => negb (py_eq (form_type form) (form_type later))) more
      && distinct_types more
  end.

(** [actual_asset.get("formsOutput", [])] *)
Definition fetched_forms (a : asset) : list pydict :=
  match asset_formsOutput a with Some forms => forms | None => [] end.

(** The revisions submitted along a trace. *)
Fixpoint revisions (t : trace) : list revision_request :=
  match t with
  | [] => []
  | ECreateAssetRevision req :: t' => req :: revisions t'
  | _ :: t' => revisions t'
  end.

(** A form as the normalisation leaves it. *)
Definition normalized (form : pydict) : Prop :=
  dict_get "typeName" form = None
  /\ forall d, dict_get "content" form <> Some (PDict d).

Lemma count_type_app t (l l' : list pydict) :
  count_type t (l ++ l') = (count_type t l + count_type t l')%nat.
Proof. unfold count_type. rewrite filter_app, length_app. reflexivity. Qed.

Lemma count_type_none t (l : list pydict) :
  no_form_of_type t l = true -> count_type t l = 0%nat.
Proof.
  unfold count_type, no_form_of_type.
  induction l as [| f l IH]; [reflexivity |].
  simpl. intros H. apply andb_prop in H as [Hf Hl].
  apply negb_true_iff in Hf. rewrite Hf. apply IH, Hl.
Qed.

Lemma no_form_of_type_app t (l l' : list pydict) :
  no_form_of_type t (l ++ l') = (no_form_of_type t l && no_form_of_type t l')%bool.
Proof. unfold no_form_of_type. apply forallb_app. Qed.

Lemma form_type_set_content v form :
  form_type (dict_set "content" v form) = form_type form.
Proof.
  unfold form_type, dict_get_or_none.
  rewrite dict_get_set_other; [reflexivity | discriminate].
Qed.

Lemma has_type_set_content t v form :
  has_type t (dict_set "content" v form) = has_type t form.
Proof. unfold has_type. rewrite form_type_set_content. reflexivity. Qed.

Section Merge.

Variable json_loads : string -> option pyval.
Variable json_dumps : pyval -> string.

Local Abbreviation normalize_form := (Smus.normalize_form json_dumps).
Local Abbreviation existing_content := (Smus.existing_content json_loads).
Local Abbreviation update_first := (Smus.update_first json_loads json_dumps).
Local Abbreviation upsert := (Smus.upsert json_loads json_dumps).
Local Abbreviation merge_forms := (Smus.merge_forms json_loads json_dumps).
Local Abbreviation parse_new_content := (Smus.parse_new_content json_loads).

(** The form that the update loop writes in place of a matching [form]. *)
Definition updated_form (form merged_content : pydict) : pydict :=
  dict_set "content" (PStr (json_dumps (PDict merged_content))) form.

(** The form that the insertion appends. *)
Definition inserted_form (form_name target_type new_content : pyval) : pydict :=
  [("formName", form_name);
   ("typeIdentifier", target_type);
   ("content", PStr (json_dumps new_content))].

(** *** Normalisation *)

Lemma normalize_form_normalized form : normalized (normalize_form form).
Proof.
  unfold Smus.normalize_form.
  set (form1 := match dict_get "typeName" form with
                | Some v => dict_set "typeIdentifier" v (dict_pop "typeName" form)
                | None => form
                end).
  assert (H1 : dict_get "typeName" form1 = None).
  { unfold form1. destruct (dict_get "typeName" form) eqn:E; [| exact E].
    rewrite dict_get_set_other by discriminate. apply dict_get_pop_same. }
  destruct (dict_get "content" form1) as [c |] eqn:Ec.
  - destruct c; try (split; [exact H1 | intros d0; rewrite Ec; discriminate]).
    split.
    + rewrite dict_get_set_other by discriminate. exact H1.
    + intros d0. rewrite dict_get_set_same. discriminate.
  - split; [exact H1 | intros d0; rewrite Ec; discriminate].
Qed.

Lemma normalize_form_fixes form : normalized form -> normalize_form form = form.
Proof.
  intros [H1 H2]. unfold Smus.normalize_form. rewrite H1.
  destruct (dict_get "content" form) as [c |] eqn:Ec; [| reflexivity].
  destruct c; try reflexivity. exfalso. apply (H2 d). reflexivity.
Qed.

(** X1.  Normalising a form list is idempotent: normalising an already
    normalised list yields the same list. *)
Lemma normalize_forms_idempotent (forms : list pydict) :
  map normalize_form (map normalize_form forms) = map normalize_form forms.
Proof.
  induction forms as [| f forms IH]; [reflexivity |].
  simpl. rewrite IH, (normalize_form_fixes _ (normalize_form_normalized f)).
  reflexivity.
Qed.

Lemma updated_form_normalized form m : normalized form -> normalized (updated_form form m).
Proof.
  intros [H1 H2]. unfold updated_form. split.
  - rewrite dict_get_set_other by discriminate. exact H1.
  - intros d. rewrite dict_get_set_same. discriminate.
Qed.

Lemma inserted_form_normalized form_name t c : normalized (inserted_form form_name t c).
Proof. split; [reflexivity | intros d; discriminate]. Qed.

(** *** The update loop *)

Lemma update_first_miss t n forms :
  no_form_of_type t forms = true -> update_first t n forms = Ok None.
Proof.
  induction forms as [| f forms IH]; [reflexivity |].
  simpl. intros H. apply andb_prop in H as [Hf Hl].
  apply negb_true_iff in Hf. unfold has_type, form_type in Hf. rewrite Hf.
  rewrite (IH Hl). reflexivity.
Qed.

Lemma update_first_hit t n pre form post m :
  no_form_of_type t pre = true ->
  has_type t form = true ->
  merge_contents (existing_content form) n = Ok m ->
  update_first t n (pre ++ form :: post)
  = Ok (Some (pre ++ updated_form form m :: post)).
Proof.
  intros Hpre Hf Hm. induction pre as [| f pre IH].
  - simpl. unfold has_type, form_type in Hf. rewrite Hf, Hm. reflexivity.
  - simpl in Hpre. apply andb_prop in Hpre as [Hh Hpre].
    apply negb_true_iff in Hh. unfold has_type, form_type in Hh.
    simpl. rewrite Hh, (IH Hpre). reflexivity.
Qed.

Lemma update_first_inv t n forms r :
  update_first t n forms = Ok r ->
  match r with
  | None => no_form_of_type t forms = true
  | Some out =>
      exists pre form post m,
        forms = pre ++ form :: post
        /\ no_form_of_type t pre = true
        /\ has_type t form = true
        /\ merge_contents (existing_content form) n = Ok m
        /\ out = pre ++ updated_form form m :: post
  end.
Proof.
  revert r. induction forms as [| f forms IH]; intros r H.
  - simpl in H. injection H as <-. reflexivity.
  - simpl in H.
    destruct (py_eq (dict_get_or_none "typeIdentifier" f) t) eqn:Hf.
    + destruct (merge_contents (existing_content f) n) as [m | e] eqn:Hm;
        [| discriminate].
      simpl in H. injection H as <-.
      exists [], f, forms, m. repeat split; assumption.
    + destruct (update_first t n forms) as [r' | e]; [| discriminate].
      simpl in H. injection H as <-.
      specialize (IH r' eq_refl). destruct r' as [out |]; simpl.
      * destruct IH as (pre & form & post & m & -> & Hpre & Hform & Hm & ->).
        exists (f :: pre), form, post, m. repeat split; try assumption.
        simpl. unfold has_type, form_type. rewrite Hf. exact Hpre.
      * unfold has_type, form_type. rewrite Hf. exact IH.
Qed.

(** *** One run of [add_metadata_form] *)

Variable datazone : datazone_client.

Local Abbreviation add_metadata_form :=
  (Smus.add_metadata_form json_loads json_dumps datazone).

(** The request built from the fetched asset and the merged form list. *)
Definition revision_of (domain_id asset_id name : pyval) (forms : list pydict)
    (actual_asset : asset) : revision_request :=
  {| req_domainIdentifier := domain_id;
     req_identifier := asset_id;
     req_name := name;
     req_formsInput := forms;
     req_description := revision_description actual_asset |}.

Lemma add_metadata_form_submits domain_id asset_id cand actual_asset name target out :
  api_get_asset datazone domain_id asset_id = Ok actual_asset ->
  asset_name actual_asset = Some name ->
  dict_get "typeIdentifier" cand = Some target ->
  merge_forms (fetched_forms actual_asset) cand = Ok out ->
  add_metadata_form domain_id asset_id cand
  = match api_create_asset_revision datazone
            (revision_of domain_id asset_id name out actual_asset) with
    | Ok _ =>
        (Returns tt,
         [EGetAsset domain_id asset_id;
          ECreateAssetRevision (revision_of domain_id asset_id name out actual_asset);
          EPrint (MsgFormUpserted target name)])
    | Raise e =>
        (Raises e,
         [EGetAsset domain_id asset_id;
          ECreateAssetRevision (revision_of domain_id asset_id name out actual_asset)])
    end.
Proof.
  intros Hget Hname Htype Hmerge.
  unfold Smus.add_metadata_form, get_asset. rewrite Hget, call_ok, bind_returns.
  rewrite Hname. cbn [lift]. rewrite bind_ret.
  unfold Smus.merge_forms in Hmerge.
  destruct (parse_new_content cand) as [new_content | e]; [| discriminate].
  cbn [rbind] in Hmerge. unfold dict_item in *. rewrite Htype in *.
  cbn [rbind] in Hmerge. unfold fetched_forms in Hmerge.
  cbn [lift]. rewrite !bind_ret. rewrite Hmerge. cbn [lift]. rewrite bind_ret.
  unfold revision_of.
  destruct (api_create_asset_revision datazone _) as [[] | e]; reflexivity.
Qed.

(** A run submits at most one revision, and only after the asset was
    fetched with a name and the merge produced a form list. *)
Lemma add_metadata_form_revisions domain_id asset_id cand :
  revisions (snd (add_metadata_form domain_id asset_id cand))
  = match api_get_asset datazone domain_id asset_id with
    | Ok actual_asset =>
        match asset_name actual_asset,
              merge_forms (fetched_forms actual_asset) cand with
        | Some name, Ok out =>
            [revision_of domain_id asset_id name out actual_asset]
        | _, _ => []
        end
    | Raise _ => []
    end.
Proof.
  destruct (api_get_asset datazone domain_id asset_id) as [actual_asset | e] eqn:Hget.
  - destruct (asset_name actual_asset) as [name |] eqn:Hname.
    + destruct (merge_forms (fetched_forms actual_asset) cand) as [out | e] eqn:Hm.
      * assert (Ht : exists target, dict_get "typeIdentifier" cand = Some target).
        { unfold Smus.merge_forms in Hm.
          destruct (parse_new_content cand); [| discriminate].
          cbn [rbind] in Hm. unfold dict_item in Hm.
          destruct (dict_get "typeIdentifier" cand); [eauto | discriminate]. }
        destruct Ht as [target Ht].
        rewrite (add_metadata_form_submits _ _ _ _ _ _ _ Hget Hname Ht Hm).
        destruct (api_create_asset_revision datazone _); reflexivity.
      * unfold Smus.add_metadata_form, get_asset.
        rewrite Hget, call_ok, bind_returns, Hname. cbn [lift]. rewrite bind_ret.
        unfold Smus.merge_forms, fetched_forms in Hm.
        destruct (parse_new_content cand) as [new_content | e']; [| reflexivity].
        cbn [rbind lift] in *. rewrite bind_ret.
        destruct (dict_item "typeIdentifier" cand) as [target | e']; [| reflexivity].
        cbn [rbind lift] in *. rewrite bind_ret. rewrite Hm. reflexivity.
    + unfold Smus.add_metadata_form, get_asset.
      rewrite Hget, call_ok, bind_returns, Hname. reflexivity.
  - unfold Smus.add_metadata_form, get_asset. rewrite Hget. reflexivity.
Qed.

(** C2 (amended).  A revision submitted by [add_metadata_form] carries the
    name that the preceding [get_asset] returned, and the description that it
    returned; when [get_asset] returned no description (the key is absent or
    holds [None]) the revision carries the empty string instead. *)
Theorem C2_revision_keeps_name_and_description :
  forall domain_id asset_id cand req,
    In req (revisions (snd (add_metadata_form domain_id asset_id cand))) ->
    exists actual_asset,
      api_get_asset datazone domain_id asset_id = Ok actual_asset
      /\ asset_name actual_asset = Some (req_name req)
      /\ req_domainIdentifier req = domain_id
      /\ req_identifier req = asset_id
      /\ match asset_description actual_asset with
         | None | Some PNone => req_description req = PStr ""
         | Some description => req_description req = description
         end.
Proof.
  intros d a cand req Hin. rewrite add_metadata_form_revisions in Hin.
  destruct (api_get_asset datazone d a) as [actual_asset | e]; [| contradiction].
  destruct (asset_name actual_asset) as [name |] eqn:Hname; [| contradiction].
  destruct (merge_forms (fetched_forms actual_asset) cand) as [out | e];
    [| contradiction].
  destruct Hin as [<- | []].
  exists actual_asset. repeat split; try assumption.
  unfold revision_of, revision_description. cbn [req_description].
  destruct (asset_description actual_asset) as [[] |]; reflexivity.
Qed.

(** The candidate's content is missing, or is text that does not decode. *)
Definition candidate_undecodable (cand : pydict) : Prop :=
  dict_get "content" cand = None
  \/ exists s, dict_get "content" cand = Some (PStr s) /\ json_loads s = None.

Lemma candidate_undecodable_raises cand :
  candidate_undecodable cand ->
  parse_new_content cand = Raise (ValueError "Erro ao decodificar 'content'").
Proof.
  unfold Smus.parse_new_content. intros [H | (s & H & Hs)]; rewrite H.
  - reflexivity.
  - rewrite Hs. reflexivity.
Qed.

(** C3 (amended).  Strict decoding of the candidate: when its content is
    missing or is text that does not decode, [add_metadata_form] raises and
    no revision has been submitted; the error is the content-decoding
    [ValueError] as soon as the asset was fetched with a name.  Lenient
    decoding of the existing form: when the content of the matching form is
    text that does not decode, the candidate is merged over the empty
    mapping, the revision is submitted, and the run raises only if the
    submission itself does. *)
Theorem C3_strict_candidate_lenient_existing :
  forall domain_id asset_id cand,
    (candidate_undecodable cand ->
     (exists e, fst (add_metadata_form domain_id asset_id cand) = Raises e)
     /\ revisions (snd (add_metadata_form domain_id asset_id cand)) = []
     /\ (forall actual_asset name,
          api_get_asset datazone domain_id asset_id = Ok actual_asset ->
          asset_name actual_asset = Some name ->
          fst (add_metadata_form domain_id asset_id cand)
          = Raises (ValueError "Erro ao decodificar 'content'")))
    /\ (forall actual_asset name target n pre form post s,
        api_get_asset datazone domain_id asset_id = Ok actual_asset ->
        asset_name actual_asset = Some name ->
        parse_new_content cand = Ok (PDict n) ->
        dict_get "typeIdentifier" cand = Some target ->
        map normalize_form (fetched_forms actual_asset) = pre ++ form :: post ->
        no_form_of_type target pre = true ->
        has_type target form = true ->
        dict_get "content" form = Some (PStr s) ->
        json_loads s = None ->
        let out := pre ++ updated_form form (dict_update [] n) :: post in
        let req := revision_of domain_id asset_id name out actual_asset in
        revisions (snd (add_metadata_form domain_id asset_id cand)) = [req]
        /\ fst (add_metadata_form domain_id asset_id cand)
           = match api_create_asset_revision datazone req with
             | Ok _ => Returns tt
             | Raise e => Raises e
             end).
Proof.
  intros d a cand. split.
  - intros Hc. apply candidate_undecodable_raises in Hc.
    repeat split.
    + unfold Smus.add_metadata_form, get_asset.
      destruct (api_get_asset datazone d a) as [actual_asset | e].
      * rewrite call_ok, bind_returns.
        destruct (asset_name actual_asset); cbn [lift].
        -- rewrite bind_ret, Hc. eexists. reflexivity.
        -- eexists. reflexivity.
      * eexists. reflexivity.
    + rewrite add_metadata_form_revisions.
      destruct (api_get_asset datazone d a) as [actual_asset | e]; [| reflexivity].
      destruct (asset_name actual_asset); [| reflexivity].
      unfold Smus.merge_forms. rewrite Hc. reflexivity.
    + intros actual_asset name Hget Hname.
      unfold Smus.add_metadata_form, get_asset.
      rewrite Hget, call_ok, bind_returns, Hname. cbn [lift].
      rewrite bind_ret, Hc. reflexivity.
  - intros actual_asset name target n pre form post s
           Hget Hname Hparse Htype Hforms Hpre Hform Hcontent Hs out req.
    assert (Hm : merge_forms (fetched_forms actual_asset) cand = Ok out).
    { unfold Smus.merge_forms. rewrite Hparse. cbn [rbind].
      unfold dict_item. rewrite Htype. cbn [rbind].
      unfold Smus.upsert. rewrite Hforms.
      rewrite (update_first_hit target (PDict n) pre form post (dict_update [] n));
        try assumption; [reflexivity |].
      unfold Smus.existing_content. rewrite Hcontent, Hs. reflexivity. }
    split.
    + rewrite add_metadata_form_revisions, Hget, Hname, Hm. reflexivity.
    + rewrite (add_metadata_form_submits _ _ _ _ _ _ _ Hget Hname Htype Hm).
      fold req. destruct (api_create_asset_revision datazone req); reflexivity.
Qed.

(** The candidate's content is the mapping [n]: it is given as a mapping,
    or as text that decodes to it. *)
Definition candidate_mapping (cand : pydict) (n : pydict) : Prop :=
  dict_get "content" cand = Some (PDict n)
  \/ exists s, dict_get "content" cand = Some (PStr s)
               /\ json_loads s = Some (PDict n).

(** The mapping that the candidate is merged over: the one that the content
    text of [form] decodes to, and the empty one when the content is
    missing, is no text, or is text that does not decode. *)
Definition existing_mapping (form : pydict) (e : pydict) : Prop :=
  (exists s, dict_get "content" form = Some (PStr s)
             /\ json_loads s = Some (PDict e))
  \/ (e = []
      /\ forall s, dict_get "content" form = Some (PStr s) -> json_loads s = None).

Lemma candidate_mapping_parsed cand n :
  candidate_mapping cand n -> parse_new_content cand = Ok (PDict n).
Proof.
  unfold Smus.parse_new_content. intros [H | (s & H & Hs)]; rewrite H.
  - reflexivity.
  - rewrite Hs. reflexivity.
Qed.

Lemma existing_mapping_read form e :
  existing_mapping form e -> existing_content form = PDict e.
Proof.
  unfold Smus.existing_content. intros [(s & H & Hs) | [-> H]].
  - rewrite H, Hs. reflexivity.
  - destruct (dict_get "content" form) as [[| | | s | |] |]; try reflexivity.
    rewrite (H s eq_refl). reflexivity.
Qed.

Lemma update_first_hit_raises t n pre form post e :
  no_form_of_type t pre = true ->
  has_type t form = true ->
  merge_contents (existing_content form) n = Raise e ->
  update_first t n (pre ++ form :: post) = Raise e.
Proof.
  intros Hpre Hf Hm. induction pre as [| f pre IH].
  - simpl. unfold has_type, form_type in Hf. rewrite Hf, Hm. reflexivity.
  - simpl in Hpre. apply andb_prop in Hpre as [Hh Hpre].
    apply negb_true_iff in Hh. unfold has_type, form_type in Hh.
    simpl. rewrite Hh, (IH Hpre). reflexivity.
Qed.

(** C1 (amended).  Take an asset fetched with a name, a candidate whose
    content is a mapping (given as such, or as text that decodes to one),
    and the first normalised fetched form that has the candidate's type
    identifier.
    - When the content of that form is text that decodes to a mapping --
      or is missing, no text, or text that does not decode, which counts
      as the empty mapping -- [add_metadata_form] submits one revision.
      Its form list is the normalised list with that form updated in
      place: its content is the serialisation of the key-wise merge of
      the decoded existing mapping with the candidate's, in which each key
      of the candidate has the candidate's value and every other key keeps
      its existing value.  The number of forms of that type is unchanged;
      so the revision holds exactly one when the fetched list held
      exactly one.
    - When the content of that form is text that decodes to something
      that is no mapping, the run raises [TypeError] after the fetch and
      submits nothing. *)
Theorem C1_matching_form_is_merged_in_place :
  forall domain_id asset_id cand actual_asset name target n pre form post,
    api_get_asset datazone domain_id asset_id = Ok actual_asset ->
    asset_name actual_asset = Some name ->
    candidate_mapping cand n ->
    nodup_keys n = true ->
    dict_get "typeIdentifier" cand = Some target ->
    map normalize_form (fetched_forms actual_asset) = pre ++ form :: post ->
    no_form_of_type target pre = true ->
    has_type target form = true ->
    (forall e,
        existing_mapping form e ->
        let merged := dict_update e n in
        exists req,
          revisions (snd (add_metadata_form domain_id asset_id cand)) = [req]
          /\ req_formsInput req = pre ++ updated_form form merged :: post
          /\ count_type target (req_formsInput req)
             = count_type target (map normalize_form (fetched_forms actual_asset))
          /\ (no_form_of_type target post = true ->
              count_type target (req_formsInput req) = 1%nat)
          /\ dict_get "content" (updated_form form merged)
             = Some (PStr (json_dumps (PDict merged)))
          /\ (forall k,
                dict_get k merged
                = match dict_get k n with
                  | Some v => Some v
                  | None => dict_get k e
                  end))
    /\ (forall s v,
          dict_get "content" form = Some (PStr s) ->
          json_loads s = Some v ->
          (forall e, v <> PDict e) ->
          add_metadata_form domain_id asset_id cand
          = (Raises TypeError, [EGetAsset domain_id asset_id])).
Proof.
  intros d a cand actual_asset name target n pre form post
         Hget Hname Hcand Hn Htype Hforms Hpre Hform.
  pose proof (candidate_mapping_parsed cand n Hcand) as Hparse.
  split.
  - intros e Hexisting merged.
    pose proof (existing_mapping_read form e Hexisting) as He.
    assert (Hm : merge_forms (fetched_forms actual_asset) cand
                 = Ok (pre ++ updated_form form merged :: post)).
    { unfold Smus.merge_forms. rewrite Hparse. cbn [rbind].
      unfold dict_item. rewrite Htype. cbn [rbind].
      unfold Smus.upsert. rewrite Hforms.
      rewrite (update_first_hit target (PDict n) pre form post merged);
        try assumption; [reflexivity |].
      rewrite He. reflexivity. }
    assert (Hcount : count_type target (pre ++ updated_form form merged :: post)
                     = S (count_type target post)).
    { rewrite count_type_app, (count_type_none _ _ Hpre).
      unfold count_type. cbn [filter]. unfold updated_form.
      rewrite has_type_set_content, Hform. reflexivity. }
    exists (revision_of d a name (pre ++ updated_form form merged :: post)
              actual_asset).
    repeat split.
    + rewrite add_metadata_form_revisions, Hget, Hname, Hm. reflexivity.
    + cbn [revision_of req_formsInput]. rewrite Hcount, Hforms.
      rewrite count_type_app, (count_type_none _ _ Hpre).
      unfold count_type. cbn [filter]. rewrite Hform. reflexivity.
    + intros Hpost. cbn [revision_of req_formsInput].
      rewrite Hcount, (count_type_none _ _ Hpost). reflexivity.
    + unfold updated_form. apply dict_get_set_same.
    + intros k. apply dict_get_update. exact Hn.
  - intros s v Hcontent Hs Hv.
    assert (He : existing_content form = v).
    { unfold Smus.existing_content. rewrite Hcontent, Hs. reflexivity. }
    assert (Hmerge : merge_contents (existing_content form) (PDict n)
                     = Raise TypeError).
    { rewrite He. destruct v; try reflexivity. exfalso. apply (Hv d0). reflexivity. }
    unfold Smus.add_metadata_form, get_asset.
    rewrite Hget, call_ok, bind_returns, Hname. cbn [lift]. rewrite bind_ret.
    rewrite Hparse. cbn [lift]. rewrite bind_ret.
    unfold dict_item. rewrite Htype. cbn [lift]. rewrite bind_ret.
    unfold fetched_forms in Hforms. unfold Smus.upsert. rewrite Hforms.
    rewrite (update_first_hit_raises target (PDict n) pre form post TypeError
               Hpre Hform Hmerge).
    cbn [rbind lift]. unfold raise. rewrite bind_raises. reflexivity.
Qed.

(** *** Distinct type identifiers *)

Lemma distinct_types_ext (l l' : list pydict) :
  map form_type l = map form_type l' -> distinct_types l = distinct_types l'.
Proof.
  revert l'. induction l as [| f l IH]; intros [| f' l'] H; try discriminate.
  - reflexivity.
  - simpl in H. injection H as Hf Hl. simpl. rewrite (IH _ Hl), Hf. f_equal.
    clear - Hl. revert l' Hl.
    induction l as [| g l IH]; intros [| g' l'] Hl; try discriminate.
    + reflexivity.
    + simpl in Hl. injection Hl as Hg Hl. simpl. rewrite Hg, (IH _ Hl). reflexivity.
Qed.

Lemma distinct_types_snoc (l : list pydict) (x : pydict) :
  distinct_types l = true ->
  no_form_of_type (form_type x) l = true ->
  distinct_types (l ++ [x]) = true.
Proof.
  induction l as [| f l IH]; intros Hd Hx; [reflexivity |].
  simpl in *. apply andb_prop in Hd as [Hf Hd]. apply andb_prop in Hx as [Hfx Hx].
  rewrite forallb_app, Hf, (IH Hd Hx). simpl.
  unfold has_type in Hfx. rewrite Hfx. reflexivity.
Qed.

(** C4.  When the merge produces a form list from forms whose type
    identifiers, after normalisation, are pairwise distinct, the produced
    list has pairwise distinct type identifiers too; it is as long as the
    input when some form has the candidate's type identifier and one form
    longer when none has. *)
Theorem C4_merge_keeps_types_distinct :
  forall forms cand out,
    merge_forms forms cand = Ok out ->
    distinct_types (map normalize_form forms) = true ->
    let target := dict_get_or_none "typeIdentifier" cand in
    distinct_types out = true
    /\ List.length out
       = (List.length forms
          + (if no_form_of_type target (map normalize_form forms) then 1 else 0))%nat.
Proof.
  intros forms cand out Hm Hd target.
  unfold Smus.merge_forms in Hm.
  destruct (parse_new_content cand) as [new_content | e]; [| discriminate].
  cbn [rbind] in Hm. unfold dict_item in Hm.
  subst target. unfold dict_get_or_none.
  destruct (dict_get "typeIdentifier" cand) as [target |]; [| discriminate].
  cbn [rbind] in Hm. unfold Smus.upsert in Hm.
  destruct (update_first target new_content (map normalize_form forms))
    as [r | e] eqn:Hu; [| discriminate].
  apply update_first_inv in Hu. cbn [rbind] in Hm.
  destruct r as [out' |].
  - injection Hm as <-.
    destruct Hu as (pre & form & post & m & Hforms & Hpre & Hform & Hmc & ->).
    split.
    + rewrite <- Hd, Hforms. apply distinct_types_ext.
      rewrite !map_app. cbn [map]. unfold updated_form.
      rewrite form_type_set_content. reflexivity.
    + rewrite Hforms, no_form_of_type_app. cbn [no_form_of_type forallb].
      rewrite Hform. cbn [negb andb]. rewrite andb_false_r.
      rewrite <- (length_map normalize_form forms), Hforms.
      rewrite !length_app. cbn [List.length]. lia.
  - destruct (dict_item "formName" cand) as [form_name | e]; [| discriminate].
    cbn [rbind] in Hm. injection Hm as <-. split.
    + apply distinct_types_snoc; [exact Hd | exact Hu].
    + rewrite Hu, length_app, length_map. reflexivity.
Qed.

(** *** Applying the merge twice *)

Lemma find_first_match t pre (form : pydict) post :
  no_form_of_type t pre = true -> has_type t form = true ->
  find (has_type t) (pre ++ form :: post) = Some form.
Proof.
  intros Hpre Hf. induction pre as [| f pre IH]; simpl.
  - rewrite Hf. reflexivity.
  - simpl in Hpre. apply andb_prop in Hpre as [Hh Hpre].
    apply negb_true_iff in Hh. rewrite Hh. apply IH, Hpre.
Qed.

Lemma find_no_match t (l : list pydict) :
  no_form_of_type t l = true -> find (has_type t) l = None.
Proof.
  induction l as [| f l IH]; [reflexivity |].
  simpl. intros H. apply andb_prop in H as [Hh Hl].
  apply negb_true_iff in Hh. rewrite Hh. apply IH, Hl.
Qed.

Lemma map_normalize_fixes (l : list pydict) :
  Forall normalized l -> map normalize_form l = l.
Proof.
  induction 1 as [| f l Hf Hl IH]; [reflexivity |].
  simpl. rewrite IH, (normalize_form_fixes _ Hf). reflexivity.
Qed.

Lemma Forall_normalized_map (forms : list pydict) :
  Forall normalized (map normalize_form forms).
Proof.
  induction forms as [| f forms IH]; constructor;
    [apply normalize_form_normalized | exact IH].
Qed.

(** The mapping whose serialisation the merge writes: the candidate's keys
    over those of the first form of its type, or the candidate's content
    alone when no form has its type. *)
Definition written_content (target_type : pyval) (n : pydict)
    (normalized_forms : list pydict) : pydict :=
  match find (has_type target_type) normalized_forms with
  | Some form =>
      match existing_content form with
      | PDict e => dict_update e n
      | _ => n
      end
  | None => n
  end.

(** C5 (amended).  For a candidate whose content is a mapping, when the text
    that the merge writes decodes back to the mapping it serialises, merging
    the same candidate into the result of the merge yields that result
    again.  (The candidate is a Python value: the keys of its content are
    distinct and its type identifier is well formed.) *)
Theorem C5_merge_idempotent_for_mapping_candidates :
  forall forms cand n out,
    parse_new_content cand = Ok (PDict n) ->
    nodup_keys n = true ->
    let target := dict_get_or_none "typeIdentifier" cand in
    py_wf target = true ->
    let written := written_content target n (map normalize_form forms) in
    json_loads (json_dumps (PDict written)) = Some (PDict written) ->
    merge_forms forms cand = Ok out ->
    merge_forms out cand = Ok out.
Proof.
  intros forms cand n out Hparse Hn target Hwf written Hrt Hm.
  pose proof (PyFacts.py_eq_refl target Hwf) as Hrefl.
  unfold Smus.merge_forms in *. rewrite Hparse in *. cbn [rbind] in *.
  unfold dict_item in *. subst written target. unfold dict_get_or_none in *.
  destruct (dict_get "typeIdentifier" cand) as [target |]; [| discriminate].
  cbn [rbind] in *. unfold Smus.upsert in Hm.
  destruct (update_first target (PDict n) (map normalize_form forms))
    as [r | e] eqn:Hu; [| discriminate].
  apply update_first_inv in Hu. cbn [rbind] in Hm.
  pose proof (Forall_normalized_map forms) as Hnorm.
  destruct r as [out' |].
  - injection Hm as <-.
    destruct Hu as (pre & form & post & m & Hforms & Hpre & Hform & Hmc & ->).
    rewrite Hforms in Hnorm, Hrt.
    unfold written_content in Hrt. rewrite (find_first_match _ _ _ _ Hpre Hform) in Hrt.
    unfold merge_contents in Hmc.
    destruct (existing_content form) as [| | | | | e]; try discriminate.
    injection Hmc as <-.
    assert (Hout : Forall normalized (pre ++ updated_form form (dict_update e n) :: post)).
    { apply Forall_app in Hnorm as [Hp Hq]. inversion Hq; subst.
      apply Forall_app. split; [exact Hp |].
      constructor; [apply updated_form_normalized; assumption | assumption]. }
    rewrite (map_normalize_fixes _ Hout). unfold Smus.upsert.
    rewrite (update_first_hit target (PDict n) pre
               (updated_form form (dict_update e n)) post (dict_update e n)).
    + cbn [rbind]. unfold updated_form. rewrite dict_set_set_same. reflexivity.
    + exact Hpre.
    + unfold updated_form. rewrite has_type_set_content. exact Hform.
    + unfold Smus.existing_content, updated_form.
      rewrite dict_get_set_same, Hrt. cbn [merge_contents].
      rewrite dict_update_idempotent. reflexivity.
  - destruct (dict_item "formName" cand) as [form_name | e]; [| discriminate].
    cbn [rbind] in Hm. injection Hm as <-.
    unfold written_content in Hrt. rewrite (find_no_match _ _ Hu) in Hrt.
    assert (Hout : Forall normalized
                     (map normalize_form forms
                      ++ [inserted_form form_name target (PDict n)])).
    { apply Forall_app. split; [exact Hnorm |].
      constructor; [apply inserted_form_normalized | constructor]. }
    change [("formName", form_name); ("typeIdentifier", target);
            ("content", PStr (json_dumps (PDict n)))]
      with (inserted_form form_name target (PDict n)).
    pose proof (map_normalize_fixes _ Hout) as Hfix.
    match goal with
    | |- Smus.upsert _ _ _ _ _ ?l = _ => change l with
          (map normalize_form
             (map normalize_form forms ++ [inserted_form form_name target (PDict n)]))
    end.
    rewrite Hfix. unfold Smus.upsert.
    rewrite (update_first_hit target (PDict n) (map normalize_form forms)
               (inserted_form form_name target (PDict n)) [] n).
    + reflexivity.
    + exact Hu.
    + exact Hrefl.
    + unfold Smus.existing_content, inserted_form. cbn [dict_get String.eqb Ascii.eqb Bool.eqb].
      rewrite Hrt. cbn [merge_contents]. rewrite (dict_update_self n Hn). reflexivity.
Qed.

End Merge.

End MergeFacts.

(** ** The metadata backup (C9) *)

Module BackupFacts.
Import Smus DictFacts.

(** Every cell of every row sits under one of the frame's columns. *)
Definition rows_within_columns (df : DataFrame) : Prop :=
  forall r c, In r (rows df) -> dict_get c r <> None -> In c (columns df).

Lemma dict_get_some_in_keys c (r : pydict) : dict_get c r <> None -> In c (keys r).
Proof.
  induction r as [| [k v] r IH]; simpl; [congruence |].
  destruct (String.eqb c k) eqn:E.
  - apply String.eqb_eq in E. auto.
  - intros H. right. apply IH, H.
Qed.

Lemma in_keys_dict_get_some c (r : pydict) : In c (keys r) -> dict_get c r <> None.
Proof.
  induction r as [| [k v] r IH]; simpl; [tauto |].
  intros [-> | H].
  - rewrite String.eqb_refl. discriminate.
  - destruct (String.eqb c k); [discriminate | apply IH, H].
Qed.

Lemma dict_get_app_some c (a b : pydict) :
  dict_get c (a ++ b) <> None -> dict_get c a <> None \/ dict_get c b <> None.
Proof.
  induction a as [| [k v] a IH]; simpl; [auto |].
  destruct (String.eqb c k); [left; discriminate | exact IH].
Qed.

Lemma keys_rename_row f (r : pydict) : keys (rename_row f r) = map f (keys r).
Proof.
  unfold keys, rename_row. rewrite !map_map. reflexivity.
Qed.

Lemma frame_of_record_within d : rows_within_columns (frame_of_record d).
Proof.
  intros r c [<- | []] H. apply dict_get_some_in_keys, H.
Qed.

Lemma in_zip_rows (l r : list pydict) (x : pydict) :
  In x (zip_rows l r) -> exists a b, In a l /\ In b r /\ x = a ++ b.
Proof.
  revert r. induction l as [| a l IH]; intros [| b r]; simpl; try tauto.
  intros [<- | H].
  - exists a, b. auto.
  - destruct (IH _ H) as (a' & b' & Ha & Hb & ->). exists a', b'. auto.
Qed.

Lemma length_zip_rows (l r : list pydict) :
  List.length (zip_rows l r) = Nat.min (List.length l) (List.length r).
Proof.
  revert r. induction l as [| a l IH]; intros [| b r]; simpl; auto.
Qed.

Lemma merge_on_index_within l r :
  rows_within_columns l -> rows_within_columns r ->
  rows_within_columns (merge_on_index l r).
Proof.
  intros Hl Hr x c Hx Hc. unfold merge_on_index in *. cbn [rows columns] in *.
  apply in_zip_rows in Hx as (a & b & Ha & Hb & ->).
  apply in_map_iff in Ha as (a0 & <- & Ha0).
  apply in_map_iff in Hb as (b0 & <- & Hb0).
  apply in_or_app.
  destruct (dict_get_app_some _ _ _ Hc) as [H | H];
    apply dict_get_some_in_keys in H; rewrite keys_rename_row in H;
    apply in_map_iff in H as (k & <- & Hk); [left | right];
    apply in_map; [apply (Hl a0) | apply (Hr b0)];
    try assumption; apply in_keys_dict_get_some, Hk.
Qed.

Lemma project_within c df : rows_within_columns (project c df).
Proof.
  intros r c' Hr Hc. unfold project in *. cbn [rows columns] in *.
  apply in_map_iff in Hr as (r0 & <- & _).
  destruct (dict_get c r0); simpl in Hc; [| congruence].
  destruct (String.eqb c' c) eqn:E; [| congruence].
  apply String.eqb_eq in E. left. congruence.
Qed.

Lemma set_column_within c v df :
  rows_within_columns df -> rows_within_columns (set_column c v df).
Proof.
  intros H r c' Hr Hc. unfold set_column in *. cbn [rows columns] in *.
  apply in_map_iff in Hr as (r0 & <- & Hr0).
  destruct (string_dec c' c) as [-> | Hne].
  - unfold has_column. destruct (existsb (String.eqb c) (columns df)) eqn:E.
    + apply existsb_exists in E as (x & Hx & Ex).
      apply String.eqb_eq in Ex. subst x. exact Hx.
    + apply in_or_app. right. left. reflexivity.
  - rewrite dict_get_set_other in Hc by exact Hne.
    pose proof (H r0 c' Hr0 Hc) as Hin.
    destruct (has_column c df); [exact Hin | apply in_or_app; left; exact Hin].
Qed.

Section Backup.

Variable json_loads : string -> option pyval.
Variable datazone : datazone_client.

Local Abbreviation filter_content_output := (Smus.filter_content_output json_loads).
Local Abbreviation create_metadata_df := (Smus.create_metadata_df json_loads).
Local Abbreviation backup_loop := (Smus.backup_loop json_loads datazone).
Local Abbreviation backup_main := (Smus.backup_main json_loads datazone).

(** No form of the list carries the name. *)
Definition form_absent (form_name : string) (forms : list pydict) : bool :=
  forallb (fun c => negb (py_eq (dict_get_or_none "formName" c) (PStr form_name)))
          forms.

(** A frame of one row whose cells sit under its columns. *)
Definition one_row (df : DataFrame) : Prop :=
  List.length (rows df) = 1%nat /\ rows_within_columns df.

Lemma matching_contents_absent form_name forms :
  form_absent form_name forms = true -> matching_contents form_name forms = Ok [].
Proof.
  induction forms as [| c forms IH]; [reflexivity |].
  simpl. intros H. apply andb_prop in H as [Hc Hf].
  apply negb_true_iff in Hc. rewrite Hc. apply IH, Hf.
Qed.

(** An absent form is replaced by the empty mapping, with a warning. *)
Lemma filter_content_output_absent asset_data forms form_name :
  asset_formsOutput asset_data = Some forms ->
  form_absent form_name forms = true ->
  filter_content_output asset_data form_name
  = (Returns (frame_of_record []), [EPrint (MsgFormNotFound form_name)]).
Proof.
  intros Hf Ha. unfold Smus.filter_content_output, formsOutput_item.
  rewrite Hf. cbn [lift]. rewrite bind_ret.
  rewrite (matching_contents_absent _ _ Ha). reflexivity.
Qed.

Lemma filter_content_output_one_row asset_data form_name df t :
  filter_content_output asset_data form_name = (Returns df, t) -> one_row df.
Proof.
  unfold Smus.filter_content_output. intros H.
  destruct (formsOutput_item asset_data) as [content | e]; [| discriminate].
  cbn [lift] in H. rewrite bind_ret in H.
  destruct (matching_contents form_name content) as [cf | e]; [| discriminate].
  cbn [lift] in H. rewrite bind_ret in H.
  assert (Hrec : forall (m : M pyval),
             bind m (fun record => match record with
                                   | PDict d => ret (frame_of_record d)
                                   | _ => stuck
                                   end) = (Returns df, t) ->
             exists d, df = frame_of_record d).
  { intros [[record | e |] t0] Hb; try discriminate.
    rewrite bind_returns in Hb. destruct record; try discriminate.
    injection Hb as <- _. eauto. }
  apply Hrec in H as (d & ->). split; [reflexivity | apply frame_of_record_within].
Qed.

Lemma merge_on_index_one_row l r : one_row l -> one_row r -> one_row (merge_on_index l r).
Proof.
  intros [Hl Wl] [Hr Wr]. split; [| apply merge_on_index_within; assumption].
  unfold merge_on_index. cbn [rows].
  rewrite length_zip_rows, !length_map, Hl, Hr. reflexivity.
Qed.

(** Whatever forms the asset has, a returned frame has exactly one row. *)
Lemma create_metadata_df_one_row asset_data df t :
  create_metadata_df asset_data = (Returns df, t) -> one_row df.
Proof.
  unfold Smus.create_metadata_df. intros H.
  destruct (filter_content_output asset_data "seguranca_privacidade")
    as [[df1 | e |] t1] eqn:E1; try discriminate.
  rewrite bind_returns in H.
  destruct (filter_content_output asset_data "dominio_de_dados")
    as [[df2 | e |] t2] eqn:E2; try discriminate.
  rewrite bind_returns in H.
  destruct (filter_content_output asset_data "GlueTableForm")
    as [[df3 | e |] t3] eqn:E3; try discriminate.
  rewrite bind_returns in H. cbn [ret fst snd] in H. injection H as <- _.
  apply filter_content_output_one_row in E1, E2, E3.
  assert (H12 : one_row (merge_on_index df1 df2))
    by (apply merge_on_index_one_row; assumption).
  assert (Hp : one_row (project "tableName" df3)).
  { destruct E3 as [L3 _]. split; [| apply project_within].
    unfold project. cbn [rows]. rewrite length_map. exact L3. }
  match goal with
  | |- one_row (set_column _ _ ?x) =>
      assert (Hx : one_row x)
        by (destruct (has_column "tableName" df3);
            [apply merge_on_index_one_row; assumption | exact H12]);
      destruct Hx as [Lx Wx]
  end.
  split; [| apply set_column_within; exact Wx].
  unfold set_column. cbn [rows]. rewrite length_map. exact Lx.
Qed.

(** What the loop of [main] has accumulated when it returns. *)
Lemma backup_loop_inv domain_id :
  forall assets_ids df_metadata out t,
    backup_loop domain_id assets_ids df_metadata = (Returns out, t) ->
    exists dfs,
      Forall2 (fun asset_id df =>
                 exists asset_data tr,
                   api_get_asset datazone domain_id asset_id = Ok asset_data
                   /\ create_metadata_df asset_data = (Returns df, tr))
              assets_ids dfs
      /\ out = fold_left concat dfs df_metadata.
Proof.
  induction assets_ids as [| asset_id more IH]; intros acc out t H.
  - cbn in H. injection H as <- _. exists []. split; [constructor | reflexivity].
  - cbn [Smus.backup_loop] in H. unfold get_asset in H.
    destruct (api_get_asset datazone domain_id asset_id) as [asset_data | e] eqn:Hget;
      [| discriminate].
    rewrite call_ok, bind_returns in H.
    destruct (create_metadata_df asset_data) as [[df | e |] tr] eqn:Hdf;
      try discriminate.
    rewrite bind_returns in H. cbn [fst snd] in H.
    destruct (backup_loop domain_id more (concat acc df)) as [o t'] eqn:Hloop.
    cbn [fst snd] in H. injection H as -> _.
    destruct (IH _ _ _ Hloop) as (dfs & Hall & ->).
    exists (df :: dfs). split; [| reflexivity].
    constructor; [| exact Hall]. eauto.
Qed.

Lemma rows_fold_concat dfs :
  forall acc, rows (fold_left concat dfs acc) = rows acc ++ List.concat (map rows dfs).
Proof.
  induction dfs as [| df dfs IH]; intros acc; simpl.
  - rewrite app_nil_r. reflexivity.
  - rewrite IH. unfold concat. cbn [rows]. rewrite <- app_assoc. reflexivity.
Qed.

Lemma columns_concat a b c :
  In c (columns (concat a b)) <-> In c (columns a) \/ In c (columns b).
Proof.
  unfold concat. cbn [columns]. rewrite in_app_iff, filter_In. split.
  - intros [H | [H _]]; auto.
  - intros [H | H]; [auto |].
    destruct (has_column c a) eqn:E.
    + left. unfold has_column in E. apply existsb_exists in E as (x & Hx & Ex).
      apply String.eqb_eq in Ex. subst x. exact Hx.
    + right. split; [exact H | reflexivity].
Qed.

Lemma columns_fold_concat dfs :
  forall acc c,
    In c (columns (fold_left concat dfs acc))
    <-> In c (columns acc) \/ exists df, In df dfs /\ In c (columns df).
Proof.
  induction dfs as [| df dfs IH]; intros acc c; simpl.
  - split; [auto | intros [H | (df & [] & _)]; exact H].
  - rewrite IH, columns_concat. split.
    + intros [[H | H] | (df' & H1 & H2)]; eauto 6.
    + intros [H | (df' & [<- | H1] & H2)]; eauto 6.
Qed.

Lemma nth_error_concat_single_rows (dfs : list DataFrame) :
  Forall (fun df => List.length (rows df) = 1%nat) dfs ->
  forall i df,
    nth_error dfs i = Some df ->
    nth_error (List.concat (map rows dfs)) i = nth_error (rows df) 0.
Proof.
  induction 1 as [| df0 dfs H0 Hall IH]; intros i df Hi.
  - destruct i; discriminate.
  - simpl. destruct (rows df0) as [| r [| r' rs]] eqn:E; try discriminate.
    destruct i as [| i]; simpl in *.
    + injection Hi as <-. rewrite E. reflexivity.
    + apply IH, Hi.
Qed.

Lemma length_concat_single_rows (dfs : list DataFrame) :
  Forall (fun df => List.length (rows df) = 1%nat) dfs ->
  List.length (List.concat (map rows dfs)) = List.length dfs.
Proof.
  induction 1 as [| df0 dfs H0 Hall IH]; [reflexivity |].
  simpl. rewrite length_app, H0, IH. reflexivity.
Qed.

(** *** When the backup returns *)

(** The named form is absent, or the content of its first occurrence is
    text that decodes to a mapping. *)
Definition form_readable (form_name : string) (forms : list pydict) : bool :=
  match matching_contents form_name forms with
  | Ok [] => true
  | Ok (first :: _) =>
      match loads_value json_loads first with
      | Ok (PDict _) => true
      | _ => false
      end
  | Raise _ => false
  end.

Definition asset_readable (asset_data : asset) : bool :=
  match asset_formsOutput asset_data with
  | Some forms =>
      form_readable "seguranca_privacidade" forms
      && form_readable "dominio_de_dados" forms
      && form_readable "GlueTableForm" forms
  | None => false
  end.

(** Every listed asset can be fetched and read. *)
Definition all_readable (domain_id : pyval) (assets_ids : list pyval) : bool :=
  forallb (fun asset_id =>
             match api_get_asset datazone domain_id asset_id with
             | Ok asset_data => asset_readable asset_data
             | Raise _ => false
             end) assets_ids.

Lemma filter_content_output_returns asset_data forms form_name :
  asset_formsOutput asset_data = Some forms ->
  form_readable form_name forms = true ->
  exists df t, filter_content_output asset_data form_name = (Returns df, t).
Proof.
  intros Hf Hr. unfold Smus.filter_content_output, formsOutput_item.
  rewrite Hf. cbn [lift]. rewrite bind_ret.
  unfold form_readable in Hr.
  destruct (matching_contents form_name forms) as [[| first rest] | e];
    try discriminate.
  - cbn. eauto.
  - cbn [lift]. rewrite bind_ret.
    destruct (loads_value json_loads first) as [[] | e]; try discriminate.
    cbn. eauto.
Qed.

Lemma create_metadata_df_returns asset_data :
  asset_readable asset_data = true ->
  exists df t, create_metadata_df asset_data = (Returns df, t).
Proof.
  unfold asset_readable. intros H.
  destruct (asset_formsOutput asset_data) as [forms |] eqn:Hf; [| discriminate].
  apply andb_prop in H as [H H3]. apply andb_prop in H as [H1 H2].
  destruct (filter_content_output_returns _ _ _ Hf H1) as (df1 & t1 & E1).
  destruct (filter_content_output_returns _ _ _ Hf H2) as (df2 & t2 & E2).
  destruct (filter_content_output_returns _ _ _ Hf H3) as (df3 & t3 & E3).
  unfold Smus.create_metadata_df.
  rewrite E1, bind_returns, E2, bind_returns, E3, bind_returns.
  cbn [ret fst snd]. eauto.
Qed.

Lemma backup_loop_returns domain_id :
  forall assets_ids df_metadata,
    all_readable domain_id assets_ids = true ->
    exists out t, backup_loop domain_id assets_ids df_metadata = (Returns out, t).
Proof.
  induction assets_ids as [| asset_id more IH]; intros acc H.
  - do 2 eexists. reflexivity.
  - cbn [all_readable forallb] in H. apply andb_prop in H as [Ha Hmore].
    cbn [Smus.backup_loop]. unfold get_asset.
    destruct (api_get_asset datazone domain_id asset_id) as [asset_data | e];
      [| discriminate].
    rewrite call_ok, bind_returns.
    destruct (create_metadata_df_returns _ Ha) as (df & tr & ->).
    rewrite bind_returns. cbn [fst snd].
    destruct (IH (concat acc df) Hmore) as (out & t & ->).
    cbn [fst snd]. eauto.
Qed.

(** What the written frame holds, whenever [main] returns. *)
Lemma backup_written_frame domain_id project_id output_csv pages assets_ids tl t :
  list_assets_ids domain_id project_id pages = (Returns assets_ids, tl) ->
  backup_main domain_id project_id output_csv pages = (Returns tt, t) ->
  exists out dfs,
    last t (ESleep 0) = EToCsv output_csv out
    /\ Forall2 (fun asset_id df =>
                  exists asset_data tr,
                    api_get_asset datazone domain_id asset_id = Ok asset_data
                    /\ create_metadata_df asset_data = (Returns df, tr)
                    /\ List.length (rows df) = 1%nat)
               assets_ids dfs
    /\ List.length (rows out) = List.length assets_ids
    /\ (forall c, In c (columns out)
                  <-> exists df, In df dfs /\ In c (columns df))
    /\ (forall i df c,
          nth_error dfs i = Some df ->
          cell out i c = cell df 0 c
          /\ (~ In c (columns df) -> cell out i c = None)).
Proof.
  intros Hlist Hmain.
  unfold Smus.backup_main in Hmain. rewrite Hlist, bind_returns in Hmain.
  destruct (backup_loop domain_id assets_ids empty_frame)
    as [[out | e |] tloop] eqn:Hloop; try discriminate.
  rewrite bind_returns in Hmain. cbn [emit fst snd] in Hmain.
  injection Hmain as <-.
  destruct (backup_loop_inv domain_id _ _ _ _ Hloop) as (dfs & Hall & Hout).
  assert (Hone : Forall one_row dfs).
  { clear - Hall. induction Hall as [| a df ids dfs (ad & tr & _ & Hdf) _ IH];
      constructor; [| exact IH].
    apply (create_metadata_df_one_row _ _ _ Hdf). }
  assert (Hlen1 : Forall (fun df => List.length (rows df) = 1%nat) dfs).
  { eapply Forall_impl; [| exact Hone]. intros df [H _]. exact H. }
  assert (Hrows : rows out = List.concat (map rows dfs)).
  { rewrite Hout, rows_fold_concat. reflexivity. }
  exists out, dfs. repeat split.
  - rewrite app_assoc. apply last_last.
  - clear - Hall Hlen1. induction Hall as [| a df ids dfs (ad & tr & H1 & H2) _ IH];
      constructor.
    + inversion Hlen1; subst. eauto.
    + apply IH. inversion Hlen1; assumption.
  - rewrite Hrows, (length_concat_single_rows _ Hlen1).
    symmetry. apply (Forall2_length Hall).
  - rewrite Hout, columns_fold_concat. intros [[] | H]. exact H.
  - intros H. rewrite Hout, columns_fold_concat. right. exact H.
  - unfold cell. rewrite Hrows.
    rewrite (nth_error_concat_single_rows _ Hlen1 _ _ H). reflexivity.
  - intros Hc. unfold cell. rewrite Hrows.
    rewrite (nth_error_concat_single_rows _ Hlen1 _ _ H).
    assert (Hdf : one_row df).
    { rewrite Forall_forall in Hone. apply Hone. eapply nth_error_In, H. }
    destruct Hdf as [L W].
    destruct (rows df) as [| r rs] eqn:E; [discriminate |]. cbn [nth_error].
    destruct (dict_get c r) eqn:G; [| reflexivity].
    exfalso. apply Hc. apply (W r c).
    + rewrite E. left. reflexivity.
    + rewrite G. discriminate.
Qed.

(** *** What the backup extracts from an asset *)

(** Every form of the name has a content. *)
Definition contents_present (form_name : string) (forms : list pydict) : bool :=
  forallb (fun c =>
             negb (py_eq (dict_get_or_none "formName" c) (PStr form_name))
             || dict_mem "content" c)
          forms.

(** The asset has a form named [form_name]: the content of the first such
    form is text that decodes to the mapping [d], and the later forms of
    that name have a content. *)
Definition holds_form (forms : list pydict) (form_name : string) (d : pydict)
  : Prop :=
  exists pre f post s,
    forms = pre ++ f :: post
    /\ form_absent form_name pre = true
    /\ py_eq (dict_get_or_none "formName" f) (PStr form_name) = true
    /\ dict_get "content" f = Some (PStr s)
    /\ json_loads s = Some (PDict d)
    /\ contents_present form_name post = true.

(** The mapping extracted for [form_name]: the decoded content of the form,
    and the empty mapping when the asset has no form of that name. *)
Definition extracted (forms : list pydict) (form_name : string) (d : pydict)
  : Prop :=
  (form_absent form_name forms = true /\ d = []) \/ holds_form forms form_name d.

(** The warning logged for a form that the asset does not have. *)
Definition warnings_of (form_name : string) (forms : list pydict) : trace :=
  if form_absent form_name forms
  then [EPrint (MsgFormNotFound form_name)]
  else [].

(** [asset_data.get("description", "")] *)
Definition description_of (asset_data : asset) : pyval :=
  match asset_description asset_data with
  | Some description => description
  | None => PStr ""
  end.

(** Of the table form, the backup keeps the table name. *)
Definition table_name_cell (gt : pydict) : pydict :=
  match dict_get "tableName" gt with
  | Some v => [("tableName", v)]
  | None => []
  end.

(** The row of an asset: the fields of its security form, the fields of its
    domain form, its table name and its description. *)
Definition asset_row (sp dd gt : pydict) (description : pyval) : pydict :=
  sp ++ dd ++ table_name_cell gt ++ [("Descrição", description)].

Lemma dict_get_app k (a b : pydict) :
  dict_get k (a ++ b)
  = match dict_get k a with
    | Some v => Some v
    | None => dict_get k b
    end.
Proof.
  induction a as [| [k2 v2] a IH]; simpl; [reflexivity |].
  destruct (String.eqb k k2); [reflexivity | exact IH].
Qed.

Lemma nodup_keys_app (a b : pydict) :
  nodup_keys (a ++ b) = true ->
  nodup_keys b = true
  /\ forall k, dict_get k a <> None -> dict_get k b = None.
Proof.
  induction a as [| [k v] a IH]; simpl.
  - intros H. split; [exact H | intros k Hk; congruence].
  - intros H. apply andb_prop in H as [Hk Hab].
    destruct (IH Hab) as [Hb Hdis]. split; [exact Hb |].
    intros k0 Hk0. destruct (String.eqb k0 k) eqn:E.
    + apply String.eqb_eq in E. subst k0.
      apply negb_true_iff in Hk. unfold dict_mem in Hk.
      rewrite dict_get_app in Hk.
      destruct (dict_get k a); [discriminate |].
      destruct (dict_get k b); [discriminate | reflexivity].
    + apply Hdis, Hk0.
Qed.

Lemma has_column_record c (d : pydict) :
  has_column c (frame_of_record d)
  = match dict_get c d with Some _ => true | None => false end.
Proof.
  unfold has_column, frame_of_record, keys. cbn [columns].
  induction d as [| [k v] d IH]; simpl; [reflexivity |].
  destruct (String.eqb c k); [reflexivity | exact IH].
Qed.

Lemma rename_row_fresh (others : list string) sfx (r : pydict) :
  (forall k, dict_get k r <> None -> existsb (String.eqb k) others = false) ->
  rename_row (suffixed others sfx) r = r
  /\ map (suffixed others sfx) (keys r) = keys r.
Proof.
  induction r as [| [k v] r IH]; intros H; [split; reflexivity |].
  assert (Hk : suffixed others sfx k = k).
  { unfold suffixed. rewrite (H k); [reflexivity |].
    simpl. rewrite String.eqb_refl. discriminate. }
  destruct IH as [IH1 IH2].
  { intros k' Hk'. apply H. simpl. destruct (String.eqb k' k); [discriminate |].
    exact Hk'. }
  unfold rename_row, keys in *. cbn [map fst snd]. rewrite Hk, IH1, IH2.
  split; reflexivity.
Qed.

Lemma existsb_keys k (d : pydict) :
  existsb (String.eqb k) (keys d)
  = match dict_get k d with Some _ => true | None => false end.
Proof. exact (has_column_record k d). Qed.

(** Records with no common field are merged side by side. *)
Lemma merge_records (a b : pydict) :
  (forall k, dict_get k a <> None -> dict_get k b = None) ->
  merge_on_index (frame_of_record a) (frame_of_record b) = frame_of_record (a ++ b).
Proof.
  intros H.
  destruct (rename_row_fresh (keys b) "_x" a) as [Ra Ka].
  { intros k Hk. rewrite existsb_keys, (H k Hk). reflexivity. }
  destruct (rename_row_fresh (keys a) "_y" b) as [Rb Kb].
  { intros k Hk. rewrite existsb_keys.
    destruct (dict_get k a) eqn:E; [| reflexivity].
    exfalso. apply Hk, H. rewrite E. discriminate. }
  unfold merge_on_index, frame_of_record. cbn [columns rows map zip_rows].
  rewrite Ra, Rb, Ka, Kb. unfold keys. rewrite map_app. reflexivity.
Qed.

Lemma project_record c (d : pydict) v :
  dict_get c d = Some v ->
  project c (frame_of_record d) = frame_of_record [(c, v)].
Proof.
  intros H. unfold project, frame_of_record. cbn [rows map columns keys fst].
  rewrite H. reflexivity.
Qed.

Lemma set_column_record c v (d : pydict) :
  dict_get c d = None ->
  set_column c v (frame_of_record d) = frame_of_record (d ++ [(c, v)]).
Proof.
  intros H. unfold set_column. rewrite has_column_record, H.
  unfold frame_of_record. cbn [columns rows map].
  rewrite (dict_set_fresh c v d H). unfold keys. rewrite map_app. reflexivity.
Qed.

Lemma matching_contents_through form_name pre (l : list pydict) :
  form_absent form_name pre = true ->
  matching_contents form_name (pre ++ l) = matching_contents form_name l.
Proof.
  induction pre as [| c pre IH]; [reflexivity |].
  simpl. intros H. apply andb_prop in H as [Hc Hpre].
  apply negb_true_iff in Hc. rewrite Hc. apply IH, Hpre.
Qed.

Lemma matching_contents_present form_name (l : list pydict) :
  contents_present form_name l = true ->
  exists vs, matching_contents form_name l = Ok vs.
Proof.
  induction l as [| c l IH]; [exists []; reflexivity |].
  simpl. intros H. apply andb_prop in H as [Hc Hl].
  destruct (IH Hl) as [vs Hvs].
  destruct (py_eq (dict_get_or_none "formName" c) (PStr form_name)).
  - cbn [negb orb] in Hc. unfold dict_mem in Hc. unfold dict_item.
    destruct (dict_get "content" c) as [v |]; [| discriminate].
    cbn [rbind]. rewrite Hvs. cbn [rbind]. eauto.
  - eauto.
Qed.

(** What [filter_content_output] returns and logs. *)
Lemma filter_content_output_extracted asset_data forms form_name d :
  asset_formsOutput asset_data = Some forms ->
  extracted forms form_name d ->
  filter_content_output asset_data form_name
  = (Returns (frame_of_record d), warnings_of form_name forms).
Proof.
  intros Hf [[Ha ->] | (pre & f & post & s & -> & Hpre & Hnamed & Hc & Hs & Hpost)].
  - unfold warnings_of. rewrite Ha.
    apply (filter_content_output_absent _ _ _ Hf Ha).
  - assert (Habsent : form_absent form_name (pre ++ f :: post) = false).
    { unfold form_absent. rewrite forallb_app. cbn [forallb].
      rewrite Hnamed. cbn [negb andb]. apply andb_false_r. }
    unfold warnings_of. rewrite Habsent.
    unfold Smus.filter_content_output, formsOutput_item.
    rewrite Hf. cbn [lift]. rewrite bind_ret.
    rewrite (matching_contents_through _ _ _ Hpre). cbn [matching_contents].
    rewrite Hnamed. unfold dict_item. rewrite Hc. cbn [rbind].
    destruct (matching_contents_present _ _ Hpost) as [vs ->].
    cbn [rbind lift]. rewrite bind_ret.
    unfold loads_value. rewrite Hs. cbn [lift]. rewrite bind_ret. reflexivity.
Qed.

(** The frame of an asset is its row, under the names of its fields; the
    warnings of the forms that it does not have are logged in the order of
    the extraction. *)
Lemma create_metadata_df_extracted asset_data forms sp dd gt :
  asset_formsOutput asset_data = Some forms ->
  extracted forms "seguranca_privacidade" sp ->
  extracted forms "dominio_de_dados" dd ->
  extracted forms "GlueTableForm" gt ->
  nodup_keys (asset_row sp dd gt (description_of asset_data)) = true ->
  create_metadata_df asset_data
  = (Returns (frame_of_record (asset_row sp dd gt (description_of asset_data))),
     warnings_of "seguranca_privacidade" forms
     ++ warnings_of "dominio_de_dados" forms
     ++ warnings_of "GlueTableForm" forms).
Proof.
  intros Hf Hsp Hdd Hgt Hnodup.
  unfold Smus.create_metadata_df.
  rewrite (filter_content_output_extracted _ _ _ _ Hf Hsp), bind_returns.
  rewrite (filter_content_output_extracted _ _ _ _ Hf Hdd), bind_returns.
  rewrite (filter_content_output_extracted _ _ _ _ Hf Hgt), bind_returns.
  cbn [ret fst snd]. rewrite app_nil_r. f_equal.
  fold (description_of asset_data).
  unfold asset_row in *.
  destruct (nodup_keys_app _ _ Hnodup) as [N1 D1].
  destruct (nodup_keys_app _ _ N1) as [N2 D2].
  destruct (nodup_keys_app _ _ N2) as [_ D3].
  assert (Dsd : forall k, dict_get k sp <> None -> dict_get k dd = None).
  { intros k Hk. specialize (D1 k Hk). rewrite dict_get_app in D1.
    destruct (dict_get k dd); [discriminate | reflexivity]. }
  rewrite (merge_records sp dd Dsd), has_column_record.
  set (D := ("Descrição", description_of asset_data)) in *.
  assert (Hfresh : forall r : pydict,
             (forall k, dict_get k r <> None -> dict_get k [D] = None) ->
             dict_get "Descrição" r = None).
  { intros r Hr. destruct (dict_get "Descrição" r) eqn:E; [| reflexivity].
    exfalso. assert (H : dict_get "Descrição" r <> None) by (rewrite E; discriminate).
    specialize (Hr _ H). unfold D in Hr. cbn in Hr. discriminate. }
  assert (Dsp : forall k, dict_get k sp <> None ->
                          dict_get k (table_name_cell gt) = None
                          /\ dict_get k [D] = None).
  { intros k Hk. specialize (D1 k Hk). rewrite !dict_get_app in D1.
    destruct (dict_get k dd); [discriminate |].
    destruct (dict_get k (table_name_cell gt)); [discriminate |]. auto. }
  assert (Ddd : forall k, dict_get k dd <> None ->
                          dict_get k (table_name_cell gt) = None
                          /\ dict_get k [D] = None).
  { intros k Hk. specialize (D2 k Hk). rewrite dict_get_app in D2.
    destruct (dict_get k (table_name_cell gt)); [discriminate |]. auto. }
  assert (Dall : forall k, dict_get k (sp ++ dd) <> None ->
                           dict_get k (table_name_cell gt) = None
                           /\ dict_get k [D] = None).
  { intros k Hk. rewrite dict_get_app in Hk.
    destruct (dict_get k sp) eqn:E.
    - apply Dsp. rewrite E. discriminate.
    - apply Ddd, Hk. }
  unfold table_name_cell in *.
  destruct (dict_get "tableName" gt) as [v |] eqn:Etn.
  - rewrite (project_record _ _ _ Etn).
    rewrite (merge_records (sp ++ dd) [("tableName", v)])
      by (intros k Hk; apply Dall, Hk).
    rewrite set_column_record.
    + rewrite <- !app_assoc. reflexivity.
    + apply Hfresh. intros k Hk. rewrite dict_get_app in Hk.
      destruct (dict_get k (sp ++ dd)) eqn:E.
      * apply Dall. rewrite E. discriminate.
      * apply D3, Hk.
  - rewrite set_column_record.
    + cbn [app]. rewrite <- app_assoc. reflexivity.
    + apply Hfresh. intros k Hk. apply Dall, Hk.
Qed.

(** *** The whole run *)

(** The asset is fetched, and extraction gives the row [fst yield] and
    logs the warnings [snd yield]: each of the three forms is absent or
    readable, and the fields extracted have distinct names. *)
Definition asset_yields (domain_id asset_id : pyval) (yield : pydict * trace)
  : Prop :=
  exists asset_data forms sp dd gt,
    api_get_asset datazone domain_id asset_id = Ok asset_data
    /\ asset_formsOutput asset_data = Some forms
    /\ extracted forms "seguranca_privacidade" sp
    /\ extracted forms "dominio_de_dados" dd
    /\ extracted forms "GlueTableForm" gt
    /\ nodup_keys (asset_row sp dd gt (description_of asset_data)) = true
    /\ fst yield = asset_row sp dd gt (description_of asset_data)
    /\ snd yield
       = warnings_of "seguranca_privacidade" forms
         ++ warnings_of "dominio_de_dados" forms
         ++ warnings_of "GlueTableForm" forms.

(** What the run does for one asset: the fetch, then the warnings. *)
Definition fetch_and_warn (domain_id : pyval) (entry : pyval * (pydict * trace))
  : trace :=
  EGetAsset domain_id (fst entry) :: snd (snd entry).

Lemma backup_loop_yields domain_id :
  forall assets_ids yields df_metadata,
    Forall2 (asset_yields domain_id) assets_ids yields ->
    backup_loop domain_id assets_ids df_metadata
    = (Returns (fold_left concat
                  (map (fun yield => frame_of_record (fst yield)) yields)
                  df_metadata),
       flat_map (fetch_and_warn domain_id) (combine assets_ids yields)).
Proof.
  intros assets_ids yields acc H. revert acc.
  induction H as [| asset_id yield assets_ids yields Hy _ IH]; intros acc;
    [reflexivity |].
  destruct Hy as (asset_data & forms & sp & dd & gt
                  & Hget & Hf & Hsp & Hdd & Hgt & Hn & Hrow & Hws).
  cbn [Smus.backup_loop]. unfold get_asset.
  rewrite Hget, call_ok, bind_returns.
  rewrite (create_metadata_df_extracted _ _ _ _ _ Hf Hsp Hdd Hgt Hn).
  rewrite bind_returns, IH. cbn [fst snd map fold_left combine flat_map].
  change (fetch_and_warn domain_id (asset_id, yield))
    with (EGetAsset domain_id asset_id :: snd yield).
  rewrite Hrow, Hws. reflexivity.
Qed.

Lemma rows_of_records (yields : list (pydict * trace)) :
  List.concat (map rows (map (fun yield => frame_of_record (fst yield)) yields))
  = map fst yields.
Proof.
  induction yields as [| y yields IH]; [reflexivity |].
  cbn. rewrite IH. reflexivity.
Qed.

(** C9 (amended).  Take a listing that returns, and suppose that every
    listed asset can be fetched and read: each of the three named forms is
    absent from it, or present with content text that decodes to a mapping,
    and the fields extracted from it (those of the security form, those of
    the domain form, the table name, the description) have distinct names.
    An absent form gives the empty mapping and a logged warning.  Then the
    backup returns after fetching each asset in listing order, logging the
    warnings of its absent forms, and writing one frame, last.  The frame
    has exactly one row per listed asset, in listing order.  Its columns
    are the fields extracted from some asset.  In the row of an asset, a
    text field holds its text, and the cell under a column that the asset
    has no field for is missing. *)
Theorem C9_backup_one_row_per_asset :
  forall domain_id project_id output_csv pages assets_ids tl yields,
    list_assets_ids domain_id project_id pages = (Returns assets_ids, tl) ->
    Forall2 (asset_yields domain_id) assets_ids yields ->
    exists out,
      backup_main domain_id project_id output_csv pages
      = (Returns tt,
         tl ++ flat_map (fetch_and_warn domain_id) (combine assets_ids yields)
            ++ [EToCsv output_csv out])
      /\ List.length (rows out) = List.length assets_ids
      /\ (forall c,
            In c (columns out)
            <-> exists yield, In yield yields /\ dict_get c (fst yield) <> None)
      /\ (forall i yield c,
            nth_error yields i = Some yield ->
            (forall s,
                dict_get c (fst yield) = Some (PStr s) ->
                cell out i c = Some (PStr s))
            /\ (dict_get c (fst yield) = None -> cell out i c = None)).
Proof.
  intros d p csv pages assets_ids tl yields Hlist Hy.
  set (dfs := map (fun yield => frame_of_record (fst yield)) yields).
  exists (fold_left concat dfs empty_frame).
  assert (Hrows : rows (fold_left concat dfs empty_frame) = map fst yields).
  { rewrite rows_fold_concat. unfold dfs. rewrite rows_of_records. reflexivity. }
  split; [| split; [| split]].
  - unfold Smus.backup_main.
    rewrite Hlist, bind_returns, (backup_loop_yields d _ _ _ Hy), bind_returns.
    reflexivity.
  - rewrite Hrows, length_map. symmetry. apply (Forall2_length Hy).
  - intros c. rewrite columns_fold_concat. split.
    + intros [[] | (df & Hdf & Hc)].
      unfold dfs in Hdf. apply in_map_iff in Hdf as (yield & <- & Hin).
      exists yield. split; [exact Hin |].
      apply in_keys_dict_get_some. exact Hc.
    + intros (yield & Hin & Hc). right.
      exists (frame_of_record (fst yield)). split.
      * unfold dfs. apply in_map_iff. exists yield. split; [reflexivity | exact Hin].
      * apply dict_get_some_in_keys. exact Hc.
  - intros i yield c Hi. unfold cell. rewrite Hrows.
    rewrite (map_nth_error fst i yields Hi).
    split; [intros s Hs; exact Hs | intros Hn; exact Hn].
Qed.

End Backup.

End BackupFacts.

(* ===================================================================== *)
(** * Part III -- concrete runs                                           *)
(* ===================================================================== *)

Module Scenarios.
Import Smus Republish.
Import MergeFacts ListerFacts PollingFacts DriverFacts GlossaryFacts BackupFacts.

Definition dzd : pyval := PStr "dzd_1".
Definition prj : pyval := PStr "prj_1".
Definition asset1 : pyval := PStr "asset_1".
Definition asset2 : pyval := PStr "asset_2".
Definition asset3 : pyval := PStr "asset_3".

(** A catalog that serves [a] for every asset and accepts every request. *)
Definition serving (a : asset) : datazone_client :=
  {| api_get_asset := fun _ _ => Ok a;
     api_create_asset_revision := fun _ => Ok tt;
     api_create_glossary := fun _ => Ok tt;
     api_create_glossary_term := fun _ => Ok tt |}.

(** A catalog that refuses every creation with the client error [code]. *)
Definition refusing (a : asset) (code : string) : datazone_client :=
  {| api_get_asset := fun _ _ => Ok a;
     api_create_asset_revision := fun _ => Raise (ClientError code);
     api_create_glossary := fun _ => Raise (ClientError code);
     api_create_glossary_term := fun _ => Raise (ClientError code) |}.

Definition form (form_name type_id : string) (content : pyval) : pydict :=
  [("formName", PStr form_name);
   ("typeIdentifier", PStr type_id);
   ("content", content)].

Definition text_of (v : pyval) : pyval := PStr (Json.dumps v).

(** Text that is not JSON. *)
Definition broken_text : pyval := PStr "{oops".

(** *** The ownership scenario: the asset holds [{"owner": "A"}], the
    candidate brings [{"owner": "B", "team": "X"}]. *)

Definition owner_A : pydict := [("owner", PStr "A")].
Definition owner_B_team_X : pydict := [("owner", PStr "B"); ("team", PStr "X")].

Definition ownership_form : pydict :=
  form "ownership" "ownership" (text_of (PDict owner_A)).

Definition described (forms : list pydict) : asset :=
  {| asset_name := Some (PStr "orders");
     asset_description := Some (PStr "Orders table");
     asset_formsOutput := Some forms |}.

Definition undescribed (forms : list pydict) : asset :=
  {| asset_name := Some (PStr "orders");
     asset_description := None;
     asset_formsOutput := Some forms |}.

Definition orders : asset := described [ownership_form].

Definition ownership_candidate : pydict :=
  form "ownership" "ownership" (PDict owner_B_team_X).

Definition merged_ownership_form : pydict :=
  form "ownership" "ownership" (text_of (PDict owner_B_team_X)).

(** An asset with two forms of the same type. *)
Definition twice_owned : asset :=
  described [ownership_form;
             form "ownership_legacy" "ownership" (text_of (PDict [("owner", PStr "Z")]))].

(** A candidate whose content is JSON text for a list. *)
Definition list_candidate : pydict :=
  form "tags" "tags" (text_of (PList [PInt 1; PInt 2])).

Definition broken_candidate : pydict := form "ownership" "ownership" broken_text.

Definition run_add (dz : datazone_client) (cand : pydict) : M unit :=
  add_metadata_form Json.loads Json.dumps dz dzd asset1 cand.

(** *** The claims as the specification words them *)

(** C1 as worded: whenever a fetched form has the candidate's type, one
    revision is submitted and it holds exactly one form of that type. *)
Definition exactly_one_form_of_type_submitted
    (dz : datazone_client) (cand : pydict) : Prop :=
  forall actual_asset target,
    api_get_asset dz dzd asset1 = Ok actual_asset ->
    dict_get "typeIdentifier" cand = Some target ->
    existsb (has_type target) (fetched_forms actual_asset) = true ->
    exists req,
      revisions (snd (run_add dz cand)) = [req]
      /\ count_type target (req_formsInput req) = 1%nat.

(** C2 as worded: the revision carries the description exactly as
    [get_asset] returned it. *)
Definition description_exactly_as_returned
    (dz : datazone_client) (cand : pydict) : Prop :=
  forall req,
    In req (revisions (snd (run_add dz cand))) ->
    exists actual_asset,
      api_get_asset dz dzd asset1 = Ok actual_asset
      /\ asset_name actual_asset = Some (req_name req)
      /\ asset_description actual_asset = Some (req_description req).

(** C3 as worded: the run raises if and only if the candidate's content
    does not decode to a mapping. *)
Definition raises_iff_candidate_is_no_mapping
    (dz : datazone_client) (cand : pydict) : Prop :=
  (exists e, fst (run_add dz cand) = Raises e)
  <-> ~ (exists n, parse_new_content Json.loads cand = Ok (PDict n)).

(** C5 as worded: merging [cand] into the result of merging [cand] gives
    that result again. *)
Definition merge_twice_is_merge_once (forms : list pydict) (cand : pydict) : Prop :=
  forall out,
    merge_forms Json.loads Json.dumps forms cand = Ok out ->
    merge_forms Json.loads Json.dumps out cand = Ok out.

(** *** C1 *)

Lemma C1_two_forms_of_the_type_stay_two :
  ~ exactly_one_form_of_type_submitted (serving twice_owned) ownership_candidate.
Proof.
  intros H.
  destruct (H twice_owned (PStr "ownership") eq_refl eq_refl eq_refl)
    as (req & Hr & Hc).
  vm_compute in Hr. injection Hr as <-. vm_compute in Hc. discriminate.
Qed.

(** An asset whose ownership form holds a field that the candidate does
    not bring. *)
Definition dated_orders : asset :=
  described [form "ownership" "ownership"
               (text_of (PDict [("owner", PStr "A"); ("since", PStr "2020")]))].

(** An asset whose ownership form holds JSON text for a list. *)
Definition listed_orders : asset :=
  described [form "ownership" "ownership" (text_of (PList [PInt 1; PInt 2]))].

Lemma C1_ownership_scenario :
  (exists req,
      revisions (snd (run_add (serving orders) ownership_candidate)) = [req]
      /\ req_formsInput req = [merged_ownership_form]
      /\ count_type (PStr "ownership") (req_formsInput req) = 1%nat
      /\ Json.loads (Json.dumps (PDict (dict_update owner_A owner_B_team_X)))
         = Some (PDict owner_B_team_X))
  /\ (exists req,
         revisions (snd (run_add (serving dated_orders) ownership_candidate))
         = [req]
         /\ req_formsInput req
            = [form "ownership" "ownership"
                 (text_of (PDict [("owner", PStr "B"); ("since", PStr "2020");
                                  ("team", PStr "X")]))])
  /\ run_add (serving listed_orders) ownership_candidate
     = (Raises TypeError, [EGetAsset dzd asset1]).
Proof.
  split; [| split].
  - destruct (C1_matching_form_is_merged_in_place Json.loads Json.dumps
                (serving orders) dzd asset1 ownership_candidate orders
                (PStr "orders") (PStr "ownership") owner_B_team_X
                [] ownership_form []
                eq_refl eq_refl (or_introl eq_refl) eq_refl eq_refl eq_refl
                eq_refl eq_refl)
      as [Hmerge _].
    destruct (Hmerge owner_A
                (or_introl (ex_intro _ (Json.dumps (PDict owner_A))
                              (conj eq_refl eq_refl))))
      as (req & H1 & H2 & _ & H3 & _).
    exists req. split; [exact H1 |]. split; [exact H2 |].
    split; [exact (H3 eq_refl) |].
    reflexivity.
  - destruct (C1_matching_form_is_merged_in_place Json.loads Json.dumps
                (serving dated_orders) dzd asset1 ownership_candidate dated_orders
                (PStr "orders") (PStr "ownership") owner_B_team_X
                []
                (form "ownership" "ownership"
                   (text_of (PDict [("owner", PStr "A"); ("since", PStr "2020")])))
                []
                eq_refl eq_refl (or_introl eq_refl) eq_refl eq_refl eq_refl
                eq_refl eq_refl)
      as [Hmerge _].
    destruct (Hmerge [("owner", PStr "A"); ("since", PStr "2020")]
                (or_introl
                   (ex_intro _
                      (Json.dumps (PDict [("owner", PStr "A"); ("since", PStr "2020")]))
                      (conj eq_refl eq_refl))))
      as (req & H1 & H2 & _).
    exists req. split; [exact H1 | exact H2].
  - destruct (C1_matching_form_is_merged_in_place Json.loads Json.dumps
                (serving listed_orders) dzd asset1 ownership_candidate listed_orders
                (PStr "orders") (PStr "ownership") owner_B_team_X
                []
                (form "ownership" "ownership" (text_of (PList [PInt 1; PInt 2])))
                []
                eq_refl eq_refl (or_introl eq_refl) eq_refl eq_refl eq_refl
                eq_refl eq_refl)
      as [_ Hraises].
    apply (Hraises (Json.dumps (PList [PInt 1; PInt 2])) (PList [PInt 1; PInt 2]));
      [reflexivity | reflexivity | intros e H; discriminate H].
Defined.

(** *** C2 *)

Lemma C2_absent_description_becomes_empty_string :
  ~ description_exactly_as_returned (serving (undescribed [])) ownership_candidate.
Proof.
  intros H.
  assert (Hin : exists req,
             In req (revisions (snd (run_add (serving (undescribed []))
                                       ownership_candidate)))
             /\ req_description req = PStr "").
  { eexists. split; [left; reflexivity | reflexivity]. }
  destruct Hin as (req & Hin & Hd).
  destruct (H req Hin) as (a & Ha & _ & Hdesc).
  injection Ha as <-. discriminate.
Qed.

Definition orders_revision : revision_request :=
  {| req_domainIdentifier := dzd;
     req_identifier := asset1;
     req_name := PStr "orders";
     req_formsInput := [merged_ownership_form];
     req_description := PStr "Orders table" |}.

Lemma C2_orders_keep_name_and_description :
  exists actual_asset,
    api_get_asset (serving orders) dzd asset1 = Ok actual_asset
    /\ asset_name actual_asset = Some (req_name orders_revision)
    /\ req_domainIdentifier orders_revision = dzd
    /\ req_identifier orders_revision = asset1
    /\ match asset_description actual_asset with
       | None | Some PNone => req_description orders_revision = PStr ""
       | Some description => req_description orders_revision = description
       end.
Proof.
  apply (C2_revision_keeps_name_and_description Json.loads Json.dumps
           (serving orders) dzd asset1 ownership_candidate orders_revision).
  left. reflexivity.
Defined.

(** *** C3 *)

Lemma C3_raises_on_refused_revision_returns_on_list_content :
  ~ raises_iff_candidate_is_no_mapping
      (refusing orders "AccessDeniedException") ownership_candidate
  /\ ~ raises_iff_candidate_is_no_mapping (serving (described [])) list_candidate.
Proof.
  split; intros [Hraise Hmap].
  - apply Hraise.
    + eexists. reflexivity.
    + eexists. reflexivity.
  - destruct Hmap as [e He].
    + intros [n Hn]. discriminate.
    + discriminate.
Qed.

Lemma C3_broken_candidate_and_broken_existing :
  (fst (run_add (serving orders) broken_candidate)
   = Raises (ValueError "Erro ao decodificar 'content'")
   /\ revisions (snd (run_add (serving orders) broken_candidate)) = [])
  /\ (fst (run_add (serving (described [form "ownership" "ownership" broken_text]))
             ownership_candidate) = Returns tt
      /\ map req_formsInput
           (revisions
              (snd (run_add (serving (described [form "ownership" "ownership" broken_text]))
                      ownership_candidate)))
         = [[merged_ownership_form]]).
Proof.
  split.
  - destruct (C3_strict_candidate_lenient_existing Json.loads Json.dumps
                (serving orders) dzd asset1 broken_candidate) as [Hstrict _].
    destruct Hstrict as (_ & Hnone & Herr).
    + right. exists "{oops". split; reflexivity.
    + split; [apply (Herr orders (PStr "orders")); reflexivity | exact Hnone].
  - destruct (C3_strict_candidate_lenient_existing Json.loads Json.dumps
                (serving (described [form "ownership" "ownership" broken_text]))
                dzd asset1 ownership_candidate) as [_ Hlenient].
    destruct (Hlenient (described [form "ownership" "ownership" broken_text])
                (PStr "orders") (PStr "ownership") owner_B_team_X
                [] (form "ownership" "ownership" broken_text) [] "{oops"
                eq_refl eq_refl eq_refl eq_refl eq_refl eq_refl eq_refl
                eq_refl eq_refl) as [Hrev Hres].
    split; [exact Hres |].
    unfold run_add. rewrite Hrev. reflexivity.
Defined.

(** *** C4 *)

Lemma C4_update_keeps_length_insertion_adds_one :
  (distinct_types [merged_ownership_form] = true
   /\ List.length [merged_ownership_form] = 1%nat)
  /\ (distinct_types
        [ownership_form; form "tags" "tags" (text_of (PDict owner_B_team_X))] = true
      /\ List.length
           [ownership_form; form "tags" "tags" (text_of (PDict owner_B_team_X))]
         = 2%nat).
Proof.
  split.
  - apply (C4_merge_keeps_types_distinct Json.loads Json.dumps
             [ownership_form] ownership_candidate [merged_ownership_form]);
      reflexivity.
  - apply (C4_merge_keeps_types_distinct Json.loads Json.dumps
             [ownership_form] (form "tags" "tags" (PDict owner_B_team_X))
             [ownership_form; form "tags" "tags" (text_of (PDict owner_B_team_X))]);
      reflexivity.
Defined.

(** *** C5 *)

Lemma C5_list_content_merges_once_then_raises :
  ~ merge_twice_is_merge_once [] list_candidate.
Proof.
  intros H. specialize (H _ eq_refl). discriminate.
Qed.

Lemma C5_ownership_merged_twice :
  merge_forms Json.loads Json.dumps [merged_ownership_form] ownership_candidate
  = Ok [merged_ownership_form]
  /\ merge_forms Json.loads Json.dumps [form "tags" "tags" (text_of (PDict owner_B_team_X))]
       (form "tags" "tags" (PDict owner_B_team_X))
     = Ok [form "tags" "tags" (text_of (PDict owner_B_team_X))].
Proof.
  split.
  - apply (C5_merge_idempotent_for_mapping_candidates Json.loads Json.dumps
             [ownership_form] ownership_candidate owner_B_team_X
             [merged_ownership_form]); reflexivity.
  - apply (C5_merge_idempotent_for_mapping_candidates Json.loads Json.dumps
             [] (form "tags" "tags" (PDict owner_B_team_X)) owner_B_team_X
             [form "tags" "tags" (text_of (PDict owner_B_team_X))]); reflexivity.
Defined.

(** *** C6 *)

Definition asset_item (identifier : pyval) : pyval :=
  PDict [("assetItem", PDict [("identifier", identifier)])].

Definition first_page : search_response :=
  {| resp_items := Some [asset_item asset1; asset_item asset2];
     resp_nextToken := Some (PStr "t1") |}.

Definition last_page : search_response :=
  {| resp_items := Some [asset_item asset3]; resp_nextToken := None |}.

Definition empty_page : search_response :=
  {| resp_items := None; resp_nextToken := None |}.

Lemma C6_two_pages_then_error :
  (list_assets_ids dzd prj [Ok first_page; Ok last_page]
   = (Returns [asset1; asset2; asset3],
      [ESearch (search_request dzd prj PNone);
       ESearch (search_request dzd prj (PStr "t1"))])
   /\ List.length [asset1; asset2; asset3] = total_items [first_page; last_page])
  /\ list_assets_ids dzd prj
       [Ok first_page; Raise (ClientError "ThrottlingException"); Ok last_page]
     = (Raises (ClientError "ThrottlingException"),
        [ESearch (search_request dzd prj PNone);
         ESearch (search_request dzd prj (PStr "t1"))]).
Proof.
  destruct (C6_list_assets_ids_concatenates_pages dzd prj
              [first_page] last_page [[asset1; asset2]] [asset3])
    as [Hreturns Hraises].
  - repeat constructor.
  - repeat constructor.
  - split.
    + apply Hreturns; reflexivity.
    + apply (Hraises (ClientError "ThrottlingException") [Ok last_page]).
Defined.

(** *** C7 *)

Definition listing (status : string) : pydict := [("status", PStr status)].
Definition changeset : pyval := PStr "cs_1".

Lemma C7_pending_pending_then_active_timeout_failed :
  _aguardar_changeset_completion changeset dzd 300 [0; 1; 2; 3]
    [Ok (listing "PENDING"); Ok (listing "PENDING"); Ok (listing "ACTIVE")]
  = (Returns true,
     [EGetListing dzd changeset; ESleep 1;
      EGetListing dzd changeset; ESleep 1;
      EGetListing dzd changeset])
  /\ _aguardar_changeset_completion changeset dzd 300 [0; 1; 2; 300]
       [Ok (listing "PENDING"); Ok (listing "PENDING"); Ok (listing "ACTIVE")]
     = (Raises timeout_error,
        [EGetListing dzd changeset; ESleep 1;
         EGetListing dzd changeset; ESleep 1])
  /\ _aguardar_changeset_completion changeset dzd 300 [0; 1; 2; 3]
       [Ok (listing "FAILED"); Ok (listing "ACTIVE")]
     = (Raises timeout_error,
        [EGetListing dzd changeset;
         EPrint (MsgErroVerificarStatus
                   (Exception_ "Changeset falhou com status" [PStr "FAILED"]))]).
Proof.
  assert (Hin : Forall (within_budget 300 0) [1; 2])
    by (repeat constructor).
  assert (Hpending : Forall (fun r => is_pending r = true)
                            [listing "PENDING"; listing "PENDING"])
    by (repeat constructor).
  split; [| split].
  - destruct (C7_polling_outcomes changeset dzd 300 0
                [1; 2] [listing "PENDING"; listing "PENDING"] 3 [] []
                eq_refl Hin Hpending) as (Hactive & _ & _).
    apply (Hactive (listing "ACTIVE")); reflexivity.
  - destruct (C7_polling_outcomes changeset dzd 300 0
                [1; 2] [listing "PENDING"; listing "PENDING"] 300 []
                [Ok (listing "ACTIVE")]
                eq_refl Hin Hpending) as (_ & Hout & _).
    apply Hout. unfold within_budget. intros H. discriminate H.
  - destruct (C7_polling_outcomes changeset dzd 300 0
                [] [] 1 [2; 3] [Ok (listing "ACTIVE")]
                eq_refl (Forall_nil _) (Forall_nil _)) as (_ & _ & Hfailed).
    apply (Hfailed (listing "FAILED")); reflexivity.
Defined.

(** *** C8 *)

Definition pii : pyval := PStr "PII".

Lemma C8_conflict_returns_denial_raises :
  (add_glossary (refusing orders "ConflictException") dzd prj pii
   = (Returns tt,
      [ECreateGlossary (glossary_request dzd prj pii);
       EPrint (MsgGlossaryExists pii)])
   /\ add_glossary_term (refusing orders "ConflictException")
        dzd (PStr "g_1") pii (PStr "desc") (PStr "readme")
      = (Returns tt,
         [ECreateGlossaryTerm
            (term_request dzd (PStr "g_1") pii (PStr "desc") (PStr "readme"));
          EPrint (MsgTermExists pii)]))
  /\ (add_glossary (refusing orders "AccessDeniedException") dzd prj pii
      = (Raises (ClientError "AccessDeniedException"),
         [ECreateGlossary (glossary_request dzd prj pii)])
      /\ add_glossary_term (refusing orders "AccessDeniedException")
           dzd (PStr "g_1") pii (PStr "desc") (PStr "readme")
         = (Raises (ClientError "AccessDeniedException"),
            [ECreateGlossaryTerm
               (term_request dzd (PStr "g_1") pii (PStr "desc") (PStr "readme"))])).
Proof.
  split.
  - destruct (C8_conflict_reported_other_client_errors_raised
                (refusing orders "ConflictException")
                dzd prj pii (PStr "g_1") pii (PStr "desc") (PStr "readme"))
      as (Hg & _ & Ht & _).
    split; [apply Hg | apply Ht]; reflexivity.
  - destruct (C8_conflict_reported_other_client_errors_raised
                (refusing orders "AccessDeniedException")
                dzd prj pii (PStr "g_1") pii (PStr "desc") (PStr "readme"))
      as (_ & Hg & _ & Ht).
    split; [apply Hg | apply Ht]; (discriminate || reflexivity).
Defined.

(** *** Scripts for the republisher and assets for the backup *)

Definition publishing (statuses : list string) : publish_env :=
  {| env_change_set := Ok [("listingId", changeset)];
     env_clock := [0; 1; 2; 300];
     env_get_listing := map (fun s => Ok (listing s)) statuses |}.

Definition two_assets_page : search_response :=
  {| resp_items := Some [asset_item asset1; asset_item asset2];
     resp_nextToken := None |}.

(** *** C9 *)

Definition form_named (form_name : string) (content : pydict) : pydict :=
  [("formName", PStr form_name);
   ("typeName", PStr form_name);
   ("content", text_of (PDict content))].

Definition complete_asset : asset :=
  {| asset_name := Some (PStr "orders");
     asset_description := Some (PStr "Orders table");
     asset_formsOutput :=
       Some [form_named "GlueTableForm" [("tableName", PStr "orders")];
             form_named "seguranca_privacidade" [("classificacao", PStr "interno")];
             form_named "dominio_de_dados" [("domain", PStr "vendas")]] |}.

Definition asset_without_domain : asset :=
  {| asset_name := Some (PStr "clients");
     asset_description := None;
     asset_formsOutput :=
       Some [form_named "GlueTableForm" [("tableName", PStr "clients")];
             form_named "seguranca_privacidade" [("classificacao", PStr "restrito")]] |}.

Definition two_assets_catalog : datazone_client :=
  {| api_get_asset := fun _ asset_id =>
                        if py_eq asset_id asset1 then Ok complete_asset
                        else Ok asset_without_domain;
     api_create_asset_revision := fun _ => Ok tt;
     api_create_glossary := fun _ => Ok tt;
     api_create_glossary_term := fun _ => Ok tt |}.

Definition backup_csv : pyval := PStr "backup_metadados.csv".

(** An asset whose security form holds text that is not JSON. *)
Definition broken_asset : asset :=
  {| asset_name := Some (PStr "clients");
     asset_description := None;
     asset_formsOutput :=
       Some [[("formName", PStr "seguranca_privacidade");
              ("content", broken_text)]] |}.

(** C9 as worded: the backup writes one row per listed asset. *)
Definition one_row_per_listed_asset
    (dz : datazone_client) (pages : list (result search_response)) : Prop :=
  forall assets_ids tl,
    list_assets_ids dzd prj pages = (Returns assets_ids, tl) ->
    exists t out,
      backup_main Json.loads dz dzd prj backup_csv pages = (Returns tt, t)
      /\ In (EToCsv backup_csv out) t
      /\ List.length (rows out) = List.length assets_ids.

(** The first asset lacks its domain form; the security form of the second
    one cannot be decoded. *)
Definition catalog_with_broken_asset : datazone_client :=
  {| api_get_asset := fun _ asset_id =>
                        if py_eq asset_id asset1 then Ok asset_without_domain
                        else Ok broken_asset;
     api_create_asset_revision := fun _ => Ok tt;
     api_create_glossary := fun _ => Ok tt;
     api_create_glossary_term := fun _ => Ok tt |}.

(** With a form that cannot be decoded among the listed assets, the backup
    raises after the fetch of that asset and writes no row at all, not even
    that of the asset that only lacked a form. *)
Lemma C9_unreadable_form_stops_the_backup :
  ~ one_row_per_listed_asset catalog_with_broken_asset [Ok two_assets_page].
Proof.
  intros H.
  destruct (H [asset1; asset2] [ESearch (search_request dzd prj PNone)] eq_refl)
    as (t & out & Hrun & _).
  vm_compute in Hrun. discriminate Hrun.
Qed.

Lemma C9_two_assets_one_without_domain_form :
  exists out,
    backup_main Json.loads two_assets_catalog dzd prj backup_csv
      [Ok two_assets_page]
    = (Returns tt,
       [ESearch (search_request dzd prj PNone);
        EGetAsset dzd asset1;
        EGetAsset dzd asset2;
        EPrint (MsgFormNotFound "dominio_de_dados");
        EToCsv backup_csv out])
    /\ List.length (rows out) = 2%nat
    /\ In "domain" (columns out)
    /\ cell out 0 "domain" = Some (PStr "vendas")
    /\ cell out 1 "domain" = None
    /\ cell out 1 "classificacao" = Some (PStr "restrito")
    /\ cell out 1 "Descrição" = Some (PStr "").
Proof.
  set (row1 := [("classificacao", PStr "interno"); ("domain", PStr "vendas");
                ("tableName", PStr "orders"); ("Descrição", PStr "Orders table")]).
  set (row2 := [("classificacao", PStr "restrito"); ("tableName", PStr "clients");
                ("Descrição", PStr "")]).
  set (glue1 := form_named "GlueTableForm" [("tableName", PStr "orders")]).
  set (sec1 := form_named "seguranca_privacidade" [("classificacao", PStr "interno")]).
  set (dom1 := form_named "dominio_de_dados" [("domain", PStr "vendas")]).
  set (glue2 := form_named "GlueTableForm" [("tableName", PStr "clients")]).
  set (sec2 := form_named "seguranca_privacidade" [("classificacao", PStr "restrito")]).
  assert (H1 : asset_yields Json.loads two_assets_catalog dzd asset1 (row1, [])).
  { exists complete_asset, [glue1; sec1; dom1],
      [("classificacao", PStr "interno")], [("domain", PStr "vendas")],
      [("tableName", PStr "orders")].
    split; [reflexivity |]. split; [reflexivity |].
    split; [right; exists [glue1], sec1, [dom1],
                     (Json.dumps (PDict [("classificacao", PStr "interno")]));
            repeat split |].
    split; [right; exists [glue1; sec1], dom1, [],
                     (Json.dumps (PDict [("domain", PStr "vendas")]));
            repeat split |].
    split; [right; exists [], glue1, [sec1; dom1],
                     (Json.dumps (PDict [("tableName", PStr "orders")]));
            repeat split |].
    repeat split. }
  assert (H2 : asset_yields Json.loads two_assets_catalog dzd asset2
                 (row2, [EPrint (MsgFormNotFound "dominio_de_dados")])).
  { exists asset_without_domain, [glue2; sec2],
      [("classificacao", PStr "restrito")], [], [("tableName", PStr "clients")].
    split; [reflexivity |]. split; [reflexivity |].
    split; [right; exists [glue2], sec2, [],
                     (Json.dumps (PDict [("classificacao", PStr "restrito")]));
            repeat split |].
    split; [left; split; reflexivity |].
    split; [right; exists [], glue2, [sec2],
                     (Json.dumps (PDict [("tableName", PStr "clients")]));
            repeat split |].
    repeat split. }
  destruct (C9_backup_one_row_per_asset Json.loads two_assets_catalog
              dzd prj backup_csv [Ok two_assets_page] [asset1; asset2]
              [ESearch (search_request dzd prj PNone)]
              [(row1, []); (row2, [EPrint (MsgFormNotFound "dominio_de_dados")])]
              eq_refl (Forall2_cons _ _ H1 (Forall2_cons _ _ H2 (Forall2_nil _))))
    as (out & Hrun & Hlen & Hcols & Hcells).
  exists out. split; [exact Hrun |]. split; [exact Hlen |].
  split.
  { apply Hcols. exists (row1, []). split; [left; reflexivity | discriminate]. }
  destruct (Hcells 0%nat (row1, []) "domain" eq_refl) as [Ha _].
  destruct (Hcells 1%nat (row2, [EPrint (MsgFormNotFound "dominio_de_dados")])
              "domain" eq_refl) as [_ Hb].
  destruct (Hcells 1%nat (row2, [EPrint (MsgFormNotFound "dominio_de_dados")])
              "classificacao" eq_refl) as [Hc _].
  destruct (Hcells 1%nat (row2, [EPrint (MsgFormNotFound "dominio_de_dados")])
              "Descrição" eq_refl) as [Hd _].
  split; [exact (Ha "vendas" eq_refl) |].
  split; [exact (Hb eq_refl) |].
  split; [exact (Hc "restrito" eq_refl) | exact (Hd EmptyString eq_refl)].
Defined.

(** The frame written for the two assets: the second row has no cell under
    ["domain"]. *)
Example backup_of_two_assets :
  backup_main Json.loads two_assets_catalog dzd prj backup_csv
    [Ok two_assets_page]
  = (Returns tt,
     [ESearch (search_request dzd prj PNone);
      EGetAsset dzd asset1;
      EGetAsset dzd asset2;
      EPrint (MsgFormNotFound "dominio_de_dados");
      EToCsv backup_csv
        {| columns := ["classificacao"; "domain"; "tableName"; "Descrição"];
           rows := [[("classificacao", PStr "interno");
                     ("domain", PStr "vendas");
                     ("tableName", PStr "orders");
                     ("Descrição", PStr "Orders table")];
                    [("classificacao", PStr "restrito");
                     ("tableName", PStr "clients");
                     ("Descrição", PStr "")]] |}]).
Proof. reflexivity. Qed.

(** *** C10 *)

Definition three_publications : list publish_env :=
  [publishing ["PENDING"; "ACTIVE"];
   publishing ["FAILED"; "ACTIVE"];
   publishing ["ACTIVE"; "ACTIVE"]].

Lemma C10_empty_listing_and_two_assets :
  main prj dzd [Ok empty_page] []
  = (Raises IndexError,
     [ESearch (search_request dzd prj PNone); EPrint MsgInicio])
  /\ (fst (main prj dzd [Ok two_assets_page] three_publications)
      = Returns 1%nat
      /\ publish_requests
           (snd (main prj dzd [Ok two_assets_page] three_publications))
         = [asset1; asset1; asset2]
      /\ reports (snd (main prj dzd [Ok two_assets_page] three_publications))
         = [MsgFalha asset1; MsgProgresso 1 2; MsgRepublicado asset2]).
Proof.
  split.
  - destruct (C10_first_asset_published_twice prj dzd [Ok empty_page] []
                [ESearch (search_request dzd prj PNone)] eq_refl)
      as [Hempty _].
    destruct (Hempty eq_refl []) as [H _]. exact H.
  - destruct (C10_first_asset_published_twice prj dzd [Ok two_assets_page]
                [asset1; asset2]
                [ESearch (search_request dzd prj PNone)] eq_refl)
      as [_ Hrun].
    destruct (Hrun asset1 [asset2] (publishing ["PENDING"; "ACTIVE"])
                [publishing ["FAILED"; "ACTIVE"]; publishing ["ACTIVE"; "ACTIVE"]]
                eq_refl eq_refl eq_refl)
      as (b0 & t0 & count & tloop & Hfirst & Hloop & Hmain & Hpub & _ & _).
    unfold three_publications. rewrite Hmain. cbn [fst snd].
    vm_compute in Hfirst. injection Hfirst as <- <-.
    vm_compute in Hloop. injection Hloop as <- <-.
    split; [reflexivity |]. split; [exact Hpub | reflexivity].
Defined.

End Scenarios.

(* ===================================================================== *)
(** * Part IV -- the rest of the scripts                                  *)
(* ===================================================================== *)

(** ** Traces over a wider alphabet

    The functions below make calls and print lines that the events of
    Part I do not name.  [T E A] is the computation type of Part I over
    any alphabet [E]; [widen] carries a computation of Part I into it. *)

Module Wide.

Definition T (E A : Type) : Type := (outcome A * list E)%type.

Definition wret {E A} (a : A) : T E A := (Returns a, []).
Definition wraise {E A} (e : exn) : T E A := (Raises e, []).
Definition wstuck {E A} : T E A := (Stuck, []).

Definition wbind {E A B} (m : T E A) (k : A -> T E B) : T E B :=
  match m with
  | (Returns a, t) => let '(o, t') := k a in (o, t ++ t')
  | (Raises e, t) => (Raises e, t)
  | (Stuck, t) => (Stuck, t)
  end.

(** [try: m  except Exception as e: h e] *)
Definition wtry_except {E A} (m : T E A) (h : exn -> T E A) : T E A :=
  match m with
  | (Raises e, t) => let '(o, t') := h e in (o, t ++ t')
  | other => other
  end.

Definition wlift {E A} (r : result A) : T E A :=
  match r with Ok a => wret a | Raise e => wraise e end.

Definition wemit {E} (ev : E) : T E unit := (Returns tt, [ev]).

Definition wcall {E A} (ev : E) (answer : result A) : T E A :=
  wbind (wemit ev) (fun _ => wlift answer).

(** A computation over [E] seen over [E'], event by event. *)
Definition widen {E E' A} (f : E -> E') (m : T E A) : T E' A :=
  (fst m, map f (snd m)).

End Wide.
Export Wide.

Declare Scope wide_scope.
Notation "x <- m ;; k" := (wbind m (fun x => k))
  (at level 61, m at next level, right associativity) : wide_scope.
Notation "m ;;; k" := (wbind m (fun _ => k))
  (at level 61, right associativity) : wide_scope.

Lemma wbind_returns {E A B} (a : A) (t : list E) (k : A -> T E B) :
  wbind (Returns a, t) k = (fst (k a), t ++ snd (k a)).
Proof. unfold wbind. destruct (k a); reflexivity. Qed.

Lemma wbind_wret {E A B} (a : A) (k : A -> T E B) : wbind (wret a) k = k a.
Proof. unfold wret. rewrite wbind_returns. destruct (k a); reflexivity. Qed.

Lemma wcall_ok {E A} (ev : E) (a : A) : wcall ev (Ok a) = (Returns a, [ev]).
Proof. reflexivity. Qed.

Lemma wcall_raise {E A} (ev : E) (e : exn) :
  wcall ev (@Raise A e) = (Raises e, [ev]).
Proof. reflexivity. Qed.

(** ** [smus_scripts.py]: the functions that no claim cites *)

Module SmusRest.
Import Smus.
Local Open Scope wide_scope.

(** The lines printed by [add_asset_description] and by the backfill. *)
Inductive message2 : Type :=
| MsgDescricaoSobrescrita (asset_name : pyval)
| MsgDescricaoAdicionada (asset_name : pyval)
| MsgNenhumaLinha (table_name : pyval).

Inductive event2 : Type :=
| Base (ev : event)
| EListDomains (maxResults : Z) (status : string)
| EListProjectsPage (domain_id : pyval)
| EReadCsv (path : pyval) (delimiter : string)
| EPrint2 (m : message2).

(** [d[key] = value] on a dictionary under construction.  An unhashable key
    is a [TypeError]; a hashable key that is no string is outside the
    string-keyed dictionaries of the model. *)
Definition set_item {E} (d : pydict) (key value : pyval) : T E pydict :=
  match key with
  | PStr s => wret (dict_set s value d)
  | PList _ | PDict _ => wraise TypeError
  | PNone | PBool _ | PInt _ => wstuck
  end.

(** [name = item['glossaryItem']['name']; gid = item['glossaryItem']['id']] *)
Definition glossary_entry (item : pyval) : result (pyval * pyval) :=
  rbind (rbind (subscript item "glossaryItem") (fun g => subscript g "name"))
    (fun name =>
       rbind (rbind (subscript item "glossaryItem") (fun g => subscript g "id"))
         (fun gid => Ok (name, gid))).

(** The [for item in response.get('items', [])] loop. *)
Fixpoint add_glossary_items (items : list pyval) (glossary_dict : pydict)
  : M pydict :=
  match items with
  | [] => ret glossary_dict
  | item :: more =>
      bind (lift (glossary_entry item))
        (fun entry =>
           bind (set_item glossary_dict (fst entry) (snd entry))
             (fun glossary_dict => add_glossary_items more glossary_dict))
  end.

(** The [while True] loop of [list_glossary_ids]: [request_params] is built
    once, before the loop, and updated in place. *)
Fixpoint list_glossary_ids_loop (pages : list (result search_response))
    (request_params : pydict) (next_token : pyval) (glossary_dict : pydict)
    {struct pages} : M pydict :=
  match pages with
  | [] => stuck
  | page :: later =>
      let request_params :=
        if py_truthy next_token
        then dict_set "nextToken" next_token request_params
        else request_params in
      bind (call (ESearch request_params) page)
        (fun response =>
           bind (add_glossary_items
                   (match resp_items response with
                    | Some items => items
                    | None => []
                    end) glossary_dict)
             (fun glossary_dict =>
                let next_token :=
                  match resp_nextToken response with
                  | Some t => t
                  | None => PNone
                  end in
                if negb (py_truthy next_token) then ret glossary_dict
                else list_glossary_ids_loop later request_params next_token
                       glossary_dict))
  end.

Definition list_glossary_ids (domain_id project_id : pyval)
    (pages : list (result search_response)) : M pydict :=
  list_glossary_ids_loop pages
    [("domainIdentifier", domain_id);
     ("owningProjectIdentifier", project_id);
     ("searchScope", PStr "GLOSSARY")]
    PNone [].

(** [[domain for domain in items if domain["name"] == domain_name]] *)
Fixpoint domains_named (domain_name : pyval) (items : list pyval)
  : result (list pyval) :=
  match items with
  | [] => Ok []
  | domain :: more =>
      rbind (subscript domain "name")
        (fun name =>
           rbind (domains_named domain_name more)
             (fun rest =>
                Ok (if py_eq name domain_name then domain :: rest else rest)))
  end.

(** [get_domain_id]; [answer] is the response of the one [list_domains]
    call. *)
Definition get_domain_id (answer : result search_response) (domain_name : pyval)
  : T event2 pyval :=
  domain_data <- wcall (EListDomains 1 "AVAILABLE") answer ;;
  items <- wlift (match resp_items domain_data with
                  | Some items => Ok items
                  | None => Raise (KeyError "items")
                  end) ;;
  domain_data <- wlift (domains_named domain_name items) ;;
  first <- wlift (match domain_data with
                  | domain :: _ => Ok domain
                  | [] => Raise IndexError
                  end) ;;
  wlift (subscript first "id").

(** [for page in paginator.paginate(...): project_data.extend(...)];
    [pages] are the pages that the paginator yields, one call each. *)
Fixpoint collect_projects (domain_id : pyval)
    (pages : list (result search_response)) (project_data : list pyval)
  : T event2 (list pyval) :=
  match pages with
  | [] => wret project_data
  | page :: later =>
      response <- wcall (EListProjectsPage domain_id) page ;;
      collect_projects domain_id later
        (project_data
         ++ match resp_items response with Some items => items | None => [] end)
  end.

(** [[project[key] for project in project_data]] *)
Fixpoint column_of (key : string) (project_data : list pyval)
  : result (list pyval) :=
  match project_data with
  | [] => Ok []
  | project :: more =>
      rbind (subscript project key)
        (fun v => rbind (column_of key more) (fun vs => Ok (v :: vs)))
  end.

(** [dict(zip(keys, values))] *)
Fixpoint dict_of_zip {E} (ks vs : list pyval) (d : pydict) : T E pydict :=
  match ks, vs with
  | k :: ks', v :: vs' => d' <- set_item d k v ;; dict_of_zip ks' vs' d'
  | _, _ => wret d
  end.

Definition list_project_ids (domain_id : pyval)
    (pages : list (result search_response)) : T event2 pydict :=
  project_data <- collect_projects domain_id pages [] ;;
  project_ids <- wlift (column_of "id" project_data) ;;
  project_domains <- wlift (column_of "domainId" project_data) ;;
  dict_of_zip project_ids project_domains [].

Section Scripts.

Variable json_dumps : pyval -> string.
Variable datazone : datazone_client.

Definition add_asset_description (domain_id asset_id description : pyval)
  : T event2 unit :=
  actual_asset <- widen Base (get_asset datazone domain_id asset_id) ;;
  asset_name <- wlift (match asset_name actual_asset with
                       | Some n => Ok n
                       | None => Raise (KeyError "name")
                       end) ;;
  let existing_description :=
    match asset_description actual_asset with
    | Some d => d
    | None => PNone
    end in
  let forms_output :=
    match asset_formsOutput actual_asset with
    | Some forms => forms
    | None => []
    end in
  let normalized_forms := map (normalize_form json_dumps) forms_output in
  let request :=
    {| req_domainIdentifier := domain_id;
       req_identifier := asset_id;
       req_name := asset_name;
       req_formsInput := normalized_forms;
       req_description := description |} in
  widen Base (call (ECreateAssetRevision request)
                   (api_create_asset_revision datazone request)) ;;;
  if py_truthy existing_description
  then wemit (EPrint2 (MsgDescricaoSobrescrita asset_name))
  else wemit (EPrint2 (MsgDescricaoAdicionada asset_name)).

End Scripts.

End SmusRest.

Module SmusRestFacts.
Import Smus SmusRest DictFacts MergeFacts ListerFacts.
Local Open Scope wide_scope.

(** *** Dictionaries built item by item *)

(** The value of the last pair of [pairs] whose key is [k]. *)
Fixpoint last_binding (k : string) (pairs : pydict) : option pyval :=
  match pairs with
  | [] => None
  | (k', v) :: more =>
      match last_binding k more with
      | Some w => Some w
      | None => if String.eqb k k' then Some v else None
      end
  end.

Lemma dict_get_update_last k n :
  forall e,
    dict_get k (dict_update e n)
    = match last_binding k n with
      | Some v => Some v
      | None => dict_get k e
      end.
Proof.
  induction n as [| [k1 v1] n IH]; intros e; [reflexivity |].
  rewrite dict_update_cons, IH. cbn [last_binding].
  destruct (last_binding k n); [reflexivity |].
  destruct (String.eqb k k1) eqn:E.
  - apply String.eqb_eq in E. subst k1. apply dict_get_set_same.
  - apply dict_get_set_other. apply String.eqb_neq. exact E.
Qed.

Lemma dict_update_app e n n' :
  dict_update e (n ++ n') = dict_update (dict_update e n) n'.
Proof. unfold dict_update. apply fold_left_app. Qed.

(** The keys of [{**e, **n}] are those of [e] and those of [n]. *)
Lemma dict_mem_update_iff k n :
  forall e, dict_mem k (dict_update e n) = (dict_mem k e || dict_mem k n)%bool.
Proof.
  induction n as [| [k1 v1] n IH]; intros e.
  - cbn. rewrite orb_false_r. reflexivity.
  - rewrite dict_update_cons, IH. unfold dict_mem. cbn [dict_get].
    destruct (string_dec k k1) as [-> | Hne].
    + rewrite dict_get_set_same, String.eqb_refl. rewrite !orb_true_r.
      destruct (dict_get k1 n); reflexivity.
    + rewrite (dict_get_set_other _ _ _ _ Hne).
      apply String.eqb_neq in Hne. rewrite Hne. reflexivity.
Qed.

(** *** [list_glossary_ids] *)

(** [item] is a glossary item with the string [name] and the identifier
    [gid]. *)
Definition glossary_item_of (item : pyval) (entry : string * pyval) : Prop :=
  glossary_entry item = Ok (PStr (fst entry), snd entry).

Definition glossary_base (domain_id project_id : pyval) : pydict :=
  [("domainIdentifier", domain_id);
   ("owningProjectIdentifier", project_id);
   ("searchScope", PStr "GLOSSARY")].

(** The keyword arguments of the [search] call made with [next_token]. *)
Definition glossary_search_request (domain_id project_id next_token : pyval) : pydict :=
  if py_truthy next_token
  then dict_set "nextToken" next_token (glossary_base domain_id project_id)
  else glossary_base domain_id project_id.

Fixpoint glossary_requests (domain_id project_id next_token : pyval)
    (rs : list search_response) : trace :=
  match rs with
  | [] => []
  | r :: later =>
      ESearch (glossary_search_request domain_id project_id next_token)
      :: glossary_requests domain_id project_id (page_token r) later
  end.

Lemma add_glossary_items_entries items :
  forall entries glossary_dict,
    Forall2 glossary_item_of items entries ->
    add_glossary_items items glossary_dict
    = (Returns (dict_update glossary_dict entries), []).
Proof.
  induction items as [| item items IH]; intros entries d H.
  - inversion H; subst. reflexivity.
  - inversion H as [| ? [name gid] ? entries' Hitem Hrest]; subst.
    cbn [add_glossary_items]. unfold glossary_item_of in Hitem.
    rewrite Hitem. cbn [lift]. rewrite bind_ret. cbn [fst snd set_item].
    change (@wret event pydict (dict_set name gid d))
      with (ret (dict_set name gid d)).
    rewrite bind_ret. rewrite (IH entries' _ Hrest). reflexivity.
Qed.

(** The request parameters are kept between iterations: they are the
    initial ones, or the initial ones with some token. *)
Definition kept_params (domain_id project_id : pyval) (params : pydict) : Prop :=
  params = glossary_base domain_id project_id
  \/ exists t, params = dict_set "nextToken" t (glossary_base domain_id project_id).

Lemma kept_params_request domain_id project_id params next_token :
  kept_params domain_id project_id params ->
  (py_truthy next_token = false -> params = glossary_base domain_id project_id) ->
  (if py_truthy next_token then dict_set "nextToken" next_token params else params)
  = glossary_search_request domain_id project_id next_token
  /\ kept_params domain_id project_id
       (if py_truthy next_token then dict_set "nextToken" next_token params
        else params).
Proof.
  intros Hk Hfalse. unfold glossary_search_request.
  destruct (py_truthy next_token).
  - destruct Hk as [-> | (t & ->)].
    + split; [reflexivity | right; eauto].
    + rewrite dict_set_set_same. split; [reflexivity | right; eauto].
  - rewrite (Hfalse eq_refl). split; [reflexivity | left; reflexivity].
Qed.

Lemma glossary_loop_through_pages domain_id project_id :
  forall (rs : list search_response) (entriess : list pydict)
         (later : list (result search_response)) params next_token acc,
    kept_params domain_id project_id params ->
    (py_truthy next_token = false -> params = glossary_base domain_id project_id) ->
    Forall (fun r => has_token r = true) rs ->
    Forall2 (fun r entries => Forall2 glossary_item_of (page_items r) entries)
            rs entriess ->
    exists params',
      kept_params domain_id project_id params'
      /\ (py_truthy (last_token next_token rs) = false ->
          params' = glossary_base domain_id project_id)
      /\ list_glossary_ids_loop (map Ok rs ++ later) params next_token acc
         = (fst (list_glossary_ids_loop later params'
                   (last_token next_token rs)
                   (dict_update acc (List.concat entriess))),
            glossary_requests domain_id project_id next_token rs
            ++ snd (list_glossary_ids_loop later params'
                      (last_token next_token rs)
                      (dict_update acc (List.concat entriess)))).
Proof.
  induction rs as [| r rs IH];
    intros entriess later params tok acc Hk Hfalse Htok Hitems.
  - inversion Hitems; subst. exists params. split; [exact Hk |].
    split; [exact Hfalse |]. cbn.
    destruct (list_glossary_ids_loop later params tok acc); reflexivity.
  - inversion Hitems as [| ? entries ? entriess' Hr Hrest]; subst.
    inversion Htok as [| ? ? Ht Htok']; subst.
    destruct (kept_params_request domain_id project_id params tok Hk Hfalse)
      as [Hreq Hk'].
    assert (Hfalse' : py_truthy (page_token r) = false ->
                      (if py_truthy tok then dict_set "nextToken" tok params
                       else params) = glossary_base domain_id project_id).
    { unfold has_token in Ht. rewrite Ht. discriminate. }
    destruct (IH entriess' later _ (page_token r) (dict_update acc entries)
                Hk' Hfalse' Htok' Hrest) as (params' & Hk'' & Hf'' & Heq).
    exists params'. split; [exact Hk'' |]. split; [exact Hf'' |].
    cbn [map app list_glossary_ids_loop].
    rewrite call_ok, bind_returns.
    fold (page_items r). rewrite (add_glossary_items_entries _ _ _ Hr).
    rewrite bind_returns. cbn [fst snd app].
    fold (page_token r). unfold has_token in Ht. rewrite Ht. cbn [negb].
    rewrite Heq. cbn [fst snd].
    cbn [last_token fold_left List.concat glossary_requests].
    fold (last_token (page_token r) rs).
    rewrite dict_update_app, Hreq. reflexivity.
Qed.

(** X2.  When every scripted page but the last carries a continuation
    token and every listed item is a glossary item with a string name,
    [list_glossary_ids] returns the dictionary of the listed names: each
    name is bound to the identifier of the last listed item of that name,
    and nothing else is bound.  Each request after the first carries the
    token of the page before. *)
Theorem list_glossary_ids_last_listed_wins :
  forall domain_id project_id (rs : list search_response) (final : search_response)
         (entriess : list pydict) (final_entries : pydict),
    Forall (fun r => has_token r = true) rs ->
    has_token final = false ->
    Forall2 (fun r entries => Forall2 glossary_item_of (page_items r) entries)
            (rs ++ [final]) (entriess ++ [final_entries]) ->
    exists glossary_dict,
      list_glossary_ids domain_id project_id (map Ok (rs ++ [final]))
      = (Returns glossary_dict,
         glossary_requests domain_id project_id PNone (rs ++ [final]))
      /\ forall name,
           dict_get name glossary_dict
           = last_binding name (List.concat (entriess ++ [final_entries])).
Proof.
  intros d p rs final entriess final_entries Htok Hlast Hitems.
  apply Forall2_app_inv_l in Hitems
    as (es1 & es2 & Hrs & Hfin & Heq).
  inversion Hfin as [| ? fe ? es2' Hfinal Hnil]; subst. inversion Hnil; subst.
  apply app_inj_tail in Heq as [-> ->].
  destruct (glossary_loop_through_pages d p rs es1 [Ok final]
              (glossary_base d p) PNone []
              (or_introl eq_refl) (fun _ => eq_refl) Htok Hrs)
    as (params' & Hk & Hf & Hloop).
  exists (dict_update [] (List.concat (es1 ++ [fe]))). split.
  - unfold list_glossary_ids. fold (glossary_base d p).
    rewrite map_app. cbn [map]. rewrite Hloop.
    cbn [list_glossary_ids_loop].
    destruct (kept_params_request d p params' (last_token PNone rs) Hk Hf)
      as [Hreq _].
    rewrite Hreq, call_ok, bind_returns.
    fold (page_items final). rewrite (add_glossary_items_entries _ _ _ Hfinal).
    rewrite bind_returns. cbn [fst snd app].
    fold (page_token final). unfold has_token in Hlast. rewrite Hlast.
    cbn [negb ret fst snd]. rewrite concat_app. cbn [List.concat].
    rewrite (app_nil_r fe), dict_update_app. f_equal.
    clear. generalize PNone as tok. induction rs as [| r rs IH]; intros tok.
    + reflexivity.
    + cbn [glossary_requests app last_token fold_left]. f_equal. apply IH.
  - intros name. rewrite dict_get_update_last.
    destruct (last_binding name _); reflexivity.
Qed.

(** *** [get_domain_id] *)

(** [domain["name"]] exists. *)
Definition has_name (domain : pyval) : bool :=
  match subscript domain "name" with Ok _ => true | Raise _ => false end.

(** [domain["name"] == domain_name] *)
Definition named (domain_name domain : pyval) : bool :=
  match subscript domain "name" with
  | Ok name => py_eq name domain_name
  | Raise _ => false
  end.

Lemma domains_named_filter domain_name items :
  forallb has_name items = true ->
  domains_named domain_name items = Ok (filter (named domain_name) items).
Proof.
  induction items as [| domain items IH]; [reflexivity |].
  cbn [forallb domains_named filter]. intros H.
  apply andb_prop in H as [Hd Hi]. unfold has_name in Hd. unfold named.
  destruct (subscript domain "name") as [name | e]; [| discriminate].
  cbn [rbind]. rewrite (IH Hi). cbn [rbind].
  destruct (py_eq name domain_name); reflexivity.
Qed.

Lemma find_filter_head {A} (f : A -> bool) (l : list A) :
  find f l = match filter f l with x :: _ => Some x | [] => None end.
Proof.
  induction l as [| x l IH]; [reflexivity |].
  simpl. destruct (f x); [reflexivity | exact IH].
Qed.

Lemma get_domain_id_run answer domain_name :
  get_domain_id answer domain_name
  = (match answer with
     | Raise e => Raises e
     | Ok response =>
         match resp_items response with
         | None => Raises (KeyError "items")
         | Some items =>
             match domains_named domain_name items with
             | Raise e => Raises e
             | Ok [] => Raises IndexError
             | Ok (domain :: _) =>
                 match subscript domain "id" with
                 | Ok domain_id => Returns domain_id
                 | Raise e => Raises e
                 end
             end
         end
     end, [EListDomains 1 "AVAILABLE"]).
Proof.
  unfold get_domain_id. destruct answer as [response | e]; [| reflexivity].
  rewrite wcall_ok, wbind_returns. cbv beta.
  destruct (resp_items response) as [items |]; [| reflexivity].
  cbn [wlift]. rewrite wbind_wret.
  destruct (domains_named domain_name items) as [[| domain rest] | e];
    try reflexivity.
  cbn [wlift]. rewrite wbind_wret. cbn [wlift]. rewrite wbind_wret.
  destruct (subscript domain "id"); reflexivity.
Qed.

(** X3.  [get_domain_id] makes exactly one [list_domains] call, asking for
    one result, whatever happens next.  When every listed domain has a
    name, it returns the identifier of the first listed domain of the given
    name, and raises [IndexError] when no listed domain has that name
    (in particular when none is listed). *)
Theorem get_domain_id_first_named_or_IndexError :
  forall answer domain_name,
    snd (get_domain_id answer domain_name) = [EListDomains 1 "AVAILABLE"]
    /\ forall response items,
         answer = Ok response ->
         resp_items response = Some items ->
         forallb has_name items = true ->
         fst (get_domain_id answer domain_name)
         = match find (named domain_name) items with
           | Some domain =>
               match subscript domain "id" with
               | Ok domain_id => Returns domain_id
               | Raise e => Raises e
               end
           | None => Raises IndexError
           end.
Proof.
  intros answer domain_name. rewrite get_domain_id_run. split; [reflexivity |].
  intros response items -> Hitems Hnames. cbn [fst]. rewrite Hitems.
  rewrite (domains_named_filter _ _ Hnames), find_filter_head.
  destruct (filter (named domain_name) items); reflexivity.
Qed.

(** *** [list_project_ids] *)

(** [project] has the string identifier and the domain of [entry]. *)
Definition project_of (project : pyval) (entry : string * pyval) : Prop :=
  subscript project "id" = Ok (PStr (fst entry))
  /\ subscript project "domainId" = Ok (snd entry).

Lemma collect_projects_pages domain_id :
  forall (pages : list search_response) later acc,
    collect_projects domain_id (map Ok pages ++ later) acc
    = (fst (collect_projects domain_id later
              (acc ++ List.concat (map page_items pages))),
       map (fun _ => EListProjectsPage domain_id) pages
       ++ snd (collect_projects domain_id later
                 (acc ++ List.concat (map page_items pages)))).
Proof.
  induction pages as [| page pages IH]; intros later acc.
  - cbn. rewrite app_nil_r.
    destruct (collect_projects domain_id later acc); reflexivity.
  - cbn [map app collect_projects]. rewrite wcall_ok, wbind_returns.
    fold (page_items page). rewrite IH. cbn [fst snd map List.concat app].
    rewrite <- app_assoc. reflexivity.
Qed.

Lemma column_of_projects project_data :
  forall entries,
    Forall2 project_of project_data entries ->
    column_of "id" project_data = Ok (map (fun e => PStr (fst e)) entries)
    /\ column_of "domainId" project_data = Ok (map snd entries).
Proof.
  induction project_data as [| project more IH]; intros entries H.
  - inversion H; subst. split; reflexivity.
  - inversion H as [| ? entry ? entries' [Hid Hdom] Hrest]; subst.
    destruct (IH _ Hrest) as [H1 H2].
    cbn [column_of]. rewrite Hid, Hdom, H1, H2. split; reflexivity.
Qed.

Lemma dict_of_zip_entries (E : Type) (entries : pydict) :
  forall d,
    @dict_of_zip E (map (fun e => PStr (fst e)) entries) (map snd entries) d
    = (Returns (dict_update d entries), []).
Proof.
  induction entries as [| [k v] entries IH]; intros d; [reflexivity |].
  cbn [map dict_of_zip fst snd set_item]. rewrite wbind_wret.
  rewrite IH. reflexivity.
Qed.

(** X4.  [list_project_ids] fetches every page that the paginator yields
    and, when every listed project has a string identifier and a domain,
    returns the dictionary that binds each identifier to the domain of the
    last listed project with that identifier.  An error of a page is
    raised to the caller and the pages after it are not fetched. *)
Theorem list_project_ids_binds_ids_to_domains :
  forall domain_id (pages : list search_response),
    (forall entries,
        Forall2 project_of (List.concat (map page_items pages)) entries ->
        exists project_ids,
          list_project_ids domain_id (map Ok pages)
          = (Returns project_ids,
             map (fun _ => EListProjectsPage domain_id) pages)
          /\ forall k, dict_get k project_ids = last_binding k entries)
    /\ (forall e later,
          list_project_ids domain_id (map Ok pages ++ Raise e :: later)
          = (Raises e,
             map (fun _ => EListProjectsPage domain_id) pages
             ++ [EListProjectsPage domain_id])).
Proof.
  intros d pages. split.
  - intros entries H. exists (dict_update [] entries). split.
    + unfold list_project_ids.
      rewrite <- (app_nil_r (map Ok pages)), collect_projects_pages.
      cbn [collect_projects wret fst snd app]. rewrite app_nil_r.
      rewrite wbind_returns.
      destruct (column_of_projects _ _ H) as [H1 H2].
      rewrite H1. cbn [wlift]. rewrite wbind_wret, H2. cbn [wlift].
      rewrite wbind_wret, dict_of_zip_entries. cbn [fst snd].
      rewrite app_nil_r. reflexivity.
    + intros k. rewrite dict_get_update_last.
      destruct (last_binding k entries); reflexivity.
  - intros e later. unfold list_project_ids.
    rewrite collect_projects_pages. cbn [collect_projects].
    rewrite wcall_raise. reflexivity.
Qed.

(** *** [add_asset_description] *)

(** The revisions submitted along a wide trace. *)
Fixpoint wide_revisions (t : list event2) : list revision_request :=
  match t with
  | [] => []
  | Base (ECreateAssetRevision req) :: t' => req :: wide_revisions t'
  | _ :: t' => wide_revisions t'
  end.

(** The lines printed along a wide trace. *)
Fixpoint wide_prints (t : list event2) : list message2 :=
  match t with
  | [] => []
  | EPrint2 m :: t' => m :: wide_prints t'
  | _ :: t' => wide_prints t'
  end.

Section Description.

Variable json_dumps : pyval -> string.
Variable datazone : datazone_client.

Local Abbreviation add_asset_description :=
  (SmusRest.add_asset_description json_dumps datazone).
Local Abbreviation normalize_form := (Smus.normalize_form json_dumps).

Definition description_revision (domain_id asset_id name description : pyval)
    (actual_asset : asset) : revision_request :=
  {| req_domainIdentifier := domain_id;
     req_identifier := asset_id;
     req_name := name;
     req_formsInput := map normalize_form (fetched_forms actual_asset);
     req_description := description |}.

Lemma add_asset_description_run domain_id asset_id description actual_asset name :
  api_get_asset datazone domain_id asset_id = Ok actual_asset ->
  asset_name actual_asset = Some name ->
  add_asset_description domain_id asset_id description
  = let req := description_revision domain_id asset_id name description actual_asset in
    match api_create_asset_revision datazone req with
    | Ok _ =>
        (Returns tt,
         [Base (EGetAsset domain_id asset_id);
          Base (ECreateAssetRevision req);
          EPrint2 (if py_truthy (match asset_description actual_asset with
                                 | Some d => d
                                 | None => PNone
                                 end)
                   then MsgDescricaoSobrescrita name
                   else MsgDescricaoAdicionada name)])
    | Raise e =>
        (Raises e,
         [Base (EGetAsset domain_id asset_id); Base (ECreateAssetRevision req)])
    end.
Proof.
  intros Hget Hname. unfold SmusRest.add_asset_description, get_asset.
  rewrite Hget, call_ok. unfold widen at 1. cbn [fst snd map].
  rewrite wbind_returns, Hname. cbn [wlift]. rewrite wbind_wret.
  cbv zeta. unfold description_revision, fetched_forms.
  destruct (api_create_asset_revision datazone _) as [[] | e].
  - rewrite call_ok. unfold widen. cbn [fst snd map].
    rewrite wbind_returns.
    destruct (py_truthy _); reflexivity.
  - reflexivity.
Qed.

(** X5.  For an asset fetched with a name, [add_asset_description] submits
    exactly one revision.  It carries the fetched name, the description
    given by the caller -- whatever description the asset had: there is no
    overwrite guard -- and every fetched form, normalised, in the fetched
    order: no form is dropped or added.  The run ends as the submission
    does. *)
Theorem add_asset_description_replaces_description_keeps_forms :
  forall domain_id asset_id description actual_asset name,
    api_get_asset datazone domain_id asset_id = Ok actual_asset ->
    asset_name actual_asset = Some name ->
    exists req,
      wide_revisions (snd (add_asset_description domain_id asset_id description))
      = [req]
      /\ req_name req = name
      /\ req_description req = description
      /\ req_formsInput req = map normalize_form (fetched_forms actual_asset)
      /\ List.length (req_formsInput req)
         = List.length (fetched_forms actual_asset)
      /\ Forall normalized (req_formsInput req)
      /\ fst (add_asset_description domain_id asset_id description)
         = match api_create_asset_revision datazone req with
           | Ok _ => Returns tt
           | Raise e => Raises e
           end.
Proof.
  intros d a description actual_asset name Hget Hname.
  exists (description_revision d a name description actual_asset).
  rewrite (add_asset_description_run _ _ _ _ _ Hget Hname). cbv zeta.
  repeat split.
  - destruct (api_create_asset_revision datazone _); reflexivity.
  - cbn [description_revision req_formsInput]. apply length_map.
  - cbn [description_revision req_formsInput].
    induction (fetched_forms actual_asset) as [| f l IH]; constructor;
      [apply normalize_form_normalized | exact IH].
  - destruct (api_create_asset_revision datazone _) as [[] | e]; reflexivity.
Qed.

(** X6.  [add_asset_description] prints one line, and only once the
    revision has been accepted: "overwritten" when the fetched asset had a
    description that is true as a Python value, "added" otherwise (absent,
    [None] or the empty string).  When the run raises, nothing is printed,
    and no revision is submitted unless the asset was fetched with a
    name. *)
Theorem add_asset_description_reports_only_after_acceptance :
  forall domain_id asset_id description,
    let run := add_asset_description domain_id asset_id description in
    (forall e, fst run = Raises e ->
       wide_prints (snd run) = []
       /\ (wide_revisions (snd run) <> [] ->
           exists actual_asset name,
             api_get_asset datazone domain_id asset_id = Ok actual_asset
             /\ asset_name actual_asset = Some name))
    /\ (fst run = Returns tt ->
        exists actual_asset name,
          api_get_asset datazone domain_id asset_id = Ok actual_asset
          /\ asset_name actual_asset = Some name
          /\ wide_prints (snd run)
             = [if py_truthy (match asset_description actual_asset with
                              | Some d => d
                              | None => PNone
                              end)
                then MsgDescricaoSobrescrita name
                else MsgDescricaoAdicionada name]).
Proof.
  intros d a description run. subst run.
  destruct (api_get_asset datazone d a) as [actual_asset | e0] eqn:Hget.
  - destruct (asset_name actual_asset) as [name |] eqn:Hname.
    + rewrite (add_asset_description_run _ _ _ _ _ Hget Hname). cbv zeta.
      destruct (api_create_asset_revision datazone _) as [[] | e1]; split.
      * intros e H. discriminate.
      * intros _. exists actual_asset, name.
        split; [reflexivity | split; [exact Hname | reflexivity]].
      * intros e _. split; [reflexivity | intros _; eauto].
      * intros H. discriminate.
    + unfold SmusRest.add_asset_description, get_asset.
      rewrite Hget, call_ok. unfold widen. cbn [fst snd map].
      rewrite wbind_returns, Hname. split.
      * intros e _. split; [reflexivity | intros H; contradiction H; reflexivity].
      * intros H. discriminate.
  - unfold SmusRest.add_asset_description, get_asset. rewrite Hget. split.
    + intros e _. split; [reflexivity | intros H; contradiction H; reflexivity].
    + intros H. discriminate.
Qed.

End Description.

End SmusRestFacts.

(* ===================================================================== *)
(** * Part V -- further properties of the scripts of Part I                *)
(* ===================================================================== *)

(** The lines printed along a trace. *)
Fixpoint printed (t : trace) : list message :=
  match t with
  | [] => []
  | EPrint m :: t' => m :: printed t'
  | _ :: t' => printed t'
  end.

(** ** [add_metadata_form]: normalisation, insertion, reporting *)

Module UpsertFacts.
Import Smus DictFacts MergeFacts.

Section Upsert.

Variable json_loads : string -> option pyval.
Variable json_dumps : pyval -> string.
Variable datazone : datazone_client.

Local Abbreviation normalize_form := (Smus.normalize_form json_dumps).
Local Abbreviation parse_new_content := (Smus.parse_new_content json_loads).
Local Abbreviation merge_forms := (Smus.merge_forms json_loads json_dumps).
Local Abbreviation inserted_form := (MergeFacts.inserted_form json_dumps).
Local Abbreviation add_metadata_form :=
  (Smus.add_metadata_form json_loads json_dumps datazone).

(** X7.  What a normalised form binds, key by key: [typeName] is gone;
    [typeIdentifier] holds what [typeName] held if the form had one -- it
    replaces a type identifier that the form already had -- and is
    unchanged otherwise; a [content] that is a mapping has become its JSON
    text and any other content is unchanged; every other key is
    untouched. *)
Theorem normalize_form_lookup :
  forall (form : pydict) (k : string),
    dict_get k (normalize_form form)
    = if String.eqb k "typeName" then None
      else if String.eqb k "typeIdentifier" then
        match dict_get "typeName" form with
        | Some v => Some v
        | None => dict_get "typeIdentifier" form
        end
      else if String.eqb k "content" then
        match dict_get "content" form with
        | Some (PDict d) => Some (PStr (json_dumps (PDict d)))
        | other => other
        end
      else dict_get k form.
Proof.
  intros form k. unfold Smus.normalize_form.
  set (form1 := match dict_get "typeName" form with
                | Some v => dict_set "typeIdentifier" v (dict_pop "typeName" form)
                | None => form
                end).
  assert (H1 : forall k',
             dict_get k' form1
             = if String.eqb k' "typeName" then None
               else if String.eqb k' "typeIdentifier" then
                 match dict_get "typeName" form with
                 | Some v => Some v
                 | None => dict_get "typeIdentifier" form
                 end
               else dict_get k' form).
  { intros k'. unfold form1. destruct (String.eqb k' "typeName") eqn:E1.
    - apply String.eqb_eq in E1. subst k'.
      destruct (dict_get "typeName" form) eqn:E; [| exact E].
      rewrite dict_get_set_other by discriminate. apply dict_get_pop_same.
    - apply String.eqb_neq in E1.
      destruct (String.eqb k' "typeIdentifier") eqn:E2.
      + apply String.eqb_eq in E2. subst k'.
        destruct (dict_get "typeName" form);
          [apply dict_get_set_same | reflexivity].
      + apply String.eqb_neq in E2.
        destruct (dict_get "typeName" form); [| reflexivity].
        rewrite dict_get_set_other by exact E2.
        apply dict_get_pop_other. exact E1. }
  assert (Hc : dict_get "content" form1 = dict_get "content" form)
    by (rewrite H1; reflexivity).
  clearbody form1. rewrite Hc.
  destruct (dict_get "content" form) as [c |] eqn:Ec.
  - destruct c as [| b | n | s | xs | d];
      try (rewrite H1;
           destruct (String.eqb k "typeName"); [reflexivity |];
           destruct (String.eqb k "typeIdentifier"); [reflexivity |];
           destruct (String.eqb k "content") eqn:E3; [| reflexivity];
           apply String.eqb_eq in E3; subst k; exact Ec).
    destruct (String.eqb k "content") eqn:E3.
    + apply String.eqb_eq in E3. subst k. rewrite dict_get_set_same.
      reflexivity.
    + apply String.eqb_neq in E3. rewrite dict_get_set_other by exact E3.
      rewrite H1. reflexivity.
  - rewrite H1.
    destruct (String.eqb k "typeName"); [reflexivity |].
    destruct (String.eqb k "typeIdentifier"); [reflexivity |].
    destruct (String.eqb k "content") eqn:E3; [| reflexivity].
    apply String.eqb_eq in E3. subst k. exact Ec.
Qed.

(** X8.  When no fetched form has the candidate's type, the revision
    carries the normalised fetched forms followed by one new form, built
    from the candidate's [formName], its type and the JSON text of its
    content, whatever that content is (it need not be a mapping).  The
    candidate's [formName] is needed in this case only: without it the run
    raises [KeyError] after the asset was fetched, and submits nothing. *)
Theorem add_metadata_form_appends_form_of_new_type :
  forall domain_id asset_id cand actual_asset name new_content target,
    api_get_asset datazone domain_id asset_id = Ok actual_asset ->
    asset_name actual_asset = Some name ->
    parse_new_content cand = Ok new_content ->
    dict_get "typeIdentifier" cand = Some target ->
    no_form_of_type target (map normalize_form (fetched_forms actual_asset))
    = true ->
    match dict_get "formName" cand with
    | Some form_name =>
        revisions (snd (add_metadata_form domain_id asset_id cand))
        = [revision_of domain_id asset_id name
             (map normalize_form (fetched_forms actual_asset)
              ++ [inserted_form form_name target new_content])
             actual_asset]
    | None =>
        add_metadata_form domain_id asset_id cand
        = (Raises (KeyError "formName"), [EGetAsset domain_id asset_id])
    end.
Proof.
  intros d a cand actual_asset name new_content target Hget Hname Hparse Htype Hno.
  destruct (dict_get "formName" cand) as [form_name |] eqn:Hform.
  - rewrite add_metadata_form_revisions, Hget, Hname.
    unfold Smus.merge_forms. rewrite Hparse. cbn [rbind].
    unfold dict_item at 1. rewrite Htype. cbn [rbind].
    unfold Smus.upsert. rewrite (update_first_miss _ _ _ _ _ Hno). cbn [rbind].
    unfold dict_item. rewrite Hform. reflexivity.
  - unfold Smus.add_metadata_form, get_asset.
    rewrite Hget, call_ok, bind_returns, Hname. cbn [lift]. rewrite bind_ret.
    rewrite Hparse. cbn [lift]. rewrite bind_ret.
    unfold dict_item. rewrite Htype. cbn [lift]. rewrite bind_ret.
    unfold fetched_forms in Hno.
    unfold Smus.upsert. rewrite (update_first_miss _ _ _ _ _ Hno). cbn [rbind].
    unfold dict_item. rewrite Hform. cbn [rbind lift].
    unfold raise. rewrite bind_raises. reflexivity.
Qed.

(** X9.  [add_metadata_form] prints its line only once the revision has
    been accepted: a run that returns has fetched the asset, submitted one
    revision that the catalog accepted, and printed the line, in this
    order; a run that raises has printed nothing. *)
Theorem add_metadata_form_prints_only_after_acceptance :
  forall domain_id asset_id cand,
    let run := add_metadata_form domain_id asset_id cand in
    (fst run = Returns tt ->
     exists req target name,
       snd run = [EGetAsset domain_id asset_id;
                  ECreateAssetRevision req;
                  EPrint (MsgFormUpserted target name)]
       /\ api_create_asset_revision datazone req = Ok tt
       /\ dict_get "typeIdentifier" cand = Some target
       /\ req_name req = name)
    /\ (forall e, fst run = Raises e -> printed (snd run) = []).
Proof.
  intros d a cand run. subst run.
  destruct (api_get_asset datazone d a) as [actual_asset | e0] eqn:Hget.
  - destruct (asset_name actual_asset) as [name |] eqn:Hname.
    + destruct (merge_forms (fetched_forms actual_asset) cand) as [out | e1] eqn:Hm.
      * assert (Ht : exists target, dict_get "typeIdentifier" cand = Some target).
        { unfold Smus.merge_forms in Hm.
          destruct (parse_new_content cand); [| discriminate].
          cbn [rbind] in Hm. unfold dict_item in Hm.
          destruct (dict_get "typeIdentifier" cand); [eauto | discriminate]. }
        destruct Ht as [target Ht].
        rewrite (add_metadata_form_submits _ _ _ _ _ _ _ _ _ _ Hget Hname Ht Hm).
        destruct (api_create_asset_revision datazone _) as [[] | e1] eqn:Hrev;
          split.
        -- intros _. eexists _, target, name.
           split; [reflexivity | split; [exact Hrev | split; [exact Ht | reflexivity]]].
        -- intros e H. discriminate.
        -- intros H. discriminate.
        -- intros e _. reflexivity.
      * unfold Smus.add_metadata_form, get_asset.
        rewrite Hget, call_ok, bind_returns, Hname. cbn [lift]. rewrite bind_ret.
        unfold Smus.merge_forms, fetched_forms in Hm.
        destruct (parse_new_content cand) as [new_content | e'];
          [| split; [intros H; discriminate | intros e _; reflexivity]].
        cbn [rbind lift] in *. rewrite bind_ret.
        destruct (dict_item "typeIdentifier" cand) as [target | e'];
          [| split; [intros H; discriminate | intros e _; reflexivity]].
        cbn [rbind lift] in *. rewrite bind_ret. rewrite Hm.
        split; [intros H; discriminate | intros e _; reflexivity].
    + unfold Smus.add_metadata_form, get_asset.
      rewrite Hget, call_ok, bind_returns, Hname.
      split; [intros H; discriminate | intros e _; reflexivity].
  - unfold Smus.add_metadata_form, get_asset. rewrite Hget.
    split; [intros H; discriminate | intros e _; reflexivity].
Qed.

End Upsert.

End UpsertFacts.

(** ** [republish_asset.py]: errors while polling, and the counted loop *)

Module WatchFacts.
Import Smus Republish PollingFacts DriverFacts.


(** X10.  An error of [get_listing] does not reach the caller of
    [_aguardar_changeset_completion]: after polls that found a pending
    status, a poll that fails within the budget is printed and ends the
    wait with the timeout exception, without a further poll or sleep.
    [republicar_asset] then reports the timeout, not the error, and returns
    [False].  A response without a [status] is a pending one. *)
Theorem polling_error_is_reported_as_timeout :
  forall changeset_id domain_id timeout start_time
         (ts : list Z) (pending : list pydict) (now : Z) clock listings e,
    List.length ts = List.length pending ->
    Forall (within_budget timeout start_time) ts ->
    Forall (fun r => is_pending r = true) pending ->
    within_budget timeout start_time now ->
    let polls :=
      pending_rounds changeset_id domain_id (List.length pending)
      ++ [EGetListing domain_id changeset_id;
          EPrint (MsgErroVerificarStatus e)] in
    _aguardar_changeset_completion changeset_id domain_id timeout
      (start_time :: ts ++ now :: clock) (map Ok pending ++ Raise e :: listings)
    = (Raises timeout_error, polls)
    /\ (forall asset_id response,
          timeout = 300 ->
          dict_get "listingId" response = Some changeset_id ->
          republicar_asset asset_id domain_id
            {| env_change_set := Ok response;
               env_clock := start_time :: ts ++ now :: clock;
               env_get_listing := map Ok pending ++ Raise e :: listings |}
          = (Returns false,
             ECreateListingChangeSet domain_id asset_id
             :: polls ++ [EPrint (MsgErroRepublicar asset_id timeout_error)]))
    /\ (forall r, dict_get "status" r = None -> is_pending r = true).
Proof.
  intros c d timeout start ts pending now clock listings e Hlen Hts Hp Hnow polls.
  assert (Hwait :
            _aguardar_changeset_completion c d timeout
              (start :: ts ++ now :: clock) (map Ok pending ++ Raise e :: listings)
            = (Raises timeout_error, polls)).
  { unfold _aguardar_changeset_completion.
    rewrite (loop_through_pending c d timeout start ts pending _ _ Hlen Hts Hp).
    cbn [poll_loop]. unfold within_budget in Hnow. apply Z.ltb_lt in Hnow.
    rewrite Hnow, call_raise. reflexivity. }
  split; [exact Hwait |]. split.
  - intros asset_id response -> Hid. unfold republicar_asset.
    cbn [env_change_set env_clock env_get_listing].
    rewrite call_ok, bind_returns. unfold dict_item. rewrite Hid.
    cbn [lift]. rewrite bind_ret, Hwait. reflexivity.
  - intros r Hr. unfold is_pending, is_active, is_failed, status_of,
      dict_get_or_none. rewrite Hr. reflexivity.
Qed.


(** The verdict lines of [main]: the asset and whether it was republished. *)
Definition verdicts (t : trace) : list (pyval * bool) :=
  flat_map (fun m => match m with
                     | MsgRepublicado a => [(a, true)]
                     | MsgFalha a => [(a, false)]
                     | _ => []
                     end) (reports t).

(** The progress lines of [main]: the count and the total. *)
Definition progress (t : trace) : list (nat * nat) :=
  flat_map (fun m => match m with
                     | MsgProgresso c n => [(c, n)]
                     | _ => []
                     end) (reports t).

(** The lines that the counted loop prints for assets with the given
    verdicts, the count being [count] when it reaches the first of them. *)
Fixpoint lines_for (count total : nat) (outcomes : list (pyval * bool))
  : list message :=
  match outcomes with
  | [] => []
  | (asset_id, true) :: more =>
      MsgProgresso (S count) total :: MsgRepublicado asset_id
      :: lines_for (S count) total more
  | (asset_id, false) :: more =>
      MsgFalha asset_id :: lines_for count total more
  end.

(** The number of assets with the verdict [True]. *)
Definition successes (outcomes : list (pyval * bool)) : nat :=
  List.length (filter snd outcomes).

Lemma verdicts_of_lines (t : trace) count total outcomes :
  reports t = lines_for count total outcomes -> verdicts t = outcomes.
Proof.
  unfold verdicts. intros ->. revert count.
  induction outcomes as [| [a []] more IH]; intros count; cbn; [reflexivity | |];
    rewrite IH; reflexivity.
Qed.

Lemma progress_of_lines (t : trace) count total outcomes :
  reports t = lines_for count total outcomes ->
  progress t = map (fun c => (c, total)) (seq (S count) (successes outcomes)).
Proof.
  unfold progress, successes. intros ->. revert count.
  induction outcomes as [| [a []] more IH]; intros count; cbn; [reflexivity | |];
    rewrite IH; reflexivity.
Qed.

(** X12.  Given one script per asset, each covering its run, the counted
    loop of [main] returns, and what it prints and returns is fixed by the
    verdicts of its [republicar_asset] calls, one per asset in listing
    order: for an asset republished, the progress line with the count
    raised by one, then the success line; for an asset that failed, the
    failure line alone, the count unchanged.  The returned count is the
    initial count plus the number of assets republished.  So every asset is
    reported exactly once, and the progress counts go up one by one from
    the initial count to the returned one. *)
Theorem main_loop_reports_each_asset_once :
  forall domain_id total todo envs count,
    List.length envs = List.length todo ->
    forallb covers_a_run envs = true ->
    exists oks final t,
      main_loop domain_id total todo envs count = (Returns final, t)
      /\ List.length oks = List.length todo
      /\ Forall2 (fun outcome env =>
                    fst (republicar_asset (fst outcome) domain_id env)
                    = Returns (snd outcome))
                 (combine todo oks) envs
      /\ reports t = lines_for count total (combine todo oks)
      /\ final = (count + successes (combine todo oks))%nat
      /\ map fst (verdicts t) = todo
      /\ Forall2 (fun v env =>
                    fst (republicar_asset (fst v) domain_id env)
                    = Returns (snd v))
                 (verdicts t) envs
      /\ progress t
         = map (fun c => (c, total)) (seq (S count) (final - count))
      /\ (count <= final <= count + List.length todo)%nat.
Proof.
  intros d total todo envs count Hlen Hcov.
  assert (Hmain : exists oks final t,
             main_loop d total todo envs count = (Returns final, t)
             /\ List.length oks = List.length todo
             /\ Forall2 (fun outcome env =>
                           fst (republicar_asset (fst outcome) d env)
                           = Returns (snd outcome))
                        (combine todo oks) envs
             /\ reports t = lines_for count total (combine todo oks)
             /\ final = (count + successes (combine todo oks))%nat).
  { revert envs count Hlen Hcov.
    induction todo as [| a todo IH]; intros envs count Hlen Hcov.
    - destruct envs; [| discriminate]. exists [], count, []. cbn.
      repeat split; try constructor. unfold successes. cbn. lia.
    - destruct envs as [| env envs]; [discriminate |].
      cbn [forallb] in Hcov. apply andb_prop in Hcov as [Henv Hcov].
      injection Hlen as Hlen. cbn [main_loop].
      pose proof (republicar_asset_trace a d env) as (_ & P2 & _).
      destruct (republicar_asset_returns a d env Henv) as (b & t0 & E0).
      rewrite E0 in P2 |- *. cbn [snd] in P2. rewrite bind_returns.
      destruct b; cbn [print emit bind].
      + destruct (IH envs (S count) Hlen Hcov)
          as (oks & final & t & -> & Hl & Hf & Hr & Hc).
        cbn [fst snd app]. exists (true :: oks), final. eexists.
        split; [reflexivity |]. split; [cbn; rewrite Hl; reflexivity |].
        split; [| split].
        * cbn [combine]. constructor; [cbn [fst snd]; rewrite E0; reflexivity
                                      | exact Hf].
        * rewrite reports_app, P2. cbn [app reports combine lines_for].
          rewrite Hr. reflexivity.
        * rewrite Hc. unfold successes. cbn [combine filter snd List.length]. lia.
      + destruct (IH envs count Hlen Hcov)
          as (oks & final & t & -> & Hl & Hf & Hr & Hc).
        cbn [fst snd app]. exists (false :: oks), final. eexists.
        split; [reflexivity |]. split; [cbn; rewrite Hl; reflexivity |].
        split; [| split].
        * cbn [combine]. constructor; [cbn [fst snd]; rewrite E0; reflexivity
                                      | exact Hf].
        * rewrite reports_app, P2. cbn [app reports combine lines_for].
          rewrite Hr. reflexivity.
        * rewrite Hc. unfold successes. cbn [combine filter snd]. reflexivity. }
  destruct Hmain as (oks & final & t & Hrun & Hl & Hf & Hr & Hc).
  exists oks, final, t.
  pose proof (verdicts_of_lines t count total _ Hr) as Hv.
  assert (Hfst : map fst (combine todo oks) = todo).
  { clear - Hl. revert oks Hl. induction todo as [| a todo IH]; intros oks Hl.
    - reflexivity.
    - destruct oks as [| o oks]; [discriminate |]. cbn. f_equal.
      apply IH. injection Hl as Hl. exact Hl. }
  assert (Hle : (successes (combine todo oks) <= List.length todo)%nat).
  { unfold successes. rewrite <- Hfst at 2. rewrite length_map.
    apply filter_length_le. }
  split; [exact Hrun |]. split; [exact Hl |]. split; [exact Hf |].
  split; [exact Hr |]. split; [exact Hc |].
  split; [rewrite Hv; exact Hfst |]. split; [rewrite Hv; exact Hf |].
  split; [| lia].
  rewrite (progress_of_lines t count total _ Hr).
  replace (final - count)%nat with (successes (combine todo oks)) by lia.
  reflexivity.
Qed.

End WatchFacts.

(** ** [backup_metadata.py]: what is written, and when *)

Module ArchiveFacts.
Import Smus DictFacts BackupFacts.

(** The frames written along a trace, with their paths. *)
Fixpoint csv_writes (t : trace) : list (pyval * DataFrame) :=
  match t with
  | [] => []
  | EToCsv path df :: t' => (path, df) :: csv_writes t'
  | _ :: t' => csv_writes t'
  end.

(** The assets fetched along a trace. *)
Fixpoint fetched (t : trace) : list pyval :=
  match t with
  | [] => []
  | EGetAsset _ asset_id :: t' => asset_id :: fetched t'
  | _ :: t' => fetched t'
  end.

Definition no_write (ev : event) : bool :=
  match ev with EToCsv _ _ => false | _ => true end.

Definition no_fetch (ev : event) : bool :=
  match ev with EGetAsset _ _ => false | _ => true end.

Lemma csv_writes_app (t u : trace) :
  csv_writes (t ++ u) = csv_writes t ++ csv_writes u.
Proof.
  induction t as [| ev t IH]; [reflexivity |].
  destruct ev; simpl; rewrite IH; reflexivity.
Qed.

Lemma fetched_app (t u : trace) : fetched (t ++ u) = fetched t ++ fetched u.
Proof.
  induction t as [| ev t IH]; [reflexivity |].
  destruct ev; simpl; rewrite IH; reflexivity.
Qed.

Lemma no_write_trace (t : trace) : forallb no_write t = true -> csv_writes t = [].
Proof.
  induction t as [| ev t IH]; [reflexivity |].
  simpl. intros H. apply andb_prop in H as [Hev Ht].
  destruct ev; try discriminate; simpl; auto.
Qed.

Lemma no_fetch_trace (t : trace) : forallb no_fetch t = true -> fetched t = [].
Proof.
  induction t as [| ev t IH]; [reflexivity |].
  simpl. intros H. apply andb_prop in H as [Hev Ht].
  destruct ev; try discriminate; simpl; auto.
Qed.

(** A computation all of whose events satisfy [P]. *)
Definition quiet {A} (P : event -> bool) (m : M A) : Prop :=
  forallb P (snd m) = true.

Lemma quiet_bind {A B} (P : event -> bool) (m : M A) (k : A -> M B) :
  quiet P m -> (forall a, quiet P (k a)) -> quiet P (bind m k).
Proof.
  unfold quiet. intros Hm Hk. destruct m as [[a | e |] t]; cbn in *; auto.
  specialize (Hk a). destruct (k a) as [o t']. cbn in *.
  rewrite forallb_app, Hm, Hk. reflexivity.
Qed.

Lemma quiet_lift {A} (P : event -> bool) (r : result A) : quiet P (lift r).
Proof. destruct r; reflexivity. Qed.

Section Archive.

Variable json_loads : string -> option pyval.
Variable datazone : datazone_client.

Local Abbreviation filter_content_output := (Smus.filter_content_output json_loads).
Local Abbreviation create_metadata_df := (Smus.create_metadata_df json_loads).
Local Abbreviation backup_loop := (Smus.backup_loop json_loads datazone).
Local Abbreviation backup_main := (Smus.backup_main json_loads datazone).
Local Abbreviation all_readable := (BackupFacts.all_readable json_loads datazone).

Lemma filter_content_output_quiet P asset_data form_name :
  (forall m, P (EPrint m) = true) ->
  quiet P (filter_content_output asset_data form_name).
Proof.
  intros HP. unfold Smus.filter_content_output.
  apply quiet_bind; [apply quiet_lift | intros content].
  apply quiet_bind; [apply quiet_lift | intros content_filter].
  apply quiet_bind.
  - destruct content_filter as [| first rest]; [| apply quiet_lift].
    unfold quiet. cbn. rewrite HP. reflexivity.
  - intros []; reflexivity.
Qed.

Lemma create_metadata_df_quiet P asset_data :
  (forall m, P (EPrint m) = true) -> quiet P (create_metadata_df asset_data).
Proof.
  intros HP. unfold Smus.create_metadata_df.
  repeat (apply quiet_bind; [apply filter_content_output_quiet, HP | intros ?]).
  reflexivity.
Qed.

Lemma list_assets_ids_loop_quiet P domain_id project_id :
  (forall params, P (ESearch params) = true) ->
  forall pages next_token acc,
    quiet P (list_assets_ids_loop domain_id project_id pages next_token acc).
Proof.
  intros HP. induction pages as [| page pages IH]; intros tok acc; [reflexivity |].
  cbn [list_assets_ids_loop].
  apply quiet_bind.
  - unfold quiet. destruct page; cbn; rewrite HP; reflexivity.
  - intros response. apply quiet_bind; [apply quiet_lift | intros ids].
    destruct (negb _); [reflexivity | apply IH].
Qed.

Lemma backup_loop_no_write domain_id :
  forall assets_ids df_metadata,
    quiet no_write (backup_loop domain_id assets_ids df_metadata).
Proof.
  induction assets_ids as [| asset_id more IH]; intros acc; [reflexivity |].
  cbn [Smus.backup_loop].
  apply quiet_bind.
  - unfold quiet, get_asset.
    destruct (api_get_asset datazone domain_id asset_id); reflexivity.
  - intros asset_data. apply quiet_bind.
    + apply create_metadata_df_quiet. reflexivity.
    + intros df. apply IH.
Qed.

(** X13.  The backup writes its file all or nothing: a run that returns
    has written exactly one frame, to the given path, as its last action;
    a run that does not return -- the listing failed, an asset could not
    be fetched or one of its forms could not be read -- has written
    nothing. *)
Theorem backup_writes_csv_only_on_success :
  forall domain_id project_id output_csv pages,
    let run := backup_main domain_id project_id output_csv pages in
    (fst run = Returns tt ->
     exists t df,
       snd run = t ++ [EToCsv output_csv df] /\ csv_writes t = [])
    /\ (fst run <> Returns tt -> csv_writes (snd run) = []).
Proof.
  intros d p csv pages run. subst run. unfold Smus.backup_main.
  pose proof (list_assets_ids_loop_quiet no_write d p (fun _ => eq_refl)
                pages PNone []) as Hl.
  fold (list_assets_ids d p pages) in Hl.
  destruct (list_assets_ids d p pages) as [[assets_ids | e |] tl];
    unfold quiet in Hl; cbn [snd] in Hl;
    try (split; [discriminate | intros _; apply no_write_trace, Hl]).
  rewrite bind_returns.
  pose proof (backup_loop_no_write d assets_ids empty_frame) as Hb.
  destruct (backup_loop d assets_ids empty_frame) as [[df | e |] tb];
    unfold quiet in Hb; cbn [snd] in Hb;
    try (split; [discriminate |
                 intros _; cbn; rewrite csv_writes_app,
                   (no_write_trace _ Hl), (no_write_trace _ Hb); reflexivity]).
  rewrite bind_returns. cbn [emit fst snd]. split.
  - intros _. exists (tl ++ tb), df. split.
    + rewrite app_assoc. reflexivity.
    + rewrite csv_writes_app, (no_write_trace _ Hl), (no_write_trace _ Hb).
      reflexivity.
  - intros H. contradiction H. reflexivity.
Qed.

(** X14.  A frame returned by [create_metadata_df] has one row and a
    description column, whose cell holds the description of the asset as
    fetched -- [None] included -- and the empty string when the asset has
    no description key.  A description read from the forms under the same
    label is overwritten. *)
Theorem create_metadata_df_description_column :
  forall asset_data df t,
    create_metadata_df asset_data = (Returns df, t) ->
    List.length (rows df) = 1%nat
    /\ In "Descrição" (columns df)
    /\ cell df 0 "Descrição"
       = Some (match asset_description asset_data with
               | Some description => description
               | None => PStr ""
               end).
Proof.
  intros asset_data df t H.
  pose proof (create_metadata_df_one_row _ _ _ _ H) as [Hlen _].
  split; [exact Hlen |].
  unfold Smus.create_metadata_df in H.
  destruct (filter_content_output asset_data "seguranca_privacidade")
    as [[df1 | e |] t1]; try discriminate.
  rewrite bind_returns in H.
  destruct (filter_content_output asset_data "dominio_de_dados")
    as [[df2 | e |] t2]; try discriminate.
  rewrite bind_returns in H.
  destruct (filter_content_output asset_data "GlueTableForm")
    as [[df3 | e |] t3]; try discriminate.
  rewrite bind_returns in H. cbn [ret fst snd] in H. injection H as <- _.
  match goal with
  | |- context [set_column ?c ?v ?y] => generalize dependent y
  end.
  intros x Hlen.
  unfold set_column in *. cbn [rows columns] in *. rewrite length_map in Hlen.
  split.
  - unfold has_column.
    destruct (existsb (String.eqb "Descrição") (columns x)) eqn:E.
    + apply existsb_exists in E as (c & Hc & Ec).
      apply String.eqb_eq in Ec. subst c. exact Hc.
    + apply in_or_app. right. left. reflexivity.
  - unfold cell. cbn [rows].
    destruct (rows x) as [| r rs]; [discriminate |].
    cbn [map nth_error]. apply dict_get_set_same.
Qed.

(** The loop over assets that can all be fetched and read goes on with
    the assets that follow. *)
Lemma backup_loop_through_readable domain_id rest :
  forall pre df_metadata,
    all_readable domain_id pre = true ->
    exists df t,
      fetched t = pre
      /\ forallb no_write t = true
      /\ backup_loop domain_id (pre ++ rest) df_metadata
         = (fst (backup_loop domain_id rest df),
            t ++ snd (backup_loop domain_id rest df)).
Proof.
  induction pre as [| asset_id pre IH]; intros acc H.
  - exists acc, []. repeat split. cbn.
    destruct (backup_loop domain_id rest acc); reflexivity.
  - cbn [BackupFacts.all_readable forallb] in H. apply andb_prop in H as [Ha Hpre].
    cbn [app Smus.backup_loop]. unfold get_asset.
    destruct (api_get_asset datazone domain_id asset_id) as [asset_data | e];
      [| discriminate].
    rewrite call_ok, bind_returns.
    pose proof (create_metadata_df_quiet no_fetch asset_data (fun _ => eq_refl))
      as Hq1.
    pose proof (create_metadata_df_quiet no_write asset_data (fun _ => eq_refl))
      as Hq2.
    destruct (create_metadata_df_returns json_loads _ Ha) as (df & tr & E).
    rewrite E in *. unfold quiet in Hq1, Hq2. cbn [snd] in Hq1, Hq2.
    rewrite bind_returns. cbn [fst snd].
    destruct (IH (concat acc df) Hpre) as (df' & t & Hf & Hw & ->).
    cbn [fst snd]. exists df', (EGetAsset domain_id asset_id :: tr ++ t).
    repeat split.
    + cbn [fetched]. rewrite fetched_app, (no_fetch_trace _ Hq1), Hf. reflexivity.
    + cbn [forallb no_write]. rewrite forallb_app, Hq2, Hw. reflexivity.
    + cbn [app]. rewrite <- app_assoc. reflexivity.
Qed.

(** How the work on one asset fails: it cannot be fetched, or it is
    fetched and the extraction of its forms raises. *)
Definition fails_with (domain_id asset_id : pyval) (e : exn) : Prop :=
  match api_get_asset datazone domain_id asset_id with
  | Raise e' => e' = e
  | Ok asset_data => fst (create_metadata_df asset_data) = Raises e
  end.

(** X15.  The backup stops at the first asset that fails: when the assets
    listed before it can all be fetched and read, the run raises the error
    of that asset -- an unreadable form content is not skipped -- having
    fetched the assets up to it and none after it, and it writes no
    file. *)
Theorem backup_stops_at_first_failing_asset :
  forall domain_id project_id output_csv pages pre bad post tl e,
    list_assets_ids domain_id project_id pages = (Returns (pre ++ bad :: post), tl) ->
    all_readable domain_id pre = true ->
    fails_with domain_id bad e ->
    let run := backup_main domain_id project_id output_csv pages in
    fst run = Raises e
    /\ fetched (snd run) = pre ++ [bad]
    /\ csv_writes (snd run) = [].
Proof.
  intros d p csv pages pre bad post tl e Hlist Hpre Hbad run. subst run.
  assert (Htl : fetched tl = [] /\ csv_writes tl = []).
  { pose proof (list_assets_ids_loop_quiet no_fetch d p (fun _ => eq_refl)
                  pages PNone []) as H1.
    pose proof (list_assets_ids_loop_quiet no_write d p (fun _ => eq_refl)
                  pages PNone []) as H2.
    unfold list_assets_ids in Hlist. rewrite Hlist in H1, H2.
    split; [apply no_fetch_trace, H1 | apply no_write_trace, H2]. }
  destruct Htl as [Tf Tw].
  unfold Smus.backup_main. rewrite Hlist, bind_returns.
  destruct (backup_loop_through_readable d (bad :: post) pre empty_frame Hpre)
    as (df & t & Hf & Hw & ->).
  cbn [fst snd].
  assert (Hstep : exists tr,
             backup_loop d (bad :: post) df
             = (Raises e, EGetAsset d bad :: tr)
             /\ fetched tr = [] /\ csv_writes tr = []).
  { cbn [Smus.backup_loop]. unfold get_asset. unfold fails_with in Hbad.
    destruct (api_get_asset datazone d bad) as [asset_data | e'].
    - rewrite call_ok, bind_returns.
      pose proof (create_metadata_df_quiet no_fetch asset_data (fun _ => eq_refl))
        as Hq1.
      pose proof (create_metadata_df_quiet no_write asset_data (fun _ => eq_refl))
        as Hq2.
      destruct (create_metadata_df asset_data) as [o tr].
      cbn [fst] in Hbad. subst o. unfold quiet in Hq1, Hq2. cbn [snd] in Hq1, Hq2.
      exists tr. cbn. repeat split;
        [apply no_fetch_trace, Hq1 | apply no_write_trace, Hq2].
    - subst e'. exists []. repeat split. }
  destruct Hstep as (tr & -> & Hf' & Hw').
  cbn [fst snd bind]. repeat split.
  - rewrite !fetched_app, Tf, Hf. cbn [fetched app]. rewrite Hf'. reflexivity.
  - rewrite !csv_writes_app, Tw, (no_write_trace _ Hw). cbn [csv_writes app].
    exact Hw'.
Qed.

End Archive.

End ArchiveFacts.

(** ** [list_assets_ids] and the glossary writers: the remaining cases *)

Module EdgeFacts.
Import Smus ListerFacts.



(** X17.  When the creation call succeeds, [add_glossary] and
    [add_glossary_term] print the "added" line and return.  When it fails
    with an exception that is no client error, that exception is raised to
    the caller unchanged and nothing is printed. *)
Theorem glossary_writers_report_success_pass_foreign_errors :
  forall datazone domain_id project_id glossary_name glossary_id term_name
         description readme,
    let greq := GlossaryFacts.glossary_request domain_id project_id glossary_name in
    let treq :=
      GlossaryFacts.term_request domain_id glossary_id term_name description readme in
    (api_create_glossary datazone greq = Ok tt ->
     add_glossary datazone domain_id project_id glossary_name
     = (Returns tt, [ECreateGlossary greq; EPrint (MsgGlossaryAdded glossary_name)]))
    /\ (forall e, (forall code, e <> ClientError code) ->
        api_create_glossary datazone greq = Raise e ->
        add_glossary datazone domain_id project_id glossary_name
        = (Raises e, [ECreateGlossary greq]))
    /\ (api_create_glossary_term datazone treq = Ok tt ->
        add_glossary_term datazone domain_id glossary_id term_name description readme
        = (Returns tt, [ECreateGlossaryTerm treq; EPrint (MsgTermAdded term_name)]))
    /\ (forall e, (forall code, e <> ClientError code) ->
        api_create_glossary_term datazone treq = Raise e ->
        add_glossary_term datazone domain_id glossary_id term_name description readme
        = (Raises e, [ECreateGlossaryTerm treq])).
Proof.
  intros dz d p g gid tn ds rd greq treq. subst greq treq.
  unfold GlossaryFacts.glossary_request, GlossaryFacts.term_request.
  unfold add_glossary, add_glossary_term. cbv zeta.
  repeat split.
  - intros H. rewrite H. reflexivity.
  - intros e Hne H. rewrite H.
    destruct e; try reflexivity. exfalso. apply (Hne code). reflexivity.
  - intros H. rewrite H. reflexivity.
  - intros e Hne H. rewrite H.
    destruct e; try reflexivity. exfalso. apply (Hne code). reflexivity.
Qed.

End EdgeFacts.

(* ===================================================================== *)
(** * Part VI -- further concrete runs                                     *)
(* ===================================================================== *)

Module MoreScenarios.
Import Smus Republish SmusRest.
Import MergeFacts ListerFacts PollingFacts DriverFacts BackupFacts.
Import SmusRestFacts UpsertFacts WatchFacts ArchiveFacts EdgeFacts.
Import Scenarios.

(** *** The listers of glossaries, domains and projects *)

Definition glossary_item (name gid : string) : pyval :=
  PDict [("glossaryItem", PDict [("name", PStr name); ("id", PStr gid)])].

Definition glossaries_1 : search_response :=
  {| resp_items := Some [glossary_item "PII" "g_1"; glossary_item "Finance" "g_2"];
     resp_nextToken := Some (PStr "t1") |}.

(** The second page lists a second glossary named [PII]. *)
Definition glossaries_2 : search_response :=
  {| resp_items := Some [glossary_item "PII" "g_3"]; resp_nextToken := None |}.

Lemma X2_second_PII_glossary_wins :
  exists glossary_dict,
    list_glossary_ids dzd prj [Ok glossaries_1; Ok glossaries_2]
    = (Returns glossary_dict,
       [ESearch (glossary_search_request dzd prj PNone);
        ESearch (glossary_search_request dzd prj (PStr "t1"))])
    /\ dict_get "PII" glossary_dict = Some (PStr "g_3")
    /\ dict_get "Finance" glossary_dict = Some (PStr "g_2")
    /\ dict_get "Sales" glossary_dict = None.
Proof.
  destruct (list_glossary_ids_last_listed_wins dzd prj
              [glossaries_1] glossaries_2
              [[("PII", PStr "g_1"); ("Finance", PStr "g_2")]]
              [("PII", PStr "g_3")])
    as (glossary_dict & Hrun & Hget).
  - repeat constructor.
  - reflexivity.
  - repeat constructor.
  - exists glossary_dict. split; [exact Hrun |].
    rewrite !Hget. repeat split.
Defined.

Definition domain (name id : string) : pyval :=
  PDict [("name", PStr name); ("id", PStr id)].

Definition listed_domains : search_response :=
  {| resp_items := Some [domain "hr" "dzd_2"; domain "sales" "dzd_1";
                         domain "sales" "dzd_3"];
     resp_nextToken := None |}.

Lemma X3_first_sales_domain_and_unknown_domain :
  snd (get_domain_id (Ok listed_domains) (PStr "sales"))
  = [EListDomains 1 "AVAILABLE"]
  /\ fst (get_domain_id (Ok listed_domains) (PStr "sales"))
     = Returns (PStr "dzd_1")
  /\ fst (get_domain_id (Ok listed_domains) (PStr "ops")) = Raises IndexError
  /\ fst (get_domain_id (Ok empty_page) (PStr "sales"))
     = Raises (KeyError "items").
Proof.
  destruct (get_domain_id_first_named_or_IndexError (Ok listed_domains)
              (PStr "sales")) as [Hcall Hsales].
  destruct (get_domain_id_first_named_or_IndexError (Ok listed_domains)
              (PStr "ops")) as [_ Hops].
  split; [exact Hcall |]. split; [| split].
  - exact (Hsales listed_domains _ eq_refl eq_refl eq_refl).
  - exact (Hops listed_domains _ eq_refl eq_refl eq_refl).
  - reflexivity.
Defined.

Definition project_item (id domain_id : string) : pyval :=
  PDict [("id", PStr id); ("domainId", PStr domain_id)].

Definition projects_1 : search_response :=
  {| resp_items := Some [project_item "prj_1" "dzd_1"; project_item "prj_2" "dzd_1"];
     resp_nextToken := None |}.

Definition projects_2 : search_response :=
  {| resp_items := Some [project_item "prj_3" "dzd_1"]; resp_nextToken := None |}.

Lemma X4_three_projects_and_a_failing_page :
  (exists project_ids,
      list_project_ids dzd [Ok projects_1; Ok projects_2]
      = (Returns project_ids, [EListProjectsPage dzd; EListProjectsPage dzd])
      /\ dict_get "prj_3" project_ids = Some (PStr "dzd_1")
      /\ dict_get "prj_9" project_ids = None)
  /\ list_project_ids dzd
       [Ok projects_1; Raise (ClientError "ThrottlingException"); Ok projects_2]
     = (Raises (ClientError "ThrottlingException"),
        [EListProjectsPage dzd; EListProjectsPage dzd]).
Proof.
  split.
  - destruct (list_project_ids_binds_ids_to_domains dzd [projects_1; projects_2])
      as [Hreturns _].
    destruct (Hreturns [("prj_1", PStr "dzd_1"); ("prj_2", PStr "dzd_1");
                        ("prj_3", PStr "dzd_1")])
      as (project_ids & Hrun & Hget).
    + repeat constructor.
    + exists project_ids. split; [exact Hrun |]. rewrite !Hget. split; reflexivity.
  - destruct (list_project_ids_binds_ids_to_domains dzd [projects_1])
      as [_ Hraises].
    exact (Hraises (ClientError "ThrottlingException") [Ok projects_2]).
Defined.

(** *** [add_asset_description] *)

(** An asset in the legacy shape: [typeName] and a mapping as content. *)
Definition legacy_form : pydict :=
  [("formName", PStr "ownership");
   ("typeName", PStr "ownership");
   ("content", PDict owner_A)].

Definition legacy_asset : asset :=
  {| asset_name := Some (PStr "orders");
     asset_description := Some (PStr "Orders table");
     asset_formsOutput := Some [legacy_form; ownership_form] |}.

Lemma X5_description_replaced_two_forms_kept :
  exists req,
    wide_revisions
      (snd (add_asset_description Json.dumps (serving legacy_asset)
              dzd asset1 (PStr "All orders")))
    = [req]
    /\ req_name req = PStr "orders"
    /\ req_description req = PStr "All orders"
    /\ req_formsInput req
       = [[("formName", PStr "ownership");
           ("content", text_of (PDict owner_A));
           ("typeIdentifier", PStr "ownership")];
          ownership_form]
    /\ fst (add_asset_description Json.dumps (serving legacy_asset)
              dzd asset1 (PStr "All orders"))
       = Returns tt.
Proof.
  destruct (add_asset_description_replaces_description_keeps_forms
              Json.dumps (serving legacy_asset) dzd asset1 (PStr "All orders")
              legacy_asset (PStr "orders") eq_refl eq_refl)
    as (req & Hrev & Hname & Hdesc & Hforms & _ & _ & Hend).
  exists req.
  split; [exact Hrev |]. split; [exact Hname |]. split; [exact Hdesc |].
  split; [exact Hforms | rewrite Hend; reflexivity].
Defined.

Lemma X6_overwritten_added_and_refused :
  (exists actual_asset name,
      api_get_asset (serving orders) dzd asset1 = Ok actual_asset
      /\ asset_name actual_asset = Some name
      /\ wide_prints
           (snd (add_asset_description Json.dumps (serving orders)
                   dzd asset1 (PStr "All orders")))
         = [MsgDescricaoSobrescrita (PStr "orders")])
  /\ wide_prints
       (snd (add_asset_description Json.dumps
               (refusing orders "AccessDeniedException")
               dzd asset1 (PStr "All orders")))
     = [].
Proof.
  split.
  - destruct (add_asset_description_reports_only_after_acceptance
                Json.dumps (serving orders) dzd asset1 (PStr "All orders"))
      as [_ Hreturns].
    destruct (Hreturns eq_refl) as (actual_asset & name & Hget & Hname & Hp).
    exists actual_asset, name. split; [exact Hget |]. split; [exact Hname |].
    rewrite Hp. injection Hget as <-. injection Hname as <-. reflexivity.
  - destruct (add_asset_description_reports_only_after_acceptance
                Json.dumps (refusing orders "AccessDeniedException")
                dzd asset1 (PStr "All orders"))
      as [Hraises _].
    destruct (Hraises (ClientError "AccessDeniedException") eq_refl) as [H _].
    exact H.
Defined.

(** *** [add_metadata_form] *)

(** A candidate of a new type with no [formName]. *)
Definition nameless_candidate : pydict :=
  [("typeIdentifier", PStr "tags"); ("content", PDict [("tag", PStr "gold")])].

Lemma X8_list_content_appended_nameless_candidate_refused :
  revisions (snd (run_add (serving orders) list_candidate))
  = [revision_of dzd asset1 (PStr "orders")
       [ownership_form; form "tags" "tags" (text_of (PList [PInt 1; PInt 2]))]
       orders]
  /\ run_add (serving orders) nameless_candidate
     = (Raises (KeyError "formName"), [EGetAsset dzd asset1]).
Proof.
  split.
  - exact (add_metadata_form_appends_form_of_new_type Json.loads Json.dumps
             (serving orders) dzd asset1 list_candidate orders (PStr "orders")
             (PList [PInt 1; PInt 2]) (PStr "tags")
             eq_refl eq_refl eq_refl eq_refl eq_refl).
  - exact (add_metadata_form_appends_form_of_new_type Json.loads Json.dumps
             (serving orders) dzd asset1 nameless_candidate orders (PStr "orders")
             (PDict [("tag", PStr "gold")]) (PStr "tags")
             eq_refl eq_refl eq_refl eq_refl eq_refl).
Defined.

Lemma X9_accepted_then_printed_refused_then_silent :
  (exists req target name,
      snd (run_add (serving orders) ownership_candidate)
      = [EGetAsset dzd asset1;
         ECreateAssetRevision req;
         EPrint (MsgFormUpserted target name)]
      /\ api_create_asset_revision (serving orders) req = Ok tt
      /\ dict_get "typeIdentifier" ownership_candidate = Some target
      /\ req_name req = name)
  /\ printed (snd (run_add (refusing orders "AccessDeniedException")
                     ownership_candidate))
     = [].
Proof.
  split.
  - destruct (add_metadata_form_prints_only_after_acceptance Json.loads Json.dumps
                (serving orders) dzd asset1 ownership_candidate)
      as [Hreturns _].
    exact (Hreturns eq_refl).
  - destruct (add_metadata_form_prints_only_after_acceptance Json.loads Json.dumps
                (refusing orders "AccessDeniedException")
                dzd asset1 ownership_candidate)
      as [_ Hraises].
    exact (Hraises (ClientError "AccessDeniedException") eq_refl).
Defined.

(** *** The republisher *)

(** A response of [get_listing] that carries no status. *)
Definition statusless : pydict := [("listingId", changeset)].

Lemma X10_throttled_poll_ends_as_timeout :
  _aguardar_changeset_completion changeset dzd 300 [0; 1; 2; 3]
    [Ok statusless; Raise (ClientError "ThrottlingException"); Ok (listing "ACTIVE")]
  = (Raises timeout_error,
     [EGetListing dzd changeset; ESleep 1;
      EGetListing dzd changeset;
      EPrint (MsgErroVerificarStatus (ClientError "ThrottlingException"))])
  /\ republicar_asset asset1 dzd
       {| env_change_set := Ok [("listingId", changeset)];
          env_clock := [0; 1; 2; 3];
          env_get_listing :=
            [Ok statusless; Raise (ClientError "ThrottlingException");
             Ok (listing "ACTIVE")] |}
     = (Returns false,
        [ECreateListingChangeSet dzd asset1;
         EGetListing dzd changeset; ESleep 1;
         EGetListing dzd changeset;
         EPrint (MsgErroVerificarStatus (ClientError "ThrottlingException"));
         EPrint (MsgErroRepublicar asset1 timeout_error)]).
Proof.
  assert (Hin : Forall (within_budget 300 0) [1]) by (repeat constructor).
  assert (Hpending : Forall (fun r => is_pending r = true) [statusless])
    by (repeat constructor).
  destruct (polling_error_is_reported_as_timeout changeset dzd 300 0
              [1] [statusless] 2 [3] [Ok (listing "ACTIVE")]
              (ClientError "ThrottlingException")
              eq_refl Hin Hpending eq_refl)
    as (Hwait & Hpublish & _).
  split; [exact Hwait |].
  exact (Hpublish asset1 [("listingId", changeset)] eq_refl eq_refl).
Defined.


Lemma X12_one_failure_one_success :
  exists t,
    main_loop dzd 2 [asset1; asset2]
      [publishing ["FAILED"; "ACTIVE"]; publishing ["ACTIVE"; "ACTIVE"]] 0%nat
    = (Returns 1%nat, t)
    /\ reports t = [MsgFalha asset1; MsgProgresso 1 2; MsgRepublicado asset2]
    /\ verdicts t = [(asset1, false); (asset2, true)]
    /\ progress t = [(1%nat, 2%nat)].
Proof.
  destruct (main_loop_reports_each_asset_once dzd 2 [asset1; asset2]
              [publishing ["FAILED"; "ACTIVE"]; publishing ["ACTIVE"; "ACTIVE"]]
              0%nat eq_refl eq_refl)
    as (oks & final & t & Hrun & Hl & Hf & Hr & Hc & _).
  destruct oks as [| o1 [| o2 [| o3 oks]]]; try discriminate Hl.
  cbn [combine] in Hf, Hr, Hc.
  inversion Hf as [| ? ? ? ? H1 Hf']; subst.
  inversion Hf' as [| ? ? ? ? H2 _]; subst.
  cbn [fst snd] in H1, H2.
  vm_compute in H1. injection H1 as <-.
  vm_compute in H2. injection H2 as <-.
  exists t. rewrite Hrun, Hr.
  split; [reflexivity |]. split; [reflexivity |].
  unfold verdicts, progress. rewrite Hr. split; reflexivity.
Defined.

(** *** The backup *)

(** An asset whose security form holds text that is not JSON. *)
Definition unreadable_asset : asset :=
  {| asset_name := Some (PStr "clients");
     asset_description := None;
     asset_formsOutput :=
       Some [[("formName", PStr "seguranca_privacidade");
              ("content", broken_text)]] |}.

Definition three_assets_page : search_response :=
  {| resp_items := Some [asset_item asset1; asset_item asset2; asset_item asset3];
     resp_nextToken := None |}.

(** The second asset cannot be read. *)
Definition catalog_with_unreadable_asset : datazone_client :=
  {| api_get_asset := fun _ asset_id =>
                        if py_eq asset_id asset2 then Ok unreadable_asset
                        else Ok complete_asset;
     api_create_asset_revision := fun _ => Ok tt;
     api_create_glossary := fun _ => Ok tt;
     api_create_glossary_term := fun _ => Ok tt |}.

Lemma X13_one_file_or_none :
  (exists t df,
      snd (backup_main Json.loads two_assets_catalog dzd prj backup_csv
             [Ok two_assets_page])
      = t ++ [EToCsv backup_csv df]
      /\ csv_writes t = [])
  /\ csv_writes
       (snd (backup_main Json.loads catalog_with_unreadable_asset dzd prj
               backup_csv [Ok three_assets_page]))
     = [].
Proof.
  split.
  - destruct (backup_writes_csv_only_on_success Json.loads two_assets_catalog
                dzd prj backup_csv [Ok two_assets_page]) as [Hreturns _].
    exact (Hreturns eq_refl).
  - destruct (backup_writes_csv_only_on_success Json.loads
                catalog_with_unreadable_asset dzd prj backup_csv
                [Ok three_assets_page]) as [_ Hfails].
    apply Hfails. discriminate.
Defined.

Lemma X14_description_cells :
  (exists df t,
      create_metadata_df Json.loads complete_asset = (Returns df, t)
      /\ List.length (rows df) = 1%nat
      /\ In "Descrição" (columns df)
      /\ cell df 0 "Descrição" = Some (PStr "Orders table"))
  /\ (exists df t,
         create_metadata_df Json.loads asset_without_domain = (Returns df, t)
         /\ List.length (rows df) = 1%nat
         /\ In "Descrição" (columns df)
         /\ cell df 0 "Descrição" = Some (PStr "")).
Proof.
  split.
  - do 2 eexists. split; [reflexivity |].
    exact (create_metadata_df_description_column Json.loads complete_asset
             _ _ eq_refl).
  - do 2 eexists. split; [reflexivity |].
    exact (create_metadata_df_description_column Json.loads asset_without_domain
             _ _ eq_refl).
Defined.

Lemma X15_second_asset_unreadable :
  fst (backup_main Json.loads catalog_with_unreadable_asset dzd prj backup_csv
         [Ok three_assets_page])
  = Raises (ValueError "JSONDecodeError")
  /\ fetched (snd (backup_main Json.loads catalog_with_unreadable_asset dzd prj
                     backup_csv [Ok three_assets_page]))
     = [asset1; asset2]
  /\ csv_writes (snd (backup_main Json.loads catalog_with_unreadable_asset dzd prj
                        backup_csv [Ok three_assets_page]))
     = [].
Proof.
  exact (backup_stops_at_first_failing_asset Json.loads
           catalog_with_unreadable_asset dzd prj backup_csv
           [Ok three_assets_page] [asset1] asset2 [asset3]
           [ESearch (search_request dzd prj PNone)]
           (ValueError "JSONDecodeError")
           eq_refl eq_refl eq_refl).
Defined.

(** *** The lister and the glossary writers *)



(** A catalog that cannot be reached. *)
Definition unreachable : datazone_client :=
  {| api_get_asset := fun _ _ => Raise (OtherError "EndpointConnectionError");
     api_create_asset_revision :=
       fun _ => Raise (OtherError "EndpointConnectionError");
     api_create_glossary := fun _ => Raise (OtherError "EndpointConnectionError");
     api_create_glossary_term :=
       fun _ => Raise (OtherError "EndpointConnectionError") |}.

Lemma X17_glossary_added_or_connection_lost :
  add_glossary (serving orders) dzd prj pii
  = (Returns tt,
     [ECreateGlossary (GlossaryFacts.glossary_request dzd prj pii);
      EPrint (MsgGlossaryAdded pii)])
  /\ add_glossary_term unreachable dzd (PStr "g_1") pii (PStr "desc") (PStr "readme")
     = (Raises (OtherError "EndpointConnectionError"),
        [ECreateGlossaryTerm
           (GlossaryFacts.term_request dzd (PStr "g_1") pii
              (PStr "desc") (PStr "readme"))]).
Proof.
  split.
  - destruct (glossary_writers_report_success_pass_foreign_errors
                (serving orders) dzd prj pii (PStr "g_1") pii
                (PStr "desc") (PStr "readme")) as (Hadded & _).
    exact (Hadded eq_refl).
  - destruct (glossary_writers_report_success_pass_foreign_errors
                unreachable dzd prj pii (PStr "g_1") pii
                (PStr "desc") (PStr "readme")) as (_ & _ & _ & Hpass).
    apply (Hpass (OtherError "EndpointConnectionError")); [| reflexivity].
    intros code H. discriminate H.
Defined.

End MoreScenarios.

(* ===================================================================== *)
(** * Part VII -- the scripts that load a CSV file                         *)
(* ===================================================================== *)

(** ** The fragment of pandas used by the loaders

    The frame that [read_csv] returns is an input of the run.  Only text
    cells are modelled: reading a missing cell ([NaN]) or a numpy scalar
    out of a row leaves the fragment. *)

Module Frames.

(** [df.fillna(v)]: each row binds every column; a missing cell holds [v]. *)
Definition fillna (v : pyval) (df : DataFrame) : DataFrame :=
  {| columns := columns df;
     rows := map (fun r =>
                    map (fun c => (c, match dict_get c r with
                                      | Some x => x
                                      | None => v
                                      end)) (columns df))
                 (rows df) |}.

(** The mask [df[c] == v] on one row: a missing cell equals nothing. *)
Definition cell_is (c : string) (v : pyval) (r : pydict) : bool :=
  match dict_get c r with
  | Some x => py_eq x v
  | None => false
  end.

(** [df[df[c] == v]] *)
Definition where_eq (c : string) (v : pyval) (df : DataFrame) : result DataFrame :=
  if has_column c df
  then Ok {| columns := columns df; rows := filter (cell_is c v) (rows df) |}
  else Raise (KeyError c).

(** [row[c]] for a row of [df]: a label that is no column is a [KeyError]. *)
Definition row_item {E} (df : DataFrame) (row : pydict) (c : string) : T E string :=
  if has_column c df then
    match dict_get c row with
    | Some (PStr s) => wret s
    | _ => wstuck
    end
  else wraise (KeyError c).

End Frames.

(** ** [add_glossary_terms.py] *)

Module GlossaryLoader.
Import Smus SmusRest Frames.
Local Open Scope wide_scope.

Definition nl : string := String (ascii_of_nat 10) EmptyString.

(** The f-string of [main]. *)
Definition readme_text (displayName synonyms references : string) : string :=
  ("### **displayName:** " ++ displayName ++ nl ++ "---" ++ nl
   ++ "### **synonyms:** " ++ synonyms ++ nl ++ "---" ++ nl
   ++ "### **references:** " ++ references)%string.

(** [for _, row in df.iterrows(): add_glossary(...)].  The catalog changes
    as the run goes: [clients] gives it as each call finds it, and the loop
    returns the part of the script that it has not used. *)
Fixpoint create_glossaries (domain_id project_id : pyval) (df : DataFrame)
    (todo : list pydict) (clients : list datazone_client) {struct todo}
  : T event2 (list datazone_client) :=
  match todo with
  | [] => wret clients
  | row :: more =>
      name <- row_item df row "name*" ;;
      match clients with
      | [] => wstuck
      | datazone :: clients' =>
          widen Base (add_glossary datazone domain_id project_id (PStr name)) ;;;
          create_glossaries domain_id project_id df more clients'
      end
  end.

(** [for name, glossary_id in glossary_ids.items(): ...]; the filtered
    frame has columns, so it is [empty] when it has no row. *)
Fixpoint create_terms (domain_id : pyval) (df : DataFrame)
    (glossary_ids : pydict) (clients : list datazone_client)
    {struct glossary_ids} : T event2 unit :=
  match glossary_ids with
  | [] => wret tt
  | (name, glossary_id) :: more =>
      df_filter <- wlift (where_eq "name*" (PStr name) df) ;;
      match rows df_filter with
      | [] => create_terms domain_id df more clients
      | first :: _ =>
          displayName <- row_item df_filter first "displayName" ;;
          synonyms <- row_item df_filter first "synonyms" ;;
          references <- row_item df_filter first "references" ;;
          let readme := readme_text displayName synonyms references in
          term_name <- row_item df_filter first "name*" ;;
          description <- row_item df_filter first "description" ;;
          match clients with
          | [] => wstuck
          | datazone :: clients' =>
              widen Base
                (add_glossary_term datazone domain_id glossary_id
                   (PStr term_name) (PStr description) (PStr readme)) ;;;
              create_terms domain_id df more clients'
          end
      end
  end.

(** [main]; [csv] is what [read_csv] answers. *)
Definition main (domain_id project_id csv_path : pyval) (csv : result DataFrame)
    (clients : list datazone_client) (pages : list (result search_response))
  : T event2 unit :=
  df <- wcall (EReadCsv csv_path ";") csv ;;
  let df := fillna (PStr "") df in
  clients <- create_glossaries domain_id project_id df (rows df) clients ;;
  wemit (Base (ESleep 5)) ;;;
  glossary_ids <- widen Base (list_glossary_ids domain_id project_id pages) ;;
  create_terms domain_id df glossary_ids clients.

End GlossaryLoader.

(** ** Properties of the glossary loader *)

Module LoaderFacts.
Import Smus SmusRest Frames GlossaryLoader.
Local Open Scope wide_scope.

(** *** Reading traces *)

(** The events of [t] that [f] selects, as [f] reads them. *)
Definition pick {A} (f : event2 -> option A) (t : list event2) : list A :=
  flat_map (fun ev => match f ev with Some a => [a] | None => [] end) t.

Lemma pick_app {A} (f : event2 -> option A) (t u : list event2) :
  pick f (t ++ u) = pick f t ++ pick f u.
Proof. unfold pick. apply flat_map_app. Qed.

Lemma pick_none {A} (f : event2 -> option A) (t : list event2) :
  Forall (fun ev => f ev = None) t -> pick f t = [].
Proof.
  induction 1 as [| ev t Hev _ IH]; [reflexivity |].
  unfold pick in *. cbn [flat_map]. rewrite Hev, IH. reflexivity.
Qed.

Definition glossary_calls : list event2 -> list pydict :=
  pick (fun ev => match ev with
                  | Base (ECreateGlossary req) => Some req
                  | _ => None
                  end).

Definition term_calls : list event2 -> list pydict :=
  pick (fun ev => match ev with
                  | Base (ECreateGlossaryTerm req) => Some req
                  | _ => None
                  end).

Definition sleeps : list event2 -> list Z :=
  pick (fun ev => match ev with
                  | Base (ESleep secs) => Some secs
                  | _ => None
                  end).

Definition searches : list event2 -> list pydict :=
  pick (fun ev => match ev with
                  | Base (ESearch params) => Some params
                  | _ => None
                  end).

(** *** Frames of text *)

(** Every cell that a row binds is text. *)
Definition text_cells (df : DataFrame) : bool :=
  forallb (fun row =>
             forallb (fun kv => match snd kv with PStr _ => true | _ => false end)
                     row)
          (rows df).

(** Every row binds every column to text. *)
Definition filled (df : DataFrame) : Prop :=
  forall row c,
    In row (rows df) -> has_column c df = true ->
    exists s, dict_get c row = Some (PStr s).

(** The text under [c], for a row of a filled frame. *)
Definition text_at (c : string) (row : pydict) : string :=
  match dict_get c row with
  | Some (PStr s) => s
  | _ => EmptyString
  end.

Lemma dict_get_fill (f : string -> pyval) (cols : list string) (c : string) :
  dict_get c (map (fun c' => (c', f c')) cols)
  = if existsb (String.eqb c) cols then Some (f c) else None.
Proof.
  induction cols as [| a cols IH]; [reflexivity |].
  cbn [map dict_get existsb]. destruct (String.eqb c a) eqn:E.
  - apply String.eqb_eq in E. subst a. reflexivity.
  - exact IH.
Qed.

Lemma text_cell_lookup (row : pydict) (c : string) (v : pyval) :
  forallb (fun kv => match snd kv with PStr _ => true | _ => false end) row = true ->
  dict_get c row = Some v ->
  exists s, v = PStr s.
Proof.
  induction row as [| [k x] row IH]; [discriminate |].
  cbn [forallb dict_get snd]. intros H Hget.
  apply andb_prop in H as [Hx Hrow].
  destruct (String.eqb c k).
  - injection Hget as <-. destruct x; try discriminate. eauto.
  - apply IH; assumption.
Qed.

Lemma fillna_filled (df : DataFrame) :
  text_cells df = true -> filled (fillna (PStr "") df).
Proof.
  intros Htext row c Hrow Hc. unfold fillna in Hrow. cbn [rows] in Hrow.
  apply in_map_iff in Hrow as (r & <- & Hr).
  rewrite dict_get_fill.
  unfold has_column, fillna in Hc. cbn [columns] in Hc. rewrite Hc.
  destruct (dict_get c r) as [x |] eqn:E; [| eauto].
  unfold text_cells in Htext. rewrite forallb_forall in Htext.
  destruct (text_cell_lookup r c x (Htext r Hr) E) as [s ->]. eauto.
Qed.

Lemma row_item_filled {E} (df : DataFrame) (row : pydict) (c : string) :
  has_column c df = true ->
  (exists s, dict_get c row = Some (PStr s)) ->
  @row_item E df row c = wret (text_at c row).
Proof.
  intros Hc [s Hs]. unfold row_item, text_at. rewrite Hc, Hs. reflexivity.
Qed.

(** *** Calls that settle *)

(** The creation is accepted, or refused because the name exists. *)
Definition settles (answer : result unit) : bool :=
  match answer with
  | Ok _ => true
  | Raise (ClientError code) => String.eqb code "ConflictException"
  | Raise _ => false
  end.

(** Each request settles on the catalog that it finds. *)
Fixpoint settle_all (api : datazone_client -> pydict -> result unit)
    (reqs : list pydict) (clients : list datazone_client) : bool :=
  match reqs with
  | [] => true
  | req :: reqs' =>
      match clients with
      | [] => false
      | datazone :: clients' =>
          settles (api datazone req) && settle_all api reqs' clients'
      end
  end.

Lemma add_glossary_settles datazone domain_id project_id glossary_name :
  settles (api_create_glossary datazone
             (GlossaryFacts.glossary_request domain_id project_id glossary_name))
  = true ->
  exists m,
    add_glossary datazone domain_id project_id glossary_name
    = (Returns tt,
       [ECreateGlossary
          (GlossaryFacts.glossary_request domain_id project_id glossary_name);
        EPrint m]).
Proof.
  unfold GlossaryFacts.glossary_request, add_glossary. cbv zeta.
  destruct (api_create_glossary datazone _) as [[] | e]; cbn [settles].
  - intros _. eexists. reflexivity.
  - destruct e; try discriminate. intros H. cbn. rewrite H.
    eexists. reflexivity.
Qed.

Lemma add_glossary_term_settles datazone domain_id glossary_id term_name
      description readme :
  settles (api_create_glossary_term datazone
             (GlossaryFacts.term_request domain_id glossary_id term_name
                description readme))
  = true ->
  exists m,
    add_glossary_term datazone domain_id glossary_id term_name description readme
    = (Returns tt,
       [ECreateGlossaryTerm
          (GlossaryFacts.term_request domain_id glossary_id term_name
             description readme);
        EPrint m]).
Proof.
  unfold GlossaryFacts.term_request, add_glossary_term. cbv zeta.
  destruct (api_create_glossary_term datazone _) as [[] | e]; cbn [settles].
  - intros _. eexists. reflexivity.
  - destruct e; try discriminate. intros H. cbn. rewrite H.
    eexists. reflexivity.
Qed.

(** When the call does not settle, its error is raised. *)
Lemma add_glossary_unsettled datazone domain_id project_id glossary_name e :
  api_create_glossary datazone
    (GlossaryFacts.glossary_request domain_id project_id glossary_name)
  = Raise e ->
  settles (Raise e) = false ->
  add_glossary datazone domain_id project_id glossary_name
  = (Raises e,
     [ECreateGlossary
        (GlossaryFacts.glossary_request domain_id project_id glossary_name)]).
Proof.
  unfold GlossaryFacts.glossary_request, add_glossary. cbv zeta.
  intros -> H. destruct e; try reflexivity.
  cbn in H |- *. rewrite H. reflexivity.
Qed.

(** *** The two phases *)

(** The request of the glossary of a row. *)
Definition glossary_of (domain_id project_id : pyval) (row : pydict) : pydict :=
  GlossaryFacts.glossary_request domain_id project_id (PStr (text_at "name*" row)).

(** The first row of the frame with the given name. *)
Definition first_row_named (name : string) (df : DataFrame) : option pydict :=
  find (cell_is "name*" (PStr name)) (rows df).

(** The request of the term of a listed glossary, from a row. *)
Definition term_of (domain_id : pyval) (entry : string * pyval) (row : pydict)
  : pydict :=
  GlossaryFacts.term_request domain_id (snd entry) (PStr (fst entry))
    (PStr (text_at "description" row))
    (PStr (readme_text (text_at "displayName" row) (text_at "synonyms" row)
             (text_at "references" row))).

(** One term per listed glossary whose name the frame has, from the first
    row of that name. *)
Definition expected_terms (domain_id : pyval) (df : DataFrame)
    (glossary_ids : pydict) : list pydict :=
  flat_map (fun entry =>
              match first_row_named (fst entry) df with
              | Some row => [term_of domain_id entry row]
              | None => []
              end) glossary_ids.

(** The events of the first phase: creations and their lines. *)
Definition creation_event (ev : event2) : bool :=
  match ev with
  | Base (ECreateGlossary _) | Base (EPrint _) => true
  | _ => false
  end.

(** The events of the second phase: term creations and their lines. *)
Definition term_event (ev : event2) : bool :=
  match ev with
  | Base (ECreateGlossaryTerm _) | Base (EPrint _) => true
  | _ => false
  end.

(** The frame has the five columns that the second phase reads. *)
Definition term_columns (df : DataFrame) : bool :=
  has_column "name*" df && has_column "displayName" df
  && has_column "synonyms" df && has_column "references" df
  && has_column "description" df.

Lemma find_filter_first {A} (f : A -> bool) (l : list A) :
  find f l = match filter f l with x :: _ => Some x | [] => None end.
Proof.
  induction l as [| x l IH]; [reflexivity |].
  simpl. destruct (f x); [reflexivity | exact IH].
Qed.

Lemma create_terms_settled domain_id df :
  filled df -> term_columns df = true ->
  forall glossary_ids clients,
    settle_all api_create_glossary_term
               (expected_terms domain_id df glossary_ids) clients = true ->
    exists t,
      create_terms domain_id df glossary_ids clients = (Returns tt, t)
      /\ term_calls t = expected_terms domain_id df glossary_ids
      /\ forallb term_event t = true.
Proof.
  intros Hfilled Hcols. unfold term_columns in Hcols.
  apply andb_prop in Hcols as [Hcols Hd]. apply andb_prop in Hcols as [Hcols Hr].
  apply andb_prop in Hcols as [Hcols Hs]. apply andb_prop in Hcols as [Hn Hdn].
  induction glossary_ids as [| [name glossary_id] more IH]; intros clients Hall.
  - exists []. repeat split.
  - cbn [create_terms]. unfold where_eq. rewrite Hn. cbn [wlift].
    rewrite wbind_wret. cbn [rows].
    cbn [expected_terms flat_map fst] in Hall |- *.
    unfold first_row_named in Hall |- *. rewrite find_filter_first in Hall |- *.
    destruct (filter (cell_is "name*" (PStr name)) (rows df))
      as [| first rest] eqn:Hf.
    + cbn [app] in Hall |- *. apply IH, Hall.
    + assert (Hin : In first (rows df) /\ cell_is "name*" (PStr name) first = true).
      { apply filter_In. rewrite Hf. left. reflexivity. }
      destruct Hin as [Hin Hname].
      set (df_filter := {| columns := columns df; rows := first :: rest |}).
      assert (Hitem : forall c, has_column c df = true ->
                @row_item event2 df_filter first c = wret (text_at c first)).
      { intros c Hc. apply row_item_filled; [exact Hc | apply Hfilled; assumption]. }
      rewrite !Hitem by assumption. rewrite !wbind_wret. cbv zeta.
      assert (Hsame : text_at "name*" first = name).
      { unfold cell_is in Hname. unfold text_at.
        destruct (Hfilled first "name*" Hin Hn) as [s Hs']. rewrite Hs' in *.
        cbn in Hname. apply String.eqb_eq in Hname. exact Hname. }
      rewrite Hsame.
      cbn [app settle_all] in Hall.
      destruct clients as [| datazone clients]; [discriminate |].
      apply andb_prop in Hall as [Hone Hall].
      unfold term_of in Hone. cbn [fst snd] in Hone.
      destruct (add_glossary_term_settles _ _ _ _ _ _ Hone) as [m Hrun].
      rewrite Hrun. unfold widen. cbn [fst snd map]. rewrite wbind_returns.
      destruct (IH clients Hall) as (t & -> & Hcalls & Hev).
      cbn [fst snd]. eexists. split; [reflexivity |]. split.
      * cbn [app]. unfold term_calls, pick in *. cbn [flat_map app].
        rewrite Hcalls. reflexivity.
      * cbn [app forallb term_event andb]. exact Hev.
Qed.

Lemma creation_events_only (t : list event2) :
  forallb creation_event t = true ->
  term_calls t = [] /\ sleeps t = [] /\ searches t = [].
Proof.
  intros H. rewrite forallb_forall in H.
  repeat split; apply pick_none; apply Forall_forall; intros ev Hev;
    specialize (H ev Hev); destruct ev as [[] | | | |]; try discriminate;
    reflexivity.
Qed.

Lemma term_events_only (t : list event2) :
  forallb term_event t = true ->
  glossary_calls t = [] /\ sleeps t = [] /\ searches t = [].
Proof.
  intros H. rewrite forallb_forall in H.
  repeat split; apply pick_none; apply Forall_forall; intros ev Hev;
    specialize (H ev Hev); destruct ev as [[] | | | |]; try discriminate;
    reflexivity.
Qed.

(** *** What each part of the run can do *)

(** A computation all of whose events satisfy [P]. *)
Definition wquiet {E A} (P : E -> bool) (m : T E A) : Prop :=
  forallb P (snd m) = true.

Lemma wquiet_bind {E A B} (P : E -> bool) (m : T E A) (k : A -> T E B) :
  wquiet P m -> (forall a, wquiet P (k a)) -> wquiet P (wbind m k).
Proof.
  unfold wquiet. intros Hm Hk. destruct m as [[a | e |] t]; cbn in *; auto.
  specialize (Hk a). destruct (k a) as [o t']. cbn in *.
  rewrite forallb_app, Hm, Hk. reflexivity.
Qed.

Lemma wquiet_lift {E A} (P : E -> bool) (r : result A) : wquiet P (@wlift E A r).
Proof. destruct r; reflexivity. Qed.

Lemma wquiet_row_item {E} (P : E -> bool) df row c :
  wquiet P (@row_item E df row c).
Proof.
  unfold row_item. destruct (has_column c df); [| reflexivity].
  destruct (dict_get c row) as [[] |]; reflexivity.
Qed.

Lemma wquiet_widen {A} (P : event2 -> bool) (Q : event -> bool) (m : M A) :
  (forall ev, Q ev = true -> P (Base ev) = true) ->
  forallb Q (snd m) = true ->
  wquiet P (widen Base m).
Proof.
  intros HPQ Hm. unfold wquiet, widen. cbn [snd].
  rewrite forallb_forall in *. intros ev Hev.
  apply in_map_iff in Hev as (ev0 & <- & Hev0). apply HPQ, Hm, Hev0.
Qed.

Definition search_only (ev : event) : bool :=
  match ev with ESearch _ => true | _ => false end.

Definition term_only (ev : event) : bool :=
  match ev with ECreateGlossaryTerm _ | EPrint _ => true | _ => false end.

Lemma add_glossary_items_silent items :
  forall glossary_dict, snd (add_glossary_items items glossary_dict) = [].
Proof.
  induction items as [| item items IH]; intros d; [reflexivity |].
  cbn [add_glossary_items].
  destruct (glossary_entry item) as [[name gid] | e]; [| reflexivity].
  cbn [lift]. rewrite bind_ret. cbn [fst snd].
  destruct name; try reflexivity.
  unfold set_item. fold (@ret pydict (dict_set s gid d)). rewrite bind_ret.
  apply IH.
Qed.

Lemma list_glossary_ids_loop_searches :
  forall pages request_params next_token glossary_dict,
    forallb search_only
      (snd (list_glossary_ids_loop pages request_params next_token glossary_dict))
    = true.
Proof.
  induction pages as [| page pages IH]; intros params tok d; [reflexivity |].
  cbn [list_glossary_ids_loop].
  destruct page as [response | e]; [| reflexivity].
  rewrite call_ok, bind_returns. cbn [snd app forallb search_only andb].
  pose proof (add_glossary_items_silent
                (match resp_items response with
                 | Some items => items
                 | None => []
                 end) d) as Hsilent.
  destruct (add_glossary_items _ d) as [[d' | e |] t]; cbn [snd] in Hsilent;
    subst t; try reflexivity.
  rewrite bind_returns. cbn [app].
  destruct (negb _); [reflexivity | apply IH].
Qed.

Lemma add_glossary_term_term_only datazone domain_id glossary_id term_name
      description readme :
  forallb term_only
    (snd (add_glossary_term datazone domain_id glossary_id term_name
            description readme)) = true.
Proof.
  unfold add_glossary_term. cbv zeta.
  destruct (api_create_glossary_term datazone _) as [[] | e]; [reflexivity |].
  destruct e; try reflexivity.
  cbn. destruct (String.eqb code "ConflictException"); reflexivity.
Qed.

Lemma create_terms_term_events domain_id df :
  forall glossary_ids clients,
    wquiet term_event (create_terms domain_id df glossary_ids clients).
Proof.
  induction glossary_ids as [| [name glossary_id] more IH]; intros clients;
    [reflexivity |].
  cbn [create_terms].
  apply wquiet_bind; [apply wquiet_lift | intros df_filter].
  destruct (rows df_filter) as [| first rest]; [apply IH |].
  repeat (apply wquiet_bind; [apply wquiet_row_item | intros ?]).
  destruct clients as [| datazone clients]; [reflexivity |].
  apply wquiet_bind; [| intros _; apply IH].
  apply (wquiet_widen term_event term_only).
  - intros []; try discriminate; reflexivity.
  - apply add_glossary_term_term_only.
Qed.

Lemma create_glossaries_through domain_id project_id df :
  filled df -> has_column "name*" df = true ->
  forall pre rest clients,
    incl pre (rows df) ->
    settle_all api_create_glossary (map (glossary_of domain_id project_id) pre)
               clients = true ->
    exists t,
      create_glossaries domain_id project_id df (pre ++ rest) clients
      = (fst (create_glossaries domain_id project_id df rest
                (skipn (List.length pre) clients)),
         t ++ snd (create_glossaries domain_id project_id df rest
                     (skipn (List.length pre) clients)))
      /\ glossary_calls t = map (glossary_of domain_id project_id) pre
      /\ forallb creation_event t = true.
Proof.
  intros Hfilled Hcol. induction pre as [| row more IH]; intros rest clients Hin Hs.
  - exists []. cbn [app skipn List.length].
    destruct (create_glossaries domain_id project_id df rest clients).
    repeat split.
  - cbn [app create_glossaries].
    rewrite (row_item_filled df row "name*" Hcol)
      by (apply Hfilled; [apply Hin; left; reflexivity | exact Hcol]).
    rewrite wbind_wret.
    cbn [map settle_all] in Hs. destruct clients as [| datazone clients];
      [discriminate |].
    apply andb_prop in Hs as [Hone Hs].
    destruct (add_glossary_settles _ _ _ _ Hone) as [m Hrun].
    rewrite Hrun. unfold widen. cbn [fst snd map]. rewrite wbind_returns.
    destruct (IH rest clients (fun r Hr => Hin r (or_intror Hr)) Hs)
      as (t & -> & Hcalls & Hev).
    cbn [fst snd List.length skipn]. eexists. split; [| split].
    + rewrite app_assoc. reflexivity.
    + cbn [app map]. unfold glossary_calls, pick in *. cbn [flat_map app].
      rewrite Hcalls. reflexivity.
    + cbn [app forallb creation_event andb]. exact Hev.
Qed.

Lemma searches_only_no_creation (t : trace) :
  forallb search_only t = true ->
  glossary_calls (map Base t) = [] /\ sleeps (map Base t) = []
  /\ term_calls (map Base t) = [].
Proof.
  intros H. rewrite forallb_forall in H.
  repeat split; apply pick_none; apply Forall_forall; intros ev Hev;
    apply in_map_iff in Hev as (ev0 & <- & Hev0);
    specialize (H ev0 Hev0); destruct ev0; try discriminate; reflexivity.
Qed.

(** X18.  The glossary loader calls [add_glossary] once per row of the
    file, in row order, duplicated names included, with the text under
    [name*] (the empty string for a missing cell).  When every creation is
    accepted or refused as a conflict, all these calls come first; then
    comes the one sleep of five seconds, and what follows creates no
    glossary and does not sleep.  When a creation fails otherwise, the run
    raises its error at once: no later row is tried, and the run neither
    sleeps nor lists nor creates a term. *)
Theorem loader_creates_one_glossary_per_row :
  forall domain_id project_id csv_path df0 clients pages,
    let df := fillna (PStr "") df0 in
    let run := main domain_id project_id csv_path (Ok df0) clients pages in
    has_column "name*" df0 = true ->
    text_cells df0 = true ->
    (settle_all api_create_glossary
       (map (glossary_of domain_id project_id) (rows df)) clients = true ->
     exists t1 t2,
       snd run = EReadCsv csv_path ";" :: t1 ++ Base (ESleep 5) :: t2
       /\ glossary_calls t1 = map (glossary_of domain_id project_id) (rows df)
       /\ List.length (glossary_calls t1) = List.length (rows df0)
       /\ forallb creation_event t1 = true
       /\ glossary_calls t2 = []
       /\ sleeps t2 = [])
    /\ (forall pre row post e,
          rows df = pre ++ row :: post ->
          settle_all api_create_glossary
            (map (glossary_of domain_id project_id) pre) clients = true ->
          match skipn (List.length pre) clients with
          | datazone :: _ =>
              api_create_glossary datazone (glossary_of domain_id project_id row)
              = Raise e
          | [] => False
          end ->
          settles (Raise e) = false ->
          fst run = Raises e
          /\ glossary_calls (snd run)
             = map (glossary_of domain_id project_id) (pre ++ [row])
          /\ sleeps (snd run) = []
          /\ searches (snd run) = []
          /\ term_calls (snd run) = []).
Proof.
  intros d p csv_path df0 clients pages df run Hcol Htext.
  assert (Hfilled : filled df) by (apply fillna_filled, Htext).
  assert (Hcol' : has_column "name*" df = true) by exact Hcol.
  subst run. unfold main. rewrite wcall_ok, wbind_returns. cbv zeta.
  fold df. split.
  - intros Hs.
    destruct (create_glossaries_through d p df Hfilled Hcol' (rows df) [] clients
                (fun r Hr => Hr) Hs) as (t1 & Hrun & Hcalls & Hev).
    rewrite app_nil_r in Hrun. rewrite Hrun.
    cbn [create_glossaries wret fst snd]. rewrite app_nil_r.
    rewrite wbind_returns. cbn [fst snd].
    unfold wemit at 1. rewrite wbind_returns. cbn [fst snd app].
    exists t1. eexists. split; [reflexivity |].
    split; [exact Hcalls |]. split.
    { rewrite Hcalls, length_map. unfold df, fillna. cbn [rows].
      apply length_map. }
    split; [exact Hev |].
    pose proof (list_glossary_ids_loop_searches pages
                  [("domainIdentifier", d); ("owningProjectIdentifier", p);
                   ("searchScope", PStr "GLOSSARY")] PNone []) as Hsearch.
    fold (list_glossary_ids d p pages) in Hsearch.
    destruct (list_glossary_ids d p pages) as [[glossary_ids | e |] tl];
      cbn [snd] in Hsearch;
      destruct (searches_only_no_creation tl Hsearch) as (G1 & G2 & _);
      unfold widen; cbn [fst snd];
      try (split; assumption).
    rewrite wbind_returns. cbn [snd].
    pose proof (create_terms_term_events d df glossary_ids
                  (skipn (List.length (rows df)) clients)) as Hterm.
    unfold wquiet in Hterm.
    destruct (term_events_only _ Hterm) as (T1 & T2 & _).
    unfold glossary_calls, sleeps in *. rewrite !pick_app, G1, G2, T1, T2.
    split; reflexivity.
  - intros pre row post e Hrows Hs Hfail Hunsettled.
    assert (Hin : incl pre (rows df)).
    { intros r Hr. rewrite Hrows. apply in_or_app. left. exact Hr. }
    destruct (create_glossaries_through d p df Hfilled Hcol' pre (row :: post)
                clients Hin Hs) as (t1 & Hrun & Hcalls & Hev).
    rewrite Hrows, Hrun.
    destruct (skipn (List.length pre) clients) as [| datazone rest];
      [contradiction |].
    cbn [create_glossaries].
    rewrite (row_item_filled df row "name*" Hcol')
      by (apply Hfilled; [rewrite Hrows; apply in_or_app; right; left; reflexivity
                         | exact Hcol']).
    rewrite wbind_wret.
    unfold glossary_of in Hfail.
    rewrite (add_glossary_unsettled _ _ _ _ _ Hfail Hunsettled).
    unfold widen. cbn [fst snd map wbind app].
    destruct (creation_events_only t1 Hev) as (C1 & C2 & C3).
    unfold glossary_calls, sleeps, searches, term_calls in *.
    split; [reflexivity |].
    change (EReadCsv csv_path ";" :: t1 ++ ?x)
      with ([EReadCsv csv_path ";"] ++ t1 ++ x).
    rewrite !pick_app, Hcalls, C1, C2, C3, map_app.
    repeat split.
Qed.

(** X19.  When the file has the five columns that the loader reads and
    every creation is accepted or refused as a conflict, the loader
    returns, and the terms that it creates are exactly these, in listing
    order: one for each listed glossary whose name occurs under [name*],
    in that glossary, named after it, described by the first row of that
    name and documented by the three-section text made from that row.  A
    listed glossary whose name the file does not have gets no term, and so
    does a row whose glossary the listing does not show.  The run sleeps
    once, after the last glossary creation and before the listing. *)
Theorem loader_creates_terms_of_listed_glossaries :
  forall domain_id project_id csv_path df0 clients pages glossary_ids tl,
    let df := fillna (PStr "") df0 in
    let run := main domain_id project_id csv_path (Ok df0) clients pages in
    term_columns df0 = true ->
    text_cells df0 = true ->
    settle_all api_create_glossary
      (map (glossary_of domain_id project_id) (rows df)) clients = true ->
    list_glossary_ids domain_id project_id pages = (Returns glossary_ids, tl) ->
    settle_all api_create_glossary_term
      (expected_terms domain_id df glossary_ids)
      (skipn (List.length (rows df)) clients) = true ->
    fst run = Returns tt
    /\ term_calls (snd run) = expected_terms domain_id df glossary_ids
    /\ sleeps (snd run) = [5]
    /\ exists t1 t3,
         snd run
         = EReadCsv csv_path ";" :: t1 ++ Base (ESleep 5) :: map Base tl ++ t3
         /\ forallb creation_event t1 = true
         /\ forallb term_event t3 = true.
Proof.
  intros d p csv_path df0 clients pages glossary_ids tl df run
         Hcols Htext Hs Hlist Hterms.
  assert (Hfilled : filled df) by (apply fillna_filled, Htext).
  assert (Hcols' : term_columns df = true) by exact Hcols.
  assert (Hcol : has_column "name*" df = true).
  { unfold term_columns in Hcols'.
    repeat (apply andb_prop in Hcols' as [Hcols' _]). exact Hcols'. }
  destruct (create_glossaries_through d p df Hfilled Hcol (rows df) [] clients
              (fun r Hr => Hr) Hs) as (t1 & Hrun & Hcalls & Hev).
  rewrite app_nil_r in Hrun.
  destruct (create_terms_settled d df Hfilled Hcols' glossary_ids _ Hterms)
    as (t3 & Hrun3 & Hcalls3 & Hev3).
  assert (Hsearch : forallb search_only tl = true).
  { pose proof (list_glossary_ids_loop_searches pages
                  [("domainIdentifier", d); ("owningProjectIdentifier", p);
                   ("searchScope", PStr "GLOSSARY")] PNone []) as H.
    fold (list_glossary_ids d p pages) in H. rewrite Hlist in H. exact H. }
  assert (Hshape :
            run = (Returns tt,
                   EReadCsv csv_path ";"
                   :: t1 ++ Base (ESleep 5) :: map Base tl ++ t3)).
  { subst run. unfold main. rewrite wcall_ok, wbind_returns. cbv zeta.
    fold df. rewrite Hrun.
    cbn [create_glossaries wret fst snd]. rewrite app_nil_r.
    rewrite wbind_returns. cbn [fst snd].
    unfold wemit at 1. rewrite wbind_returns. cbn [fst snd app].
    rewrite Hlist. unfold widen. cbn [fst snd].
    rewrite wbind_returns, Hrun3. reflexivity. }
  rewrite Hshape. cbn [fst snd].
  destruct (creation_events_only t1 Hev) as (C1 & C2 & _).
  destruct (searches_only_no_creation tl Hsearch) as (_ & G2 & G3).
  destruct (term_events_only t3 Hev3) as (_ & T2 & _).
  split; [reflexivity |]. split; [| split].
  - change (EReadCsv csv_path ";" :: t1 ++ Base (ESleep 5) :: map Base tl ++ t3)
      with ([EReadCsv csv_path ";"] ++ t1 ++ [Base (ESleep 5)] ++ map Base tl ++ t3).
    unfold term_calls in *. rewrite !pick_app, C1, G3, Hcalls3. reflexivity.
  - change (EReadCsv csv_path ";" :: t1 ++ Base (ESleep 5) :: map Base tl ++ t3)
      with ([EReadCsv csv_path ";"] ++ t1 ++ [Base (ESleep 5)] ++ map Base tl ++ t3).
    unfold sleeps in *. rewrite !pick_app, C2, G2, T2. reflexivity.
  - exists t1, t3. repeat split; assumption.
Qed.

End LoaderFacts.

(** ** [add_metadataform_to_assest.py] *)

Module Backfill.
Import Smus SmusRest Frames.
Local Open Scope wide_scope.

(** [content.get('tableName')]: only a mapping has [get]. *)
Definition get_tableName {E} (content : pyval) : T E pyval :=
  match content with
  | PDict d => wret (dict_get_or_none "tableName" d)
  | _ => wraise (OtherError "AttributeError")
  end.

(** [df[df['nome_tabela'] == table_name]] for a scalar [table_name]; the
    comparison of a column with a list or a mapping is not modelled. *)
Definition rows_of_table {E} (table_name : pyval) (df : DataFrame)
  : T E DataFrame :=
  df_filter <- wlift (where_eq "nome_tabela" table_name df) ;;
  match table_name with
  | PList _ | PDict _ => wstuck
  | _ => wret df_filter
  end.

Section Scripts.

Variable json_loads : string -> option pyval.
Variable json_dumps : pyval -> string.

(** One of the three forms of [main]. *)
Definition form_of (name : string) (content : pydict) : pydict :=
  [("formName", PStr name);
   ("typeIdentifier", PStr name);
   ("content", PStr (json_dumps (PDict content)))].

Definition forms_of (subdomain domain top_domain privacidade seguranca owner : string)
  : list pydict :=
  [form_of "dominio_de_dados"
     [("subdomain", PStr subdomain);
      ("domain", PStr domain);
      ("top_domain", PStr top_domain)];
   form_of "seguranca_privacidade"
     [("classificacao_privacidade", PStr privacidade);
      ("classificacao_seguranca", PStr seguranca)];
   form_of "ownership" [("owner", PStr owner)]].

(** [for form in forms: add_metadata_form(domain_id, asset_id, form)]; one
    catalog snapshot per call. *)
Fixpoint add_forms (domain_id asset_id : pyval) (forms : list pydict)
    (clients : list datazone_client) {struct forms}
  : T event2 (list datazone_client) :=
  match forms with
  | [] => wret clients
  | form :: more =>
      match clients with
      | [] => wstuck
      | datazone :: clients' =>
          widen Base (add_metadata_form json_loads json_dumps datazone
                        domain_id asset_id form) ;;;
          add_forms domain_id asset_id more clients'
      end
  end.

(** The loop of [main] over the listed assets.  [clients] gives the catalog
    as each call that reaches it finds it: the call of [get_asset] in
    [main], the three calls of [add_metadata_form] and the call of
    [add_asset_description]. *)
Fixpoint backfill_loop (domain_id : pyval) (df : DataFrame)
    (assets_ids : list pyval) (clients : list datazone_client)
    {struct assets_ids} : T event2 unit :=
  match assets_ids with
  | [] => wret tt
  | asset_id :: more =>
      match clients with
      | [] => wstuck
      | datazone :: clients =>
          data <- widen Base (get_asset datazone domain_id asset_id) ;;
          forms_output <- wlift (formsOutput_item data) ;;
          first <- wlift (match forms_output with
                          | form :: _ => Ok form
                          | [] => Raise IndexError
                          end) ;;
          content_str <- wlift (dict_item "content" first) ;;
          content <- wlift (loads_value json_loads content_str) ;;
          table_name <- get_tableName content ;;
          df_filter <- rows_of_table table_name df ;;
          let df_filter := fillna (PStr "") df_filter in
          match rows df_filter with
          | [] =>
              wemit (EPrint2 (MsgNenhumaLinha table_name)) ;;;
              backfill_loop domain_id df more clients
          | row :: _ =>
              description <- row_item df_filter row "Descrição" ;;
              subdomain <- row_item df_filter row "Subdomain" ;;
              domain <- row_item df_filter row "Domain" ;;
              top_domain <- row_item df_filter row "Top Domain" ;;
              privacidade <- row_item df_filter row "Classificação Privacidade" ;;
              seguranca <- row_item df_filter row "Classificação Segurança" ;;
              owner <- row_item df_filter row "Owner" ;;
              let forms :=
                forms_of subdomain domain top_domain privacidade seguranca owner in
              clients <- add_forms domain_id asset_id forms clients ;;
              match clients with
              | [] => wstuck
              | datazone :: clients =>
                  add_asset_description json_dumps datazone domain_id asset_id
                    (PStr description) ;;;
                  backfill_loop domain_id df more clients
              end
          end
      end
  end.

(** [main]; [csv] is what [read_csv] answers. *)
Definition main (domain_id project_id csv_path : pyval) (csv : result DataFrame)
    (pages : list (result search_response)) (clients : list datazone_client)
  : T event2 unit :=
  df <- wcall (EReadCsv csv_path ";") csv ;;
  assets_ids <- widen Base (list_assets_ids domain_id project_id pages) ;;
  backfill_loop domain_id df assets_ids clients.

End Scripts.

End Backfill.

(** ** Properties of the metadata backfill *)

Module BackfillFacts.
Import Smus SmusRest Frames Backfill LoaderFacts SmusRestFacts.
Local Open Scope wide_scope.

(** [m] after the events [t]. *)
Definition prepend {E A} (t : list E) (m : T E A) : T E A := (fst m, t ++ snd m).

Lemma wbind_prepend {E A B} (a : A) (t : list E) (k : A -> T E B) :
  wbind (Returns a, t) k = prepend t (k a).
Proof. apply wbind_returns. Qed.

Lemma wbind_assoc {E A B C} (m : T E A) (f : A -> T E B) (g : B -> T E C) :
  wbind (wbind m f) g = wbind m (fun a => wbind (f a) g).
Proof.
  destruct m as [[a | e |] t]; try reflexivity.
  rewrite !wbind_returns.
  destruct (f a) as [[b | e |] t']; try reflexivity.
  cbn [fst snd]. rewrite !wbind_returns. cbn [fst snd].
  rewrite app_assoc. reflexivity.
Qed.

Lemma wbind_ext {E A B} (m : T E A) (k k' : A -> T E B) :
  (forall a, k a = k' a) -> wbind m k = wbind m k'.
Proof.
  intros H. destruct m as [[a | e |] t]; try reflexivity.
  rewrite !wbind_returns, H. reflexivity.
Qed.

Lemma wide_revisions_app (t u : list event2) :
  wide_revisions (t ++ u) = wide_revisions t ++ wide_revisions u.
Proof.
  induction t as [| ev t IH]; [reflexivity |].
  destruct ev as [[] | | | |]; cbn [app wide_revisions]; rewrite IH; reflexivity.
Qed.

(** A value that a column can be compared with. *)
Definition scalar (v : pyval) : bool :=
  match v with
  | PList _ | PDict _ => false
  | _ => true
  end.

(** The columns that [main] reads. *)
Definition backfill_columns (df : DataFrame) : bool :=
  has_column "nome_tabela" df && has_column "Descrição" df
  && has_column "Subdomain" df && has_column "Domain" df
  && has_column "Top Domain" df
  && has_column "Classificação Privacidade" df
  && has_column "Classificação Segurança" df
  && has_column "Owner" df.

Lemma filter_none {A} (f : A -> bool) (l : list A) :
  forallb (fun x => negb (f x)) l = true -> filter f l = [].
Proof.
  induction l as [| x l IH]; [reflexivity |].
  cbn [forallb filter]. intros H. apply andb_prop in H as [Hx Hl].
  apply negb_true_iff in Hx. rewrite Hx. apply IH, Hl.
Qed.

Lemma row_item_fillna_first {E} (df : DataFrame) (r : pydict) (rest : list pydict)
      (c : string) :
  forallb (fun kv => match snd kv with PStr _ => true | _ => false end) r = true ->
  has_column c df = true ->
  @row_item E (fillna (PStr "") {| columns := columns df; rows := r :: rest |})
    (map (fun c' => (c', match dict_get c' r with
                         | Some x => x
                         | None => PStr ""
                         end)) (columns df))
    c
  = wret (text_at c r).
Proof.
  intros Htext Hc. unfold row_item.
  change (has_column c (fillna (PStr "") {| columns := columns df; rows := r :: rest |}))
    with (has_column c df).
  rewrite Hc, dict_get_fill.
  unfold has_column in Hc. rewrite Hc. unfold text_at.
  destruct (dict_get c r) as [x |] eqn:Ex; [| reflexivity].
  destruct (text_cell_lookup r c x Htext Ex) as [s ->]. reflexivity.
Qed.

Section Facts.

Variable json_loads : string -> option pyval.
Variable json_dumps : pyval -> string.

Local Abbreviation backfill_loop := (Backfill.backfill_loop json_loads json_dumps).
Local Abbreviation add_forms := (Backfill.add_forms json_loads json_dumps).
Local Abbreviation forms_of := (Backfill.forms_of json_dumps).
Local Abbreviation main := (Backfill.main json_loads json_dumps).
Local Abbreviation add_metadata_form :=
  (Smus.add_metadata_form json_loads json_dumps).
Local Abbreviation add_asset_description :=
  (SmusRest.add_asset_description json_dumps).

(** The table name that [main] reads out of an asset: the [tableName] of
    the decoded content of its first form. *)
Definition table_name_of (datazone : datazone_client) (domain_id asset_id : pyval)
  : result pyval :=
  rbind (api_get_asset datazone domain_id asset_id) (fun data =>
  rbind (formsOutput_item data) (fun forms_output =>
  rbind (match forms_output with
         | form :: _ => Ok form
         | [] => Raise IndexError
         end) (fun first =>
  rbind (dict_item "content" first) (fun content_str =>
  rbind (loads_value json_loads content_str) (fun content =>
  match content with
  | PDict d => Ok (dict_get_or_none "tableName" d)
  | _ => Raise (OtherError "AttributeError")
  end))))).

(** The head of one iteration, up to the table name. *)
Lemma backfill_loop_head domain_id df asset_id more datazone clients :
  backfill_loop domain_id df (asset_id :: more) (datazone :: clients)
  = match table_name_of datazone domain_id asset_id with
    | Raise e => (Raises e, [Base (EGetAsset domain_id asset_id)])
    | Ok table_name =>
        prepend [Base (EGetAsset domain_id asset_id)]
          (df_filter <- rows_of_table table_name df ;;
           let df_filter := fillna (PStr "") df_filter in
           match rows df_filter with
           | [] =>
               wemit (EPrint2 (MsgNenhumaLinha table_name)) ;;;
               backfill_loop domain_id df more clients
           | row :: _ =>
               description <- row_item df_filter row "Descrição" ;;
               subdomain <- row_item df_filter row "Subdomain" ;;
               domain <- row_item df_filter row "Domain" ;;
               top_domain <- row_item df_filter row "Top Domain" ;;
               privacidade <- row_item df_filter row "Classificação Privacidade" ;;
               seguranca <- row_item df_filter row "Classificação Segurança" ;;
               owner <- row_item df_filter row "Owner" ;;
               clients <- add_forms domain_id asset_id
                            (forms_of subdomain domain top_domain privacidade
                               seguranca owner) clients ;;
               match clients with
               | [] => wstuck
               | datazone :: clients =>
                   add_asset_description datazone domain_id asset_id
                     (PStr description) ;;;
                   backfill_loop domain_id df more clients
               end
           end)
    end.
Proof.
  cbn [Backfill.backfill_loop]. unfold table_name_of, get_asset.
  destruct (api_get_asset datazone domain_id asset_id) as [data | e];
    [| reflexivity].
  rewrite call_ok. unfold widen. cbn [fst snd map rbind].
  rewrite wbind_prepend.
  destruct (formsOutput_item data) as [forms_output | e]; [| reflexivity].
  cbn [wlift rbind]. rewrite wbind_wret.
  destruct forms_output as [| first others]; [reflexivity |].
  cbn [wlift rbind]. rewrite wbind_wret.
  destruct (dict_item "content" first) as [content_str | e]; [| reflexivity].
  cbn [wlift rbind]. rewrite wbind_wret.
  destruct (loads_value json_loads content_str) as [content | e]; [| reflexivity].
  cbn [wlift rbind]. rewrite wbind_wret.
  destruct content; try reflexivity.
  unfold get_tableName. rewrite wbind_wret. reflexivity.
Qed.

(** The asset is read, and no row of the frame has its table name. *)
Definition unmatched (df : DataFrame) (domain_id : pyval)
    (entry : pyval * datazone_client) : bool :=
  match table_name_of (snd entry) domain_id (fst entry) with
  | Ok table_name =>
      scalar table_name
      && forallb (fun r => negb (cell_is "nome_tabela" table_name r)) (rows df)
  | Raise _ => false
  end.

(** What the loop does with an asset that has no row. *)
Definition skipped (domain_id : pyval) (entry : pyval * datazone_client)
  : list event2 :=
  match table_name_of (snd entry) domain_id (fst entry) with
  | Ok table_name =>
      [Base (EGetAsset domain_id (fst entry));
       EPrint2 (MsgNenhumaLinha table_name)]
  | Raise _ => []
  end.

Lemma backfill_loop_skips domain_id df asset_id more datazone clients :
  has_column "nome_tabela" df = true ->
  unmatched df domain_id (asset_id, datazone) = true ->
  backfill_loop domain_id df (asset_id :: more) (datazone :: clients)
  = prepend (skipped domain_id (asset_id, datazone))
      (backfill_loop domain_id df more clients).
Proof.
  intros Hcol Hun. rewrite backfill_loop_head.
  unfold unmatched, skipped in *. cbn [fst snd] in *.
  destruct (table_name_of datazone domain_id asset_id) as [table_name | e];
    [| discriminate].
  apply andb_prop in Hun as [Hscalar Hnone].
  unfold rows_of_table, where_eq. rewrite Hcol. cbn [wlift]. rewrite wbind_wret.
  rewrite (filter_none _ _ Hnone).
  destruct table_name; try discriminate; rewrite wbind_wret; cbv zeta;
    cbn [fillna rows map];
    unfold wemit; rewrite wbind_returns; unfold prepend; cbn [fst snd app];
    reflexivity.
Qed.

(** X20.  An asset that no row of the file matches is skipped: the
    backfill fetches it, prints the warning and goes on, without submitting
    anything.  A run over assets that are all unmatched returns after one
    fetch and one warning per asset, in listing order, and submits no
    revision.  An asset whose first form has no [tableName] is unmatched
    by every file of text. *)
Theorem backfill_skips_assets_without_row :
  forall domain_id project_id csv_path df pages clients assets_ids tl,
    has_column "nome_tabela" df = true ->
    list_assets_ids domain_id project_id pages = (Returns assets_ids, tl) ->
    List.length clients = List.length assets_ids ->
    forallb (unmatched df domain_id) (combine assets_ids clients) = true ->
    main domain_id project_id csv_path (Ok df) pages clients
    = (Returns tt,
       EReadCsv csv_path ";"
       :: map Base tl
          ++ flat_map (skipped domain_id) (combine assets_ids clients))
    /\ wide_revisions
         (flat_map (skipped domain_id) (combine assets_ids clients)) = []
    /\ (forall datazone asset_id,
          text_cells df = true ->
          table_name_of datazone domain_id asset_id = Ok PNone ->
          unmatched df domain_id (asset_id, datazone) = true).
Proof.
  intros d p csv_path df pages clients assets_ids tl Hcol Hlist Hlen Hall.
  assert (Hloop : backfill_loop d df assets_ids clients
                  = (Returns tt, flat_map (skipped d) (combine assets_ids clients))).
  { clear Hlist. revert clients Hlen Hall.
    induction assets_ids as [| a more IH]; intros clients Hlen Hall.
    - reflexivity.
    - destruct clients as [| dz clients]; [discriminate |].
      injection Hlen as Hlen. cbn [combine forallb] in Hall.
      apply andb_prop in Hall as [Ha Hall].
      rewrite (backfill_loop_skips _ _ _ _ _ _ Hcol Ha), (IH clients Hlen Hall).
      reflexivity. }
  split; [| split].
  - unfold Backfill.main. rewrite wcall_ok, wbind_returns, Hlist.
    unfold widen. cbn [fst snd]. rewrite wbind_returns, Hloop. reflexivity.
  - clear Hloop Hlist Hlen. induction (combine assets_ids clients) as [| entry l IH];
      [reflexivity |].
    cbn [forallb flat_map] in *. apply andb_prop in Hall as [_ Hall].
    rewrite wide_revisions_app, (IH Hall). unfold skipped.
    destruct (table_name_of (snd entry) d (fst entry)); reflexivity.
  - intros dz a Htext Hname. unfold unmatched. cbn [fst snd]. rewrite Hname.
    cbn [scalar andb]. apply forallb_forall. intros r Hr.
    unfold cell_is. destruct (dict_get "nome_tabela" r) as [x |] eqn:Ex;
      [| reflexivity].
    unfold text_cells in Htext. rewrite forallb_forall in Htext.
    destruct (text_cell_lookup r _ x (Htext r Hr) Ex) as [s ->]. reflexivity.
Qed.

(** X21.  For an asset whose table name is that of a row of the file, one
    iteration of the backfill is, after the fetch, this sequence on the
    successive states of the catalog: [add_metadata_form] with the form
    [dominio_de_dados], then with [seguranca_privacidade], then with
    [ownership], then [add_asset_description], all built from the first
    row of that table name, a missing cell being the empty string; then
    the rest of the loop.  The sequence stops at the first call that
    raises. *)
Theorem backfill_updates_matched_asset :
  forall domain_id df asset_id more datazone0 datazone1 datazone2 datazone3
         datazone4 clients table_name r,
    table_name_of datazone0 domain_id asset_id = Ok table_name ->
    scalar table_name = true ->
    backfill_columns df = true ->
    text_cells df = true ->
    find (cell_is "nome_tabela" table_name) (rows df) = Some r ->
    backfill_loop domain_id df (asset_id :: more)
      (datazone0 :: datazone1 :: datazone2 :: datazone3 :: datazone4 :: clients)
    = prepend [Base (EGetAsset domain_id asset_id)]
        (widen Base
           (add_metadata_form datazone1 domain_id asset_id
              (form_of json_dumps "dominio_de_dados"
                 [("subdomain", PStr (text_at "Subdomain" r));
                  ("domain", PStr (text_at "Domain" r));
                  ("top_domain", PStr (text_at "Top Domain" r))])) ;;;
         widen Base
           (add_metadata_form datazone2 domain_id asset_id
              (form_of json_dumps "seguranca_privacidade"
                 [("classificacao_privacidade",
                   PStr (text_at "Classificação Privacidade" r));
                  ("classificacao_seguranca",
                   PStr (text_at "Classificação Segurança" r))])) ;;;
         widen Base
           (add_metadata_form datazone3 domain_id asset_id
              (form_of json_dumps "ownership"
                 [("owner", PStr (text_at "Owner" r))])) ;;;
         add_asset_description datazone4 domain_id asset_id
           (PStr (text_at "Descrição" r)) ;;;
         backfill_loop domain_id df more clients).
Proof.
  intros d df a more dz0 dz1 dz2 dz3 dz4 clients table_name r
         Hname Hscalar Hcols Htext Hfind.
  unfold backfill_columns in Hcols.
  apply andb_prop in Hcols as [Hcols H8]. apply andb_prop in Hcols as [Hcols H7].
  apply andb_prop in Hcols as [Hcols H6]. apply andb_prop in Hcols as [Hcols H5].
  apply andb_prop in Hcols as [Hcols H4]. apply andb_prop in Hcols as [Hcols H3].
  apply andb_prop in Hcols as [H1 H2].
  assert (Hr : forallb (fun kv => match snd kv with PStr _ => true | _ => false end) r
               = true).
  { apply find_some in Hfind as [Hin _].
    unfold text_cells in Htext. rewrite forallb_forall in Htext.
    apply Htext, Hin. }
  rewrite backfill_loop_head, Hname. f_equal.
  unfold rows_of_table, where_eq. rewrite H1. cbn [wlift]. rewrite wbind_wret.
  rewrite find_filter_first in Hfind.
  destruct (filter (cell_is "nome_tabela" table_name) (rows df)) as [| r' rest];
    [discriminate |].
  injection Hfind as ->.
  assert (Hret : forall (x : DataFrame) (k : DataFrame -> T event2 unit),
             wbind (match table_name with
                    | PList _ | PDict _ => wstuck
                    | _ => wret x
                    end) k = k x).
  { intros x k. destruct table_name; try discriminate; apply wbind_wret. }
  rewrite Hret. cbv zeta. cbn [rows fillna map columns].
  rewrite !(row_item_fillna_first df r rest) by assumption.
  rewrite !wbind_wret.
  unfold Backfill.forms_of. cbn [Backfill.add_forms].
  rewrite wbind_assoc. apply wbind_ext. intros _.
  rewrite wbind_assoc. apply wbind_ext. intros _.
  rewrite wbind_assoc. apply wbind_ext. intros _.
  rewrite wbind_wret. reflexivity.
Qed.

(** X22.  An asset from which no table name can be read stops the
    backfill: the error is raised right after the fetch, nothing is
    submitted for this asset and the assets after it are not fetched.
    This is so when the asset cannot be fetched, when it has no form
    list ([KeyError]) or an empty one ([IndexError]), and when the content
    of its first form is missing ([KeyError]), is no text ([TypeError]), is
    text that does not decode ([ValueError]: the decoding is strict here)
    or decodes to something that is no mapping ([AttributeError]). *)
Theorem backfill_stops_at_unreadable_asset :
  forall domain_id df asset_id more datazone clients,
    (forall e,
        table_name_of datazone domain_id asset_id = Raise e ->
        backfill_loop domain_id df (asset_id :: more) (datazone :: clients)
        = (Raises e, [Base (EGetAsset domain_id asset_id)]))
    /\ (forall e,
          api_get_asset datazone domain_id asset_id = Raise e ->
          table_name_of datazone domain_id asset_id = Raise e)
    /\ (forall data,
          api_get_asset datazone domain_id asset_id = Ok data ->
          match asset_formsOutput data with
          | None =>
              table_name_of datazone domain_id asset_id
              = Raise (KeyError "formsOutput")
          | Some [] =>
              table_name_of datazone domain_id asset_id = Raise IndexError
          | Some (first :: _) =>
              match dict_get "content" first with
              | None =>
                  table_name_of datazone domain_id asset_id
                  = Raise (KeyError "content")
              | Some (PStr s) =>
                  match json_loads s with
                  | None =>
                      table_name_of datazone domain_id asset_id
                      = Raise (ValueError "JSONDecodeError")
                  | Some (PDict content) =>
                      table_name_of datazone domain_id asset_id
                      = Ok (dict_get_or_none "tableName" content)
                  | Some _ =>
                      table_name_of datazone domain_id asset_id
                      = Raise (OtherError "AttributeError")
                  end
              | Some _ =>
                  table_name_of datazone domain_id asset_id = Raise TypeError
              end
          end).
Proof.
  intros d df a more dz clients. split; [| split].
  - intros e H. rewrite backfill_loop_head, H. reflexivity.
  - intros e H. unfold table_name_of. rewrite H. reflexivity.
  - intros data H. unfold table_name_of, formsOutput_item, dict_item, loads_value.
    rewrite H. cbn [rbind].
    destruct (asset_formsOutput data) as [[| first others] |]; try reflexivity.
    cbn [rbind].
    destruct (dict_get "content" first) as [[| | | s | |] |]; try reflexivity.
    cbn [rbind].
    destruct (json_loads s) as [[] |]; reflexivity.
Qed.

End Facts.

End BackfillFacts.

(** ** Concrete runs of the loaders *)

Module LoaderScenarios.
Import Smus SmusRest Frames.
Import LoaderFacts BackfillFacts SmusRestFacts.
Import Scenarios MoreScenarios.

(** *** The glossary loader *)

(** Three rows: the name [PII] comes twice, two cells are missing. *)
Definition glossary_csv : DataFrame :=
  {| columns := ["name*"; "displayName"; "synonyms"; "references"; "description"];
     rows :=
       [[("name*", PStr "PII"); ("displayName", PStr "Personal data");
         ("references", PStr "LGPD"); ("description", PStr "Data about a person")];
        [("name*", PStr "Finance"); ("displayName", PStr "Finance");
         ("synonyms", PStr "Money"); ("description", PStr "Financial data")];
        [("name*", PStr "PII"); ("displayName", PStr "PII again");
         ("description", PStr "A second row")]] |}.

Definition glossary_csv_path : pyval := PStr "glossary.csv".

(** The listing shows a glossary that the file does not have. *)
Definition listed_glossaries : search_response :=
  {| resp_items := Some [glossary_item "PII" "g_1"; glossary_item "Legal" "g_9";
                         glossary_item "Finance" "g_2"];
     resp_nextToken := None |}.

(** The second creation is refused as a conflict. *)
Definition settling_catalogs : list datazone_client :=
  [serving orders; refusing orders "ConflictException"; serving orders;
   serving orders; serving orders].

(** The second creation is denied. *)
Definition denying_catalogs : list datazone_client :=
  [serving orders; refusing orders "AccessDeniedException"; serving orders].

Lemma X18_three_rows_three_glossaries_or_denied :
  (exists t1 t2,
      snd (GlossaryLoader.main dzd prj glossary_csv_path (Ok glossary_csv)
             settling_catalogs [Ok listed_glossaries])
      = EReadCsv glossary_csv_path ";" :: t1 ++ Base (ESleep 5) :: t2
      /\ glossary_calls t1
         = [GlossaryFacts.glossary_request dzd prj (PStr "PII");
            GlossaryFacts.glossary_request dzd prj (PStr "Finance");
            GlossaryFacts.glossary_request dzd prj (PStr "PII")]
      /\ glossary_calls t2 = []
      /\ sleeps t2 = [])
  /\ (fst (GlossaryLoader.main dzd prj glossary_csv_path (Ok glossary_csv)
             denying_catalogs [Ok listed_glossaries])
      = Raises (ClientError "AccessDeniedException")
      /\ glossary_calls
           (snd (GlossaryLoader.main dzd prj glossary_csv_path (Ok glossary_csv)
                   denying_catalogs [Ok listed_glossaries]))
         = [GlossaryFacts.glossary_request dzd prj (PStr "PII");
            GlossaryFacts.glossary_request dzd prj (PStr "Finance")]
      /\ sleeps
           (snd (GlossaryLoader.main dzd prj glossary_csv_path (Ok glossary_csv)
                   denying_catalogs [Ok listed_glossaries]))
         = []
      /\ term_calls
           (snd (GlossaryLoader.main dzd prj glossary_csv_path (Ok glossary_csv)
                   denying_catalogs [Ok listed_glossaries]))
         = []).
Proof.
  split.
  - destruct (loader_creates_one_glossary_per_row dzd prj glossary_csv_path
                glossary_csv settling_catalogs [Ok listed_glossaries]
                eq_refl eq_refl) as [Hsettled _].
    destruct (Hsettled eq_refl) as (t1 & t2 & Hrun & Hcalls & _ & _ & Hno & Hsl).
    exists t1, t2. split; [exact Hrun |]. split; [exact Hcalls |].
    split; [exact Hno | exact Hsl].
  - destruct (loader_creates_one_glossary_per_row dzd prj glossary_csv_path
                glossary_csv denying_catalogs [Ok listed_glossaries]
                eq_refl eq_refl) as [_ Hdenied].
    destruct (Hdenied
                (firstn 1 (rows (fillna (PStr "") glossary_csv)))
                (nth 1 (rows (fillna (PStr "") glossary_csv)) [])
                (skipn 2 (rows (fillna (PStr "") glossary_csv)))
                (ClientError "AccessDeniedException")
                eq_refl eq_refl eq_refl eq_refl)
      as (Hraise & Hcalls & Hsl & _ & Hterms).
    split; [exact Hraise |]. split; [exact Hcalls |].
    split; [exact Hsl | exact Hterms].
Defined.

Lemma X19_two_terms_for_three_listed_glossaries :
  fst (GlossaryLoader.main dzd prj glossary_csv_path (Ok glossary_csv)
         settling_catalogs [Ok listed_glossaries])
  = Returns tt
  /\ term_calls
       (snd (GlossaryLoader.main dzd prj glossary_csv_path (Ok glossary_csv)
               settling_catalogs [Ok listed_glossaries]))
     = [GlossaryFacts.term_request dzd (PStr "g_1") (PStr "PII")
          (PStr "Data about a person")
          (PStr (GlossaryLoader.readme_text "Personal data" "" "LGPD"));
        GlossaryFacts.term_request dzd (PStr "g_2") (PStr "Finance")
          (PStr "Financial data")
          (PStr (GlossaryLoader.readme_text "Finance" "Money" ""))]
  /\ sleeps
       (snd (GlossaryLoader.main dzd prj glossary_csv_path (Ok glossary_csv)
               settling_catalogs [Ok listed_glossaries]))
     = [5].
Proof.
  destruct (loader_creates_terms_of_listed_glossaries dzd prj glossary_csv_path
              glossary_csv settling_catalogs [Ok listed_glossaries]
              [("PII", PStr "g_1"); ("Legal", PStr "g_9"); ("Finance", PStr "g_2")]
              [ESearch (glossary_search_request dzd prj PNone)]
              eq_refl eq_refl eq_refl eq_refl eq_refl)
    as (Hret & Hterms & Hsl & _).
  split; [exact Hret |]. split; [exact Hterms | exact Hsl].
Defined.

(** *** The backfill *)

(** One row, for the table [orders]; it has no description. *)
Definition orders_row : pydict :=
  [("nome_tabela", PStr "orders");
   ("Subdomain", PStr "b2b");
   ("Domain", PStr "vendas");
   ("Top Domain", PStr "comercial");
   ("Classificação Privacidade", PStr "interno");
   ("Classificação Segurança", PStr "baixo");
   ("Owner", PStr "ana")].

Definition backfill_csv : DataFrame :=
  {| columns := ["nome_tabela"; "Descrição"; "Subdomain"; "Domain"; "Top Domain";
                 "Classificação Privacidade"; "Classificação Segurança"; "Owner"];
     rows := [orders_row] |}.

Definition backfill_csv_path : pyval := PStr "metadata.csv".

(** An asset whose first form names no table. *)
Definition tableless_asset : asset :=
  {| asset_name := Some (PStr "misc");
     asset_description := None;
     asset_formsOutput := Some [form_named "GlueTableForm" []] |}.

Lemma X20_two_assets_without_row :
  Backfill.main Json.loads Json.dumps dzd prj backfill_csv_path (Ok backfill_csv)
    [Ok two_assets_page]
    [serving asset_without_domain; serving tableless_asset]
  = (Returns tt,
     [EReadCsv backfill_csv_path ";";
      Base (ESearch (ListerFacts.search_request dzd prj PNone));
      Base (EGetAsset dzd asset1);
      EPrint2 (MsgNenhumaLinha (PStr "clients"));
      Base (EGetAsset dzd asset2);
      EPrint2 (MsgNenhumaLinha PNone)])
  /\ unmatched Json.loads backfill_csv dzd (asset2, serving tableless_asset) = true.
Proof.
  destruct (backfill_skips_assets_without_row Json.loads Json.dumps
              dzd prj backfill_csv_path backfill_csv [Ok two_assets_page]
              [serving asset_without_domain; serving tableless_asset]
              [asset1; asset2]
              [ESearch (ListerFacts.search_request dzd prj PNone)]
              eq_refl eq_refl eq_refl eq_refl)
    as (Hrun & _ & Hnone).
  split; [exact Hrun |].
  exact (Hnone (serving tableless_asset) asset2 eq_refl eq_refl).
Defined.

Lemma X21_orders_get_three_forms_and_an_empty_description :
  Backfill.backfill_loop Json.loads Json.dumps dzd backfill_csv [asset1]
    [serving complete_asset; serving complete_asset; serving complete_asset;
     serving complete_asset; serving complete_asset]
  = prepend [Base (EGetAsset dzd asset1)]
      (wbind
         (widen Base
            (add_metadata_form Json.loads Json.dumps (serving complete_asset)
               dzd asset1
               (Backfill.form_of Json.dumps "dominio_de_dados"
                  [("subdomain", PStr "b2b");
                   ("domain", PStr "vendas");
                   ("top_domain", PStr "comercial")])))
         (fun _ =>
            wbind
              (widen Base
                 (add_metadata_form Json.loads Json.dumps (serving complete_asset)
                    dzd asset1
                    (Backfill.form_of Json.dumps "seguranca_privacidade"
                       [("classificacao_privacidade", PStr "interno");
                        ("classificacao_seguranca", PStr "baixo")])))
              (fun _ =>
                 wbind
                   (widen Base
                      (add_metadata_form Json.loads Json.dumps
                         (serving complete_asset) dzd asset1
                         (Backfill.form_of Json.dumps "ownership"
                            [("owner", PStr "ana")])))
                   (fun _ =>
                      wbind
                        (add_asset_description Json.dumps (serving complete_asset)
                           dzd asset1 (PStr ""))
                        (fun _ =>
                           Backfill.backfill_loop Json.loads Json.dumps dzd
                             backfill_csv [] []))))).
Proof.
  exact (backfill_updates_matched_asset Json.loads Json.dumps dzd backfill_csv
           asset1 [] (serving complete_asset) (serving complete_asset)
           (serving complete_asset) (serving complete_asset)
           (serving complete_asset) [] (PStr "orders") orders_row
           eq_refl eq_refl eq_refl eq_refl eq_refl).
Defined.

Lemma X22_broken_content_stops_the_backfill :
  Backfill.backfill_loop Json.loads Json.dumps dzd backfill_csv [asset2; asset1]
    [serving unreadable_asset; serving complete_asset]
  = (Raises (ValueError "JSONDecodeError"), [Base (EGetAsset dzd asset2)])
  /\ table_name_of Json.loads (serving tableless_asset) dzd asset1 = Ok PNone
  /\ table_name_of Json.loads unreachable dzd asset1
     = Raise (OtherError "EndpointConnectionError").
Proof.
  destruct (backfill_stops_at_unreadable_asset Json.loads Json.dumps dzd
              backfill_csv asset2 [asset1] (serving unreadable_asset)
              [serving complete_asset]) as (Hstop & _ & _).
  destruct (backfill_stops_at_unreadable_asset Json.loads Json.dumps dzd
              backfill_csv asset1 [] (serving tableless_asset) [])
    as (_ & _ & Hread).
  destruct (backfill_stops_at_unreadable_asset Json.loads Json.dumps dzd
              backfill_csv asset1 [] unreachable []) as (_ & Hfetch & _).
  split; [| split].
  - exact (Hstop (ValueError "JSONDecodeError") eq_refl).
  - exact (Hread tableless_asset eq_refl).
  - exact (Hfetch (OtherError "EndpointConnectionError") eq_refl).
Defined.

End LoaderScenarios.
